(** * tiler: an ESRI grid parser and a height-to-grey shader

    A shallow embedding of [esri/grid.go] (the grid parser) and [tiler.go]
    (the shader and the rendering driver) of goblimey/tiler, and the
    properties of the two that its specification states.

    Conventions of the embedding:
    - Go's [int] is [Z]; the places where the program would leave the range
      of a machine integer are cut off earlier by [makeslice] (see there);
    - Go's [float32] is IEEE 754 binary32, taken from the Standard Library's
      [SpecFloat] at precision 24 and maximal exponent 128;
    - a Go [string] is a sequence of bytes, which is what [string] is;
    - the process-wide logger, the package-level variables of [tiler.go] and
      the file system are explicit state, threaded by a small state and
      panic monad. *)

From Stdlib Require Import ZArith String Ascii List Bool Lia.
From Stdlib Require Import Floats.SpecFloat.
From stdpp Require Import base option list strings gmap.

Local Open Scope Z_scope.

(* ===================================================================== *)
(** * float32 *)
(* ===================================================================== *)

Module Float32.

Definition prec : Z := 24.
Definition emax : Z := 128.

Definition float32 : Type := spec_float.

Definition zero : float32 := S754_zero false.
Definition NaN : float32 := S754_nan.

Definition add : float32 -> float32 -> float32 := SFadd prec emax.
Definition sub : float32 -> float32 -> float32 := SFsub prec emax.
Definition mul : float32 -> float32 -> float32 := SFmul prec emax.
Definition div : float32 -> float32 -> float32 := SFdiv prec emax.

(** [x < y] and [x > y] of Go: false as soon as one side is a NaN. *)
Definition ltb (x y : float32) : bool := SFltb x y.
Definition gtb (x y : float32) : bool := SFltb y x.
Definition leb (x y : float32) : bool := SFleb x y.
Definition geb (x y : float32) : bool := SFleb y x.

Definition is_nan (x : float32) : bool :=
  match x with S754_nan => true | _ => false end.

(** The float32 nearest to an integer (ties to even). *)
Definition of_Z (n : Z) : float32 := binary_normalize prec emax n 0 false.

(** The float32 nearest to [num / den], for positive [num] and [den]. *)
Definition of_ratio (neg : bool) (num den : positive) : float32 :=
  let '(q, e, l) := SFdiv_core_binary prec emax (Zpos num) 0 (Zpos den) 0 in
  binary_round_aux prec emax neg q e l.

(** The float32 nearest to [m * 10^e]: how a decimal literal or a decimal
    token is converted. *)
Definition of_decimal (neg : bool) (m : N) (e : Z) : float32 :=
  match m with
  | N0 => S754_zero neg
  | Npos p =>
      match e with
      | Z0 => binary_round prec emax neg p 0
      | Zpos k => binary_round prec emax neg (p * Pos.pow 10 k) 0
      | Zneg k => of_ratio neg p (Pos.pow 10 k)
      end
  end.

(** The integer part of a finite float32 (rounding towards zero). *)
Definition truncate (x : float32) : option Z :=
  match x with
  | S754_zero _ => Some 0
  | S754_finite s m e =>
      Some (cond_Zopp s (match e with
                         | Zneg k => Z.shiftr (Zpos m) (Zpos k)
                         | _ => Z.shiftl (Zpos m) e
                         end))
  | _ => None
  end.

End Float32.

Abbreviation float32 := Float32.float32.

(* ===================================================================== *)
(** * The Go run time: errors, panics, the logger, the state monad *)
(* ===================================================================== *)

(** Values of Go's [error] interface that the program can meet. *)
Inductive error : Type :=
| io_EOF                         (* io.EOF *)
| ErrorString (msg : string)     (* an error of fmt or strconv, by its text *)
| PathError (op path : string).  (* *os.PathError *)

Definition Error (e : error) : string :=
  match e with
  | io_EOF => "EOF"
  | ErrorString msg => msg
  | PathError op path => op ++ " " ++ path ++ ": no such file or directory"
  end%string.

(** Run-time panics. *)
Inductive panic : Type :=
| IndexOutOfRange (index len : Z)   (* index out of range [index] with length len *)
| MakeSliceLen                      (* makeslice: len out of range *)
| HugeImage.                        (* image: NewRGBA Rectangle has huge or negative dimensions *)

Inductive result (A : Type) : Type :=
| Ok (a : A)
| Panic (p : panic).
Arguments Ok {A} a.
Arguments Panic {A} p.

(** An operand of a [log.Printf] call. *)
Inductive Arg : Type :=
| AInt (n : Z)
| AStr (s : string)
| AFloat (f : float32).

(** What was handed to the logger: the format and the operands, unrendered. *)
Inductive LogEntry : Type :=
| Printf (format : string) (args : list Arg)
| Println (line : string).

(** The package-level variables of [tiler.go]. ([ceiling64] and [floor64]
    are only the targets of the flags, [maxHeight] and [minHeight] are never
    used: they are left out.) *)
Module Var.
Record Vars : Type := mkVars {
  filename : string;
  output : string;
  ceiling : float32;
  floor : float32;
  verbose : bool;
  maxHeightSet : bool;
  minHeightSet : bool;
  maxShade : Z;          (* uint8 *)
  maxShadeSet : bool;
  minShade : Z;          (* uint8 *)
  minShadeSet : bool
}.

(** The values the variables are declared with. *)
Definition initial : Vars :=
  mkVars EmptyString EmptyString Float32.zero Float32.zero false
         false false 0 false 0 false.

Definition setFloor (v : Vars) (x : float32) : Vars :=
  mkVars (filename v) (output v) (ceiling v) x (verbose v)
         (maxHeightSet v) (minHeightSet v)
         (maxShade v) (maxShadeSet v) (minShade v) (minShadeSet v).
Definition setCeiling (v : Vars) (x : float32) : Vars :=
  mkVars (filename v) (output v) x (floor v) (verbose v)
         (maxHeightSet v) (minHeightSet v)
         (maxShade v) (maxShadeSet v) (minShade v) (minShadeSet v).
Definition setMinHeightSet (v : Vars) (b : bool) : Vars :=
  mkVars (filename v) (output v) (ceiling v) (floor v) (verbose v)
         (maxHeightSet v) b
         (maxShade v) (maxShadeSet v) (minShade v) (minShadeSet v).
Definition setMaxHeightSet (v : Vars) (b : bool) : Vars :=
  mkVars (filename v) (output v) (ceiling v) (floor v) (verbose v)
         b (minHeightSet v)
         (maxShade v) (maxShadeSet v) (minShade v) (minShadeSet v).
Definition setMaxShade (v : Vars) (n : Z) : Vars :=
  mkVars (filename v) (output v) (ceiling v) (floor v) (verbose v)
         (maxHeightSet v) (minHeightSet v)
         n (maxShadeSet v) (minShade v) (minShadeSet v).
Definition setMaxShadeSet (v : Vars) (b : bool) : Vars :=
  mkVars (filename v) (output v) (ceiling v) (floor v) (verbose v)
         (maxHeightSet v) (minHeightSet v)
         (maxShade v) b (minShade v) (minShadeSet v).
Definition setMinShade (v : Vars) (n : Z) : Vars :=
  mkVars (filename v) (output v) (ceiling v) (floor v) (verbose v)
         (maxHeightSet v) (minHeightSet v)
         (maxShade v) (maxShadeSet v) n (minShadeSet v).
Definition setMinShadeSet (v : Vars) (b : bool) : Vars :=
  mkVars (filename v) (output v) (ceiling v) (floor v) (verbose v)
         (maxHeightSet v) (minHeightSet v)
         (maxShade v) (maxShadeSet v) (minShade v) b.
End Var.

(** State of a run: the files by path, the paths at which no file can be
    created, what was logged (latest first), and the package-level
    variables. *)
Record World : Type := mkWorld {
  files : gmap string string;
  denied : gset string;
  logged : list LogEntry;
  vars : Var.Vars
}.

Definition M (A : Type) : Type := World -> result A * World.

#[global] Instance M_ret : MRet M := fun A a w => (Ok a, w).
#[global] Instance M_bind : MBind M := fun A B f m w =>
  match m w with
  | (Ok a, w') => f a w'
  | (Panic p, w') => (Panic p, w')
  end.

Definition throw {A} (p : panic) : M A := fun w => (Panic p, w).

Definition log_Printf (format : string) (args : list Arg) : M unit :=
  fun w =>
    (Ok tt, mkWorld (files w) (denied w) (Printf format args :: logged w) (vars w)).

Definition log_Println (line : string) : M unit :=
  fun w =>
    (Ok tt, mkWorld (files w) (denied w) (Println line :: logged w) (vars w)).

(** Reading and assigning the package-level variables. *)
Definition gets {A} (f : Var.Vars -> A) : M A := fun w => (Ok (f (vars w)), w).

Definition modify (f : Var.Vars -> Var.Vars) : M unit :=
  fun w => (Ok tt, mkWorld (files w) (denied w) (logged w) (f (vars w))).

Definition when (b : bool) (m : M unit) : M unit := if b then m else mret tt.

Definition len {A} (l : list A) : Z := Z.of_nat (length l).

(** [l[i]]: a panic outside [0 <= i < len(l)]. *)
Definition index {A} (l : list A) (i : Z) : M A :=
  if (i <? 0) || (len l <=? i) then throw (IndexOutOfRange i (len l))
  else match l !! Z.to_nat i with
       | Some a => mret a
       | None => throw (IndexOutOfRange i (len l))
       end.

(** [l[i] = a]: a panic outside [0 <= i < len(l)]. *)
Definition store {A} (l : list A) (i : Z) (a : A) : M (list A) :=
  if (i <? 0) || (len l <=? i) then throw (IndexOutOfRange i (len l))
  else mret (<[Z.to_nat i := a]> l).

(** [make([]T, n)] for elements of [elemSize] bytes: the run time panics on a
    negative length and on one whose memory exceeds [maxAlloc] (2^48 on
    64-bit targets); a request within that bound is taken to succeed. *)
Definition maxAlloc : Z := 2 ^ 48.

Definition makeslice {A} (elemSize : Z) (zero : A) (n : Z) : M (list A) :=
  if (n <? 0) || (maxAlloc <? elemSize * n) then throw MakeSliceLen
  else mret (replicate (Z.to_nat n) zero).

(* ===================================================================== *)
(** * Library functions on strings *)
(* ===================================================================== *)

Definition nl : ascii := "010"%char.
Definition newline : string := String nl EmptyString.

Module strings.

(** ASCII white space: tab, line feed, vertical tab, form feed, carriage
    return, space. The white space of Unicode beyond ASCII, which takes
    several bytes, is not recognised here. *)
Definition isSpace (c : ascii) : bool :=
  let n := N_of_ascii c in
  ((9 <=? n) && (n <=? 13) || (n =? 32))%N.

Definition isEmpty (s : string) : bool :=
  match s with EmptyString => true | _ => false end.

Fixpoint TrimLeft (s : string) : string :=
  match s with
  | EmptyString => EmptyString
  | String c s' => if isSpace c then TrimLeft s' else s
  end.

Fixpoint TrimRight (s : string) : string :=
  match s with
  | EmptyString => EmptyString
  | String c s' =>
      let t := TrimRight s' in
      if isSpace c && isEmpty t then EmptyString else String c t
  end.

Definition TrimSpace (s : string) : string := TrimRight (TrimLeft s).

(** [strings.Split(s, " ")]: the fields between single spaces; one field
    more than there are spaces, so never an empty list. *)
Fixpoint Split (s : string) : list string :=
  match s with
  | EmptyString => [EmptyString]
  | String c s' =>
      if Ascii.eqb c " " then EmptyString :: Split s'
      else match Split s' with
           | t :: ts => String c t :: ts
           | [] => [String c EmptyString]
           end
  end.

End strings.

Module regexp.

(** [regexp.MustCompile("  +").ReplaceAllLiteralString(s, " ")]: every
    maximal run of two or more spaces becomes one space. *)
Fixpoint collapseSpaces (s : string) : string :=
  match s with
  | EmptyString => EmptyString
  | String c s' =>
      match s' with
      | String c' _ =>
          if Ascii.eqb c " " && Ascii.eqb c' " " then collapseSpaces s'
          else String c (collapseSpaces s')
      | EmptyString => s
      end
  end.

End regexp.

Module bufio.

(** A reader over an in-memory file, used only through
    [ReadString('\n')]: the complete lines still to come, each with its
    line feed, and what follows the last line feed. *)
Record Reader : Type := mkReader {
  pending : list string;
  partial : string
}.

Fixpoint NewReader (content : string) : Reader :=
  match content with
  | EmptyString => mkReader [] EmptyString
  | String c s' =>
      let r := NewReader s' in
      if Ascii.eqb c nl then mkReader (newline :: pending r) (partial r)
      else match pending r with
           | l :: ls => mkReader (String c l :: ls) (partial r)
           | [] => mkReader [] (String c (partial r))
           end
  end.

(** [r.ReadString('\n')]: the next line with its line feed; at the end of
    the input, what is left together with [io.EOF]. *)
Definition ReadString (r : Reader) : string * option error * Reader :=
  match pending r with
  | l :: ls => (l, None, mkReader ls (partial r))
  | [] => (partial r, Some io_EOF, mkReader [] EmptyString)
  end.

End bufio.

Module fmt.

(** [fmt.Sscanf(tok, "%d", &n)] and [fmt.Sscanf(tok, "%f", &f)] with [n] an
    [int] and [f] a [float32]: the scanned value or the error. The parser
    is stated over any such pair of functions. *)
Class Scanner : Type := {
  Sscanf_d : string -> Z + error;
  Sscanf_f : string -> float32 + error
}.

(** ** The decimal fragment of the two verbs

    Leading white space, an optional sign, decimal digits, and for [%f] a
    fraction, a decimal exponent, [nan] and [inf]. What follows the number
    in the token is left unread, as [Sscanf] does. Hexadecimal mantissas,
    [p] exponents and [_] digit separators are outside this fragment. *)

Definition digit (c : ascii) : option N :=
  let n := N_of_ascii c in
  if ((48 <=? n) && (n <=? 57))%N then Some (n - 48)%N else None.

(** Reads digits onto the value [acc]; returns the value, how many digits
    were read and the rest. *)
Fixpoint scanDigits (s : string) (acc : N) (n : Z) : N * Z * string :=
  match s with
  | EmptyString => (acc, n, s)
  | String c s' =>
      match digit c with
      | Some d => scanDigits s' (10 * acc + d)%N (n + 1)
      | None => (acc, n, s)
      end
  end.

Definition acceptSign (s : string) : bool * string :=
  match s with
  | String "-" s' => (true, s')
  | String "+" s' => (false, s')
  | _ => (false, s)
  end.

Definition lower (c : ascii) : ascii :=
  let n := N_of_ascii c in
  if ((65 <=? n) && (n <=? 90))%N then ascii_of_N (n + 32) else c.

(** Whether [s] starts with the lower-case word [w], in either case. *)
Fixpoint acceptWord (w s : string) : bool :=
  match w, s with
  | EmptyString, _ => true
  | String a w', String c s' => Ascii.eqb a (lower c) && acceptWord w' s'
  | String _ _, EmptyString => false
  end.

Definition expected_integer : error := ErrorString "expected integer".
Definition unexpected_EOF : error := ErrorString "unexpected EOF".
Definition invalid_syntax : error := ErrorString "invalid syntax".
Definition out_of_range : error := ErrorString "value out of range".

Definition decimal_d (tok : string) : Z + error :=
  let s := strings.TrimLeft tok in
  if strings.isEmpty s then inr unexpected_EOF
  else
    let '(neg, s1) := acceptSign s in
    let '(v, n, _) := scanDigits s1 0 0 in
    if n =? 0 then inr expected_integer
    else
      let z := cond_Zopp neg (Z.of_N v) in
      if (- 2 ^ 63 <=? z) && (z <? 2 ^ 63) then inl z else inr out_of_range.

Definition decimal_exponent (s : string) : option Z :=
  match s with
  | String c t =>
      if Ascii.eqb (lower c) "e" then
        let '(eneg, t1) := acceptSign t in
        let '(ev, n, _) := scanDigits t1 0 0 in
        if n =? 0 then None else Some (cond_Zopp eneg (Z.of_N ev))
      else Some 0
  | EmptyString => Some 0
  end.

Definition decimal_f (tok : string) : float32 + error :=
  let s := strings.TrimLeft tok in
  if strings.isEmpty s then inr unexpected_EOF
  else if acceptWord "nan" s then inl Float32.NaN
  else
    let '(neg, s1) := acceptSign s in
    if acceptWord "inf" s1 then inl (S754_infinity neg)
    else
      let '(ip, n1, s2) := scanDigits s1 0 0 in
      let '(m, n2, s3) :=
        match s2 with
        | String "." t => scanDigits t ip 0
        | _ => (ip, 0, s2)
        end in
      match decimal_exponent s3 with
      | None => inr invalid_syntax
      | Some e =>
          if n1 + n2 =? 0 then inr invalid_syntax
          else
            match Float32.of_decimal neg m (e - n2) with
            | S754_infinity _ => inr out_of_range
            | f => inl f
            end
      end.

Definition decimal : Scanner :=
  {| Sscanf_d := decimal_d; Sscanf_f := decimal_f |}.

End fmt.

(** [os.Open(path)] followed by reading the file: its content, or the error
    of a path that names no file. *)
Definition os_Open (path : string) : M (string + error) :=
  fun w =>
    match files w !! path with
    | Some content => (Ok (inl content), w)
    | None => (Ok (inr (PathError "open" path)), w)
    end.

(* ===================================================================== *)
(** * Package esri: the grid and its parser ([esri/grid.go]) *)
(* ===================================================================== *)

Module esri.
Import fmt bufio.
Local Open Scope string_scope.
Local Open Scope Z_scope.

Record Grid : Type := mkGrid {
  ncols : Z;
  nrows : Z;
  xllcorner : float32;
  yllcorner : float32;
  cellsize : float32;
  noDataValue : Z;
  maxHeightSet : bool;
  maxHeight : float32;
  minHeightSet : bool;
  minHeight : float32;
  height : list (list float32);
  verbose : bool
}.

(** [Grid{}]: every field at its zero value. *)
Definition zeroGrid : Grid :=
  mkGrid 0 0 Float32.zero Float32.zero Float32.zero 0
         false Float32.zero false Float32.zero [] false.

Definition Ncols (g : Grid) : Z := ncols g.
Definition Nrows (g : Grid) : Z := nrows g.
Definition Xllcorner (g : Grid) : float32 := xllcorner g.
Definition Yllcorner (g : Grid) : float32 := yllcorner g.
Definition CellSize (g : Grid) : float32 := cellsize g.
Definition NoDataValue (g : Grid) : Z := noDataValue g.
Definition MaxHeight (g : Grid) : float32 := maxHeight g.
Definition MinHeight (g : Grid) : float32 := minHeight g.

Definition SetNCols (g : Grid) (n : Z) : Grid :=
  mkGrid n (nrows g) (xllcorner g) (yllcorner g) (cellsize g)
         (noDataValue g) (maxHeightSet g) (maxHeight g) (minHeightSet g)
         (minHeight g) (height g) (verbose g).

Definition SetNRows (g : Grid) (n : Z) : Grid :=
  mkGrid (ncols g) n (xllcorner g) (yllcorner g) (cellsize g)
         (noDataValue g) (maxHeightSet g) (maxHeight g) (minHeightSet g)
         (minHeight g) (height g) (verbose g).

Definition SetXllcorner (g : Grid) (x : float32) : Grid :=
  mkGrid (ncols g) (nrows g) x (yllcorner g) (cellsize g)
         (noDataValue g) (maxHeightSet g) (maxHeight g) (minHeightSet g)
         (minHeight g) (height g) (verbose g).

Definition SetYllcorner (g : Grid) (y : float32) : Grid :=
  mkGrid (ncols g) (nrows g) (xllcorner g) y (cellsize g)
         (noDataValue g) (maxHeightSet g) (maxHeight g) (minHeightSet g)
         (minHeight g) (height g) (verbose g).

Definition SetCellSize (g : Grid) (c : float32) : Grid :=
  mkGrid (ncols g) (nrows g) (xllcorner g) (yllcorner g) c
         (noDataValue g) (maxHeightSet g) (maxHeight g) (minHeightSet g)
         (minHeight g) (height g) (verbose g).

Definition SetNoDataValue (g : Grid) (n : Z) : Grid :=
  mkGrid (ncols g) (nrows g) (xllcorner g) (yllcorner g) (cellsize g)
         n (maxHeightSet g) (maxHeight g) (minHeightSet g)
         (minHeight g) (height g) (verbose g).

(** Assignments to the unexported fields. *)
Definition setMax (g : Grid) (h : float32) : Grid :=
  mkGrid (ncols g) (nrows g) (xllcorner g) (yllcorner g) (cellsize g)
         (noDataValue g) true h (minHeightSet g)
         (minHeight g) (height g) (verbose g).

Definition setMin (g : Grid) (h : float32) : Grid :=
  mkGrid (ncols g) (nrows g) (xllcorner g) (yllcorner g) (cellsize g)
         (noDataValue g) (maxHeightSet g) (maxHeight g) true
         h (height g) (verbose g).

Definition setMatrix (g : Grid) (m : list (list float32)) : Grid :=
  mkGrid (ncols g) (nrows g) (xllcorner g) (yllcorner g) (cellsize g)
         (noDataValue g) (maxHeightSet g) (maxHeight g) (minHeightSet g)
         (minHeight g) m (verbose g).

(** [g.height[i][col]] *)
Definition Height (g : Grid) (i col : Z) : M float32 :=
  r ← index (height g) i;
  index r col.

Definition SetHeight (g : Grid) (row col : Z) (h : float32) : M Grid :=
  if (row >=? nrows g) || (col >=? ncols g) then
    log_Printf "SetHeight(%d,%d) - out of range" [AInt row; AInt col];;
    mret g
  else
    r ← index (height g) row;
    r' ← store r col h;
    let g := setMatrix g (<[Z.to_nat row := r']> (height g)) in
    let g :=
      if maxHeightSet g then
        if Float32.gtb h (maxHeight g) then setMax g h else g
      else setMax g h in
    let g :=
      if minHeightSet g then
        if Float32.ltb h (minHeight g) then setMin g h else g
      else setMin g h in
    mret g.

Definition stripSpaces (s : string) : string * option error :=
  let s := strings.TrimSpace s in
  (* regexp.Compile("  +") compiles: no error *)
  (regexp.collapseSpaces s, None).

Section Parser.
Context {scanner : Scanner}.

Definition readIntFromHeader (r : Reader) (fieldName : string)
    (verbose : bool) : M (Reader * (Z + error)) :=
  let m := "readIntHeader" in
  let '(line, err, r) := ReadString r in
  match err with
  | Some err => mret (r, inr err)
  | None =>
      when verbose (log_Printf "%s: line %s" [AStr m; AStr line]);;
      let '(line, err) := stripSpaces line in
      let field := strings.Split line in
      f0 ← index field 0;
      when (negb (String.eqb f0 fieldName))
           (log_Printf "%s: expected %s, got %s"
                       [AStr m; AStr fieldName; AStr line]);;
      f1 ← index field 1;
      match Sscanf_d f1 with
      | inr err => mret (r, inr err)
      | inl result =>
          when verbose
               (log_Printf "%s: %s %d" [AStr m; AStr fieldName; AInt result]);;
          mret (r, inl result)
      end
  end.

Definition readFloat32FromHeader (r : Reader) (fieldName : string)
    (verbose : bool) : M (Reader * (float32 + error)) :=
  let m := "readFloat32FromHeader" in
  let '(line, err, r) := ReadString r in
  match err with
  | Some err => mret (r, inr err)
  | None =>
      when verbose (log_Printf "%s: line %s" [AStr m; AStr line]);;
      let '(line, err) := stripSpaces line in
      let field := strings.Split line in
      f0 ← index field 0;
      when (negb (String.eqb f0 fieldName))
           (log_Printf "%s: expected %s, got %s"
                       [AStr m; AStr fieldName; AStr line]);;
      f1 ← index field 1;
      match Sscanf_f f1 with
      | inr err => mret (r, inr err)
      | inl result =>
          when verbose
               (log_Printf "%s: %s %f" [AStr m; AStr fieldName; AFloat result]);;
          mret (r, inl result)
      end
  end.

(** [for i := 0; i < g.nrows; i++ { g.height[i] = make([]float32, g.ncols) }],
    with [todo] rounds to go. *)
Fixpoint allocRows (todo : nat) (i : Z) (ncols : Z)
    (height : list (list float32)) : M (list (list float32)) :=
  match todo with
  | O => mret height
  | S todo' =>
      r ← makeslice 4 Float32.zero ncols;
      height ← store height i r;
      allocRows todo' (i + 1) ncols height
  end.

(** How the loop over the data lines is left: by [break], or by a
    [return nil, err] out of the function. *)
Inductive loopExit : Type :=
| Break (lineNum : Z) (g : Grid)
| Return (err : error).

(** [for col := range numbers { ... }] from [col] on, [rest] being
    [numbers[col:]]. *)
Fixpoint readCols (verbose : bool) (rest : list string) (row col : Z)
    (g : Grid) : M (Grid + error) :=
  match rest with
  | [] => mret (inl g)
  | number :: rest' =>
      match Sscanf_f number with
      | inr err =>
          log_Printf "%d %d %s" [AInt row; AInt col; AStr (Error err)];;
          mret (inr err)
      | inl f =>
          g ← SetHeight g row col f;
          when verbose
               (h ← Height g row col;
                log_Printf "height[%d][%d] %f" [AInt row; AInt col; AFloat h]);;
          readCols verbose rest' row (col + 1) g
      end
  end.

(** [for row := 0;; row++ { ... }] from [row] on; [lines] is what
    [r.ReadString] will deliver, line by line, before it reports
    [io.EOF]. *)
Fixpoint readRows (filename : string) (verbose : bool) (linesExpected : Z)
    (lines : list string) (row lineNum : Z) (g : Grid) : M loopExit :=
  let m := "ReadGridFromFile" in
  match lines with
  | [] => mret (Break lineNum g)       (* err != nil: break *)
  | line :: lines' =>
      let lineNum := lineNum + 1 in
      if lineNum >? linesExpected then
        log_Printf
          ("%s: warning: file %s has too many lines - expected %d" ++ newline)
          [AStr m; AStr filename; AInt linesExpected];;
        mret (Break lineNum g)
      else
        let '(line, err) := stripSpaces line in
        match err with
        | Some err =>
            log_Printf "%s: stripSpaces failed - %s" [AStr m; AStr (Error err)];;
            mret (Return err)
        | None =>
            when verbose (log_Println line);;
            let numbers := strings.Split line in
            if len numbers >? ncols g then
              log_Printf
                ("warning: line %d has too many columns - got %d expected %d"
                   ++ newline)
                [AInt lineNum; AInt (len numbers); AInt (ncols g)];;
              readRows filename verbose linesExpected lines' (row + 1) lineNum g
            else if len numbers <? ncols g then
              log_Printf
                ("warning: line %d has too few columns - got %d expected %d"
                   ++ newline)
                [AInt lineNum; AInt (len numbers); AInt (ncols g)];;
              readRows filename verbose linesExpected lines' (row + 1) lineNum g
            else
              res ← readCols verbose numbers row 0 g;
              match res with
              | inr err => mret (Return err)
              | inl g =>
                  readRows filename verbose linesExpected lines' (row + 1) lineNum g
              end
        end
  end.

Definition ReadGridFromFile (filename : string) (verbose : bool)
    : M (Grid + error) :=
  let m := "ReadGridFromFile" in
  when verbose (log_Printf "%s: %s" [AStr m; AStr filename]);;
  in_ ← os_Open filename;
  match in_ with
  | inr err =>
      log_Printf (filename ++ Error err) [];;
      mret (inr err)
  | inl content =>
  let g := zeroGrid in
  let r := NewReader content in
  let lineNum := 0 in
  let fieldName := "ncols" in
  '(r, res) ← readIntFromHeader r fieldName verbose;
  match res with inr err => mret (inr err) | inl v =>
  let g := SetNCols g v in
  let lineNum := lineNum + 1 in
  when verbose (log_Printf "%s: %s %d" [AStr m; AStr fieldName; AInt (ncols g)]);;

  let fieldName := "nrows" in
  '(r, res) ← readIntFromHeader r fieldName verbose;
  match res with inr err => mret (inr err) | inl v =>
  let g := SetNRows g v in
  let lineNum := lineNum + 1 in
  when verbose (log_Printf "%s: %s %d" [AStr m; AStr fieldName; AInt (nrows g)]);;

  rows ← makeslice 24 [] (nrows g);
  rows ← allocRows (Z.to_nat (nrows g)) 0 (ncols g) rows;
  let g := setMatrix g rows in

  let fieldName := "xllcorner" in
  '(r, res) ← readFloat32FromHeader r fieldName verbose;
  match res with inr err => mret (inr err) | inl v =>
  let g := SetXllcorner g v in
  let lineNum := lineNum + 1 in
  when verbose (log_Printf "%s: %s %f" [AStr m; AStr fieldName; AFloat (xllcorner g)]);;

  let fieldName := "yllcorner" in
  '(r, res) ← readFloat32FromHeader r fieldName verbose;
  match res with inr err => mret (inr err) | inl v =>
  let g := SetYllcorner g v in
  let lineNum := lineNum + 1 in
  when verbose (log_Printf "%s: %s %f" [AStr m; AStr fieldName; AFloat (yllcorner g)]);;

  let fieldName := "cellsize" in
  '(r, res) ← readFloat32FromHeader r fieldName verbose;
  match res with inr err => mret (inr err) | inl v =>
  let g := SetCellSize g v in
  let lineNum := lineNum + 1 in
  when verbose (log_Printf "%s: %s %f" [AStr m; AStr fieldName; AFloat (cellsize g)]);;

  let fieldName := "NODATA_value" in
  '(r, res) ← readIntFromHeader r fieldName verbose;
  match res with inr err => mret (inr err) | inl v =>
  let g := SetNoDataValue g v in
  let lineNum := lineNum + 1 in

  log_Printf "NODATA_value %d" [AInt (noDataValue g)];;

  log_Printf "%s: reading %d data lines" [AStr m; AInt (nrows g)];;

  let linesExpected := nrows g + 6 in

  exit ← readRows filename verbose linesExpected (pending r) 0 lineNum g;
  match exit with
  | Return err => mret (inr err)
  | Break lineNum g =>
      when (lineNum <? linesExpected)
           (log_Printf
              ("warning: file %s has too few lines - got %d expected %d" ++ newline)
              [AStr filename; AInt lineNum; AInt linesExpected]);;
      when verbose
           (log_Printf "maxHeight %f minheight %f"
                       [AFloat (maxHeight g); AFloat (minHeight g)]);;
      mret (inl g)
  end
  end end end end end end
  end.

End Parser.

End esri.

(** A file opened for writing: its path. *)
Definition File : Type := string.

(** [os.Create(path)]: the file is created, or truncated when it exists. *)
Definition os_Create (path : string) : M (File + error) :=
  fun w =>
    if decide (path ∈ denied w) then (Ok (inr (PathError "open" path)), w)
    else (Ok (inl path),
          mkWorld (<[path := EmptyString]> (files w)) (denied w) (logged w) (vars w)).

(** [f.Write(data)] at the end of the file. *)
Definition os_Write (f : File) (data : string) : M unit :=
  fun w =>
    (Ok tt,
     mkWorld (<[f := (default EmptyString (files w !! f) ++ data)%string]> (files w))
             (denied w) (logged w) (vars w)).

(* ===================================================================== *)
(** * Packages image, image/color and image/png *)
(* ===================================================================== *)

Module color.

Record Gray : Type := mkGray { Y : Z (* uint8 *) }.

Record RGBA : Type := mkRGBA { R : Z; G : Z; B : Z; A : Z (* uint8 each *) }.

(** [color.RGBAModel.Convert(c)] for a grey [c]. *)
Definition RGBAModel_Convert (c : Gray) : RGBA := mkRGBA (Y c) (Y c) (Y c) 255.

End color.

Module image.

Record Point : Type := mkPoint { X : Z; Y : Z }.

Record Rectangle : Type := mkRectangle { Min : Point; Max : Point }.

(** [image.Rect]: the corners are put in order. *)
Definition Rect (x0 y0 x1 y1 : Z) : Rectangle :=
  let '(x0, x1) := if x0 >? x1 then (x1, x0) else (x0, x1) in
  let '(y0, y1) := if y0 >? y1 then (y1, y0) else (y0, y1) in
  mkRectangle (mkPoint x0 y0) (mkPoint x1 y1).

Definition Dx (r : Rectangle) : Z := X (Max r) - X (Min r).
Definition Dy (r : Rectangle) : Z := Y (Max r) - Y (Min r).

Definition In (p : Point) (r : Rectangle) : bool :=
  (X (Min r) <=? X p) && (X p <? X (Max r)) &&
  (Y (Min r) <=? Y p) && (Y p <? Y (Max r)).

(** An [*image.RGBA]. The pixel buffer is kept by coordinates; a pixel that
    was never set is the zero colour, as in a fresh buffer. *)
Record RGBA : Type := mkImage {
  Pix : gmap (Z * Z) color.RGBA;
  Bounds : Rectangle
}.

Definition maxInt : Z := 2 ^ 63 - 1.

Definition NewRGBA (r : Rectangle) : M RGBA :=
  let n := 4 * Dx r * Dy r in
  if maxInt <? n then throw HugeImage
  else if maxAlloc <? n then throw MakeSliceLen
  else mret (mkImage ∅ r).

(** [p.Set(x, y, c)]: nothing happens outside the bounds. *)
Definition SetPixel (p : RGBA) (x y : Z) (c : color.Gray) : RGBA :=
  if negb (In (mkPoint x y) (Bounds p)) then p
  else mkImage (<[(x, y) := color.RGBAModel_Convert c]> (Pix p)) (Bounds p).

Definition RGBAAt (p : RGBA) (x y : Z) : color.RGBA :=
  if negb (In (mkPoint x y) (Bounds p)) then color.mkRGBA 0 0 0 0
  else default (color.mkRGBA 0 0 0 0) (Pix p !! (x, y)).

End image.

Module png.

(** The bytes of the PNG encoding of an image: left abstract. *)
Class Encoder : Type := encoding : image.RGBA -> string.

(** [png.Encode(w, m)]: an image without pixels, or with a side of 2^32
    pixels or more, is refused and nothing is written. *)
Definition Encode {enc : Encoder} (w : File) (m : image.RGBA) : M (option error) :=
  let mw := image.Dx (image.Bounds m) in
  let mh := image.Dy (image.Bounds m) in
  if (mw <=? 0) || (mh <=? 0) || (2 ^ 32 <=? mw) || (2 ^ 32 <=? mh) then
    mret (Some (ErrorString "png: invalid format: invalid image size"))
  else
    os_Write w (encoding m);;
    mret None.

End png.

(* ===================================================================== *)
(** * Package main: the shader and the rendering driver ([tiler.go]) *)
(* ===================================================================== *)

Module tiler.
Import esri.
Local Open Scope string_scope.
Local Open Scope Z_scope.

(** ** Conversions between float32 and uint8 *)

(** The float32-to-int32 instruction that a conversion to a small integer
    type is compiled to: the integer part, and the "integer indefinite"
    -2^31 for a NaN, an infinity and an integer part outside int32. Go
    leaves the converted value of an out-of-range float to the
    implementation. *)
Definition Cvt32Fto32 (x : float32) : Z :=
  match Float32.truncate x with
  | Some n => if (- 2 ^ 31 <=? n) && (n <? 2 ^ 31) then n else - 2 ^ 31
  | None => - 2 ^ 31
  end.

(** Keeping the low 8 bits. *)
Definition Trunc32to8 (n : Z) : Z := n mod 256.

(** [uint8(x)] for a float32 [x]. *)
Definition uint8 (x : float32) : Z := Trunc32to8 (Cvt32Fto32 x).

(** [a - b] on uint8. *)
Definition uint8_sub (a b : Z) : Z := (a - b) mod 256.

(** ** The command line *)

(** What [flag.Parse] found: the values of the flags, and for the floor
    and the ceiling whether the flag was given at all (under either of its
    names), with its value converted to float32. *)
Record Flags : Type := mkFlags {
  flag_input : string;
  flag_output : string;
  flag_floor : option float32;
  flag_ceiling : option float32;
  flag_verbose : bool
}.

Definition flag_Parse (flags : Flags) : M unit :=
  modify (fun v =>
    Var.mkVars (flag_input flags) (flag_output flags)
               (Var.ceiling v) (Var.floor v) (flag_verbose flags)
               (Var.maxHeightSet v) (Var.minHeightSet v)
               (Var.maxShade v) (Var.maxShadeSet v)
               (Var.minShade v) (Var.minShadeSet v)).

(** ** shade *)

(** The arithmetic of [shade]: the value of its local [shade]. *)
Definition shadeValue (floor ceiling height : float32) : Z :=
  (* Get height and ceiling relative to the floor. *)
  let height := Float32.sub height floor in
  let ceiling := Float32.sub ceiling floor in
  uint8_sub 255 (uint8 (Float32.div (Float32.mul height (Float32.of_Z 256)) ceiling)).

Definition shade (floor ceiling height : float32) : M color.Gray :=
  let shade := shadeValue floor ceiling height in
  verbose ← gets Var.verbose;
  when verbose (log_Printf "shade %d" [AInt shade]);;
  maxShadeSet ← gets Var.maxShadeSet;
  ((if maxShadeSet : bool then
     maxShade ← gets Var.maxShade;
     when (shade >? maxShade) (modify (fun v => Var.setMaxShade v shade))
   else
     modify (fun v => Var.setMaxShade v shade);;
     modify (fun v => Var.setMaxShadeSet v true)) : M unit);;
  minShadeSet ← gets Var.minShadeSet;
  ((if minShadeSet : bool then
     minShade ← gets Var.minShade;
     when (shade <? minShade) (modify (fun v => Var.setMinShade v shade))
   else
     modify (fun v => Var.setMinShade v shade);;
     modify (fun v => Var.setMinShadeSet v true)) : M unit);;
  mret (color.mkGray shade).

(** ** main *)

(** The untyped constant [0.1] as a float32. *)
Definition c0_1 : float32 := Float32.of_decimal false 1 (-1).

(** The body of the loops of [main]: one cell. *)
Definition drawCell (grid : Grid) (row col : Z) (img : image.RGBA) : M image.RGBA :=
  floor ← gets Var.floor;
  ceiling ← gets Var.ceiling;
  h ← Height grid row col;
  c ← shade floor ceiling h;
  verbose ← gets Var.verbose;
  when verbose
       (log_Printf ("colouring cell[%d[%d] %d" ++ newline)
                   [AInt row; AInt col; AInt (color.Y c)]);;
  mret (image.SetPixel img col row c).

(** [for col := 0; col < grid.Ncols(); col++ { ... }] from [col] on, with
    [todo] columns to go. *)
Fixpoint colLoop (todo : nat) (grid : Grid) (row col : Z) (img : image.RGBA)
    : M image.RGBA :=
  match todo with
  | O => mret img
  | S todo' =>
      img ← drawCell grid row col img;
      colLoop todo' grid row (col + 1) img
  end.

(** [for row := maxRow; row >= 0; row-- { ... }] from [row] on, with
    [todo] rows to go. *)
Fixpoint rowLoop (todo : nat) (grid : Grid) (row : Z) (img : image.RGBA)
    : M image.RGBA :=
  match todo with
  | O => mret img
  | S todo' =>
      img ← colLoop (Z.to_nat (Ncols grid)) grid row 0 img;
      rowLoop todo' grid (row - 1) img
  end.

(** From [img := image.NewRGBA(...)] to the end of the loops. *)
Definition render (grid : Grid) : M image.RGBA :=
  img ← image.NewRGBA (image.Rect 0 0 (Nrows grid) (Ncols grid));
  let maxRow := Nrows grid - 1 in
  rowLoop (Z.to_nat (maxRow + 1)) grid maxRow img.

Section Main.
Context {scanner : fmt.Scanner} {encoder : png.Encoder}.

Definition main (flags : Flags) : M unit :=
  flag_Parse flags;;

  (match flag_floor flags with
  | Some floor64 =>
      modify (fun v => Var.setFloor v floor64);;
      modify (fun v => Var.setMinHeightSet v true)
  | None => mret tt
  end : M unit);;
  (match flag_ceiling flags with
  | Some ceiling64 =>
      modify (fun v => Var.setCeiling v ceiling64);;
      modify (fun v => Var.setMaxHeightSet v true)
  | None => mret tt
  end : M unit);;

  output ← gets Var.output;
  res ← os_Create output;
  match res with
  | inr err => log_Printf (Error err) []
  | inl out =>

  filename ← gets Var.filename;
  verbose ← gets Var.verbose;
  res ← ReadGridFromFile filename verbose;
  match res with
  | inr err => log_Printf (Error err) []
  | inl grid =>

  (* If floor or ceiling not already set, set them from the data. *)
  minHeightSet ← gets Var.minHeightSet;
  when (negb minHeightSet)
       (modify (fun v => Var.setFloor v (Float32.sub (MinHeight grid) c0_1)));;

  maxHeightSet ← gets Var.maxHeightSet;
  when (negb maxHeightSet)
       (modify (fun v => Var.setCeiling v (Float32.add (MaxHeight grid) c0_1)));;

  floor ← gets Var.floor;
  ceiling ← gets Var.ceiling;
  log_Printf ("creating image - floor %f ceiling %f" ++ newline)
             [AFloat floor; AFloat ceiling];;
  img ← render grid;

  log_Printf "encoding image" [];;
  err ← png.Encode out img;

  minShade ← gets Var.minShade;
  maxShade ← gets Var.maxShade;
  log_Printf "%d %d %f %f %d %d"
             [AInt (Nrows grid); AInt (Ncols grid);
              AFloat (MinHeight grid); AFloat (MaxHeight grid);
              AInt minShade; AInt maxShade]
  end
  end.

End Main.

(** A process starts with the variables as declared and an empty log. *)
Definition start (fs : gmap string string) (locked : gset string) : World :=
  mkWorld fs locked [] Var.initial.

End tiler.

(* ===================================================================== *)
(** * The shader *)
(* ===================================================================== *)

Module ShaderSpec.
Import tiler.

(** Follows the specification's wording, not the code. The floor of a
    real: the greatest integer that is not above it. A NaN and the
    infinities stand for no real. ([/] on integers rounds down.) *)
Definition floorOfReal (x : float32) : option Z :=
  match x with
  | S754_zero _ => Some 0
  | S754_finite s m e =>
      Some (match e with
            | Zneg k => cond_Zopp s (Zpos m) / 2 ^ Zpos k
            | _ => cond_Zopp s (Zpos m) * 2 ^ e
            end)
  | _ => None
  end.

(** "floor8": the floor, "truncated to an 8-bit unsigned value with
    wraparound on overflow". *)
Definition floor8 (x : float32) : option Z :=
  match floorOfReal x with
  | Some n => Some (n mod 2 ^ 8)
  | None => None
  end.

(** "intensity = 255 - floor8(height' * 256 / ceiling')" with
    "height' = height - floor" and "ceiling' = ceiling - floor". *)
Definition intensity (floor ceiling height : float32) : option Z :=
  let height' := Float32.sub height floor in
  let ceiling' := Float32.sub ceiling floor in
  match floor8 (Float32.div (Float32.mul height' (Float32.of_Z 256)) ceiling') with
  | Some n => Some (255 - n)
  | None => None
  end.

(** The amended formula. [trunc8] keeps the integer part, which rounds
    towards zero, modulo 2^8; where there is no integer part (NaN,
    infinities) it is 0. *)
Definition trunc8 (x : float32) : Z :=
  match Float32.truncate x with
  | Some n => n mod 2 ^ 8
  | None => 0
  end.

Definition truncated (floor ceiling height : float32) : Z :=
  let height' := Float32.sub height floor in
  let ceiling' := Float32.sub ceiling floor in
  255 - trunc8 (Float32.div (Float32.mul height' (Float32.of_Z 256)) ceiling').

(** A real that is not negative. *)
Definition nonNegative (x : float32) : bool :=
  match x with
  | S754_zero _ => true
  | S754_finite s _ _ => negb s
  | _ => false
  end.

End ShaderSpec.

(* ===================================================================== *)
(** * Notions used to state the properties *)
(* ===================================================================== *)

(** The files and the variables are left alone, the log only grows. *)
Definition logs_only {A} (m : M A) : Prop :=
  forall w, files (snd (m w)) = files w /\
            denied (snd (m w)) = denied w /\
            vars (snd (m w)) = vars w /\
            exists new, logged (snd (m w)) = new ++ logged w.

(* ===================================================================== *)
(** * Notions used to state the properties of the parser *)
(* ===================================================================== *)

Module GridSpec.
Import esri.

(** The fields of a data line, after trimming and collapsing spaces. *)
Definition tokens (line : string) : list string :=
  strings.Split (fst (stripSpaces line)).

(** A row of the matrix as allocated: [ncols] zeros. *)
Definition zeroRow (g : Grid) : list float32 :=
  replicate (Z.to_nat (ncols g)) Float32.zero.

(** The matrix has [nrows] rows of [ncols] samples. *)
Definition wellformed (g : Grid) : Prop :=
  0 <= nrows g /\
  length (height g) = Z.to_nat (nrows g) /\
  forall k r, height g !! k = Some r -> length r = Z.to_nat (ncols g).

(** [g'] is [g] up to the samples of the rows in [rows] and up to the
    extreme heights. *)
Definition modifies (rows : nat -> Prop) (g g' : Grid) : Prop :=
  ncols g' = ncols g /\
  nrows g' = nrows g /\
  length (height g') = length (height g) /\
  forall k, (length <$> height g' !! k = length <$> height g !! k) /\
            (~ rows k -> height g' !! k = height g !! k).

(** Both extremes are set and the maximum is at least the minimum. *)
Definition ordered (g : Grid) : Prop :=
  maxHeightSet g = true /\ minHeightSet g = true /\
  Float32.geb (MaxHeight g) (MinHeight g) = true.

(** The warning about a line with a wrong number of fields. *)
Definition columnWarning (lineNum got expected : Z) (e : LogEntry) : Prop :=
  e = Printf ("warning: line %d has too many columns - got %d expected %d" ++ newline)
             [AInt lineNum; AInt got; AInt expected] \/
  e = Printf ("warning: line %d has too few columns - got %d expected %d" ++ newline)
             [AInt lineNum; AInt got; AInt expected].

(** The world after [entries] were logged, the first of them first. *)
Definition logging (entries : list LogEntry) (w : World) : World :=
  mkWorld (files w) (denied w) (rev entries ++ logged w) (vars w).

End GridSpec.

(* ===================================================================== *)
(** * Notions used to state the properties of the renderer *)
(* ===================================================================== *)

Module RenderSpec.
Import esri tiler.

(** The sample of cell [(row, col)]; zero where the matrix has none. *)
Definition sample (g : Grid) (row col : Z) : float32 :=
  default Float32.zero (height g !! Z.to_nat row ≫= (.!! Z.to_nat col)).

(** The pixel that a grey of intensity [y] is stored as. *)
Definition grey (y : Z) : color.RGBA :=
  color.RGBAModel_Convert (color.mkGray y).

(** Running [f] over a list, from the left. *)
Fixpoint foldM {A B} (f : B -> A -> M B) (l : list A) (b : B) : M B :=
  match l with
  | [] => mret b
  | a :: l' => b' ← f b a; foldM f l' b'
  end.

(** The cells in the order "rows from the last index down to the first,
    columns left to right". *)
Definition visitOrder (nrows ncols : Z) : list (Z * Z) :=
  row ← reverse (seqZ 0 nrows);
  (fun col => (row, col)) <$> seqZ 0 ncols.

Definition draw (g : Grid) (img : image.RGBA) (cell : Z * Z) : M image.RGBA :=
  drawCell g (fst cell) (snd cell) img.

(** The variables that [main] has set before the loops, and the files,
    are the same in both worlds. *)
Definition keeps (w w' : World) : Prop :=
  files w' = files w /\ denied w' = denied w /\
  Var.floor (vars w') = Var.floor (vars w) /\
  Var.ceiling (vars w') = Var.ceiling (vars w) /\
  Var.verbose (vars w') = Var.verbose (vars w).

End RenderSpec.

(* ===================================================================== *)
(** * Notions used to state the properties of a run *)
(* ===================================================================== *)

Module MainSpec.
Import esri tiler.
Local Open Scope string_scope.
Local Open Scope Z_scope.

(** The variables once the command line is taken in. *)
Definition varsOf (flags : Flags) (v : Var.Vars) : Var.Vars :=
  let v := Var.mkVars (flag_input flags) (flag_output flags)
                      (Var.ceiling v) (Var.floor v) (flag_verbose flags)
                      (Var.maxHeightSet v) (Var.minHeightSet v)
                      (Var.maxShade v) (Var.maxShadeSet v)
                      (Var.minShade v) (Var.minShadeSet v) in
  let v := match flag_floor flags with
           | Some floor64 => Var.setMinHeightSet (Var.setFloor v floor64) true
           | None => v
           end in
  match flag_ceiling flags with
  | Some ceiling64 => Var.setMaxHeightSet (Var.setCeiling v ceiling64) true
  | None => v
  end.

(** The world in which [main] calls [ReadGridFromFile]: the command line
    is taken in and the output file is created, empty. *)
Definition beforeRead (flags : Flags) (w : World) : World :=
  mkWorld (<[flag_output flags := EmptyString]> (files w)) (denied w) (logged w)
          (varsOf flags (vars w)).

Section Main.
Context {scanner : fmt.Scanner} {encoder : png.Encoder}.

(** [main] from the call of [ReadGridFromFile] on, [output] being the
    file that [os.Create] has opened. *)
Definition afterSetup (flags : Flags) : M unit :=
  res ← ReadGridFromFile (flag_input flags) (flag_verbose flags);
  match res with
  | inr err => log_Printf (Error err) []
  | inl grid =>
      minHeightSet ← gets Var.minHeightSet;
      when (negb minHeightSet)
           (modify (fun v => Var.setFloor v (Float32.sub (MinHeight grid) c0_1)));;
      maxHeightSet ← gets Var.maxHeightSet;
      when (negb maxHeightSet)
           (modify (fun v => Var.setCeiling v (Float32.add (MaxHeight grid) c0_1)));;
      floor ← gets Var.floor;
      ceiling ← gets Var.ceiling;
      log_Printf ("creating image - floor %f ceiling %f" ++ newline)
                 [AFloat floor; AFloat ceiling];;
      img ← render grid;
      log_Printf "encoding image" [];;
      err ← png.Encode (flag_output flags) img;
      minShade ← gets Var.minShade;
      maxShade ← gets Var.maxShade;
      log_Printf "%d %d %f %f %d %d"
                 [AInt (Nrows grid); AInt (Ncols grid);
                  AFloat (MinHeight grid); AFloat (MaxHeight grid);
                  AInt minShade; AInt maxShade]
  end.

End Main.

(** The run in which [esri.ReadGridFromFile] returns no grid: the input
    file cannot be opened, or parsing fails with an error or a panic. *)
Definition readFails {scanner : fmt.Scanner} (flags : Flags) (w : World) : Prop :=
  forall g, fst (ReadGridFromFile (flag_input flags) (flag_verbose flags)
                                  (beforeRead flags w)) <> Ok (inl g).

(** The world [w] once [main] has set the floor and the ceiling. *)
Definition withBounds (floor ceiling : float32) (w : World) : World :=
  mkWorld (files w) (denied w) (logged w)
          (Var.setCeiling (Var.setFloor (vars w) floor) ceiling).

End MainSpec.

(* ===================================================================== *)
(** * Example inputs *)
(* ===================================================================== *)

Module Examples.
Import esri tiler.
Local Open Scope string_scope.

Definition line (s : string) : string := s ++ newline.

Definition header (ncols nrows : string) : string :=
  line ("ncols " ++ ncols) ++ line ("nrows " ++ nrows) ++
  line "xllcorner 513000" ++ line "yllcorner 152000" ++
  line "cellsize 1" ++ line "NODATA_value -9999".

(** The example of the documentation of [Grid]. *)
Definition example4x4 : string :=
  header "4" "4" ++
  line "500 500 500 500" ++ line "500 500 500 500" ++
  line "1000 1000 1000 1000" ++ line "1000 1000 1000 1000".

(** The same without the line feed at the very end. *)
Definition example4x4_unterminated : string :=
  header "4" "4" ++
  line "500 500 500 500" ++ line "500 500 500 500" ++
  line "1000 1000 1000 1000" ++ "1000 1000 1000 1000".

(** Two rows of four columns. *)
Definition example2x4 : string :=
  header "4" "2" ++ line "500 600 700 800" ++ line "900 1000 1100 1200".

(** The second row has three values where there are four columns. *)
Definition exampleShortRow : string :=
  header "4" "4" ++
  line "500 500 500 500" ++ line "500 500 500" ++
  line "1000 1000 1000 1000" ++ line "1000 1000 1000 1000".

(** The first header line has a key and no value. *)
Definition exampleNoValue : string := line "ncols".

Definition tile : string := "tile.asc".

(** A process started with [content] in the file [tile]. *)
Definition worldWith (content : string) : World :=
  start {[ tile := content ]} ∅.

Definition read (content : string) : result (Grid + error) * World :=
  ReadGridFromFile (scanner := fmt.decimal) tile false (worldWith content).

(** The grid read from [content] ([zeroGrid] if none is). *)
Definition gridOf (content : string) : Grid :=
  match fst (read content) with
  | Ok (inl g) => g
  | _ => zeroGrid
  end.

(** One column, two rows: a NaN, then 5. *)
Definition exampleNaN : string :=
  header "1" "2" ++ line "NaN" ++ line "5".

(** An encoder for the runs that do not come to call [png.Encode]. *)
Definition noEncoder : png.Encoder := fun _ => EmptyString.

(** A grid of one cell on which no sample has been set. *)
Definition fresh1x1 : Grid :=
  mkGrid 1 1 Float32.zero Float32.zero Float32.zero 0
         false Float32.zero false Float32.zero [[Float32.zero]] false.

End Examples.

(* ===================================================================== *)
(** * Further notions used to state properties of the grid and its parser *)
(* ===================================================================== *)

Module MoreSpec.
Import esri GridSpec.
Local Open Scope string_scope.
Local Open Scope Z_scope.

(** [h] lies between the extremes of [g]. *)
Definition within (g : Grid) (h : float32) : Prop :=
  Float32.leb (MinHeight g) h = true /\ Float32.leb h (MaxHeight g) = true.

(** No sample has been set on [g]. *)
Definition fresh (g : Grid) : Prop :=
  maxHeightSet g = false /\ minHeightSet g = false.

(** [g'] has the header of [g]. *)
Definition sameHeader (g g' : Grid) : Prop :=
  ncols g' = ncols g /\ nrows g' = nrows g /\
  xllcorner g' = xllcorner g /\ yllcorner g' = yllcorner g /\
  cellsize g' = cellsize g /\ noDataValue g' = noDataValue g.




Section Fields.
Context {scanner : fmt.Scanner}.

(** The integer that a header line gives: its second field under "%d". *)
Definition intField (line : string) : option Z :=
  match tokens line !! 1%nat with
  | Some tok =>
      match fmt.Sscanf_d tok with inl v => Some v | inr _ => None end
  | None => None
  end.

(** The float32 that a header line gives: its second field under "%f". *)
Definition floatField (line : string) : option float32 :=
  match tokens line !! 1%nat with
  | Some tok =>
      match fmt.Sscanf_f tok with inl v => Some v | inr _ => None end
  | None => None
  end.

(** [row] holds what the fields [toks] scan to under "%f", one by one. *)
Definition scanned (toks : list string) (row : list float32) : Prop :=
  Forall2 (fun tok h => fmt.Sscanf_f tok = inl h) toks row.

(** The row that a data line stands for in a matrix of [ncols] columns:
    its samples when it has [ncols] fields, zeros when it has not. *)
Definition rowOf (ncols : Z) (line : string) (row : list float32) : Prop :=
  (len (tokens line) = ncols /\ scanned (tokens line) row) \/
  (len (tokens line) <> ncols /\ row = replicate (Z.to_nat ncols) Float32.zero).

(** [ReadGridFromFile] from the loop over the data lines on: the header
    is read, [g] is the grid with its matrix allocated, and [lines] are the
    lines that the reader has yet to deliver. *)
Definition readData (filename : string) (verbose : bool) (lines : list string)
    (g : Grid) : M (Grid + error) :=
  let linesExpected := nrows g + 6 in
  exit ← readRows filename verbose linesExpected lines 0 6 g;
  match exit with
  | Return err => mret (inr err)
  | Break lineNum g =>
      when (lineNum <? linesExpected)
           (log_Printf
              ("warning: file %s has too few lines - got %d expected %d" ++ newline)
              [AStr filename; AInt lineNum; AInt linesExpected]);;
      when verbose
           (log_Printf "maxHeight %f minheight %f"
                       [AFloat (maxHeight g); AFloat (minHeight g)]);;
      mret (inl g)
  end.

End Fields.

(** The grid as it is once the header is read: no sample set, every row
    of the matrix at zero. *)
Definition allocated (ncols nrows : Z) (xllcorner yllcorner cellsize : float32)
    (noDataValue : Z) : Grid :=
  mkGrid ncols nrows xllcorner yllcorner cellsize noDataValue
         false Float32.zero false Float32.zero
         (replicate (Z.to_nat nrows) (replicate (Z.to_nat ncols) Float32.zero))
         false.

(** The variables [maxShade] and [minShade] hold the extremes of the
    shades [ss]: they are unset when there is none, and else the greatest
    and the least of them. *)
Definition tracks (ss : list Z) (v : Var.Vars) : Prop :=
  match ss with
  | [] => Var.maxShadeSet v = false /\ Var.minShadeSet v = false
  | _ :: _ =>
      Var.maxShadeSet v = true /\ Var.minShadeSet v = true /\
      In (Var.maxShade v) ss /\ In (Var.minShade v) ss /\
      Forall (fun s => Var.minShade v <= s <= Var.maxShade v) ss
  end.

(** The shade of a cell of [g] under the floor and the ceiling of [v]. *)
Definition shadeOf (g : Grid) (v : Var.Vars) (cell : Z * Z) : Z :=
  tiler.shadeValue (Var.floor v) (Var.ceiling v)
                   (RenderSpec.sample g (fst cell) (snd cell)).

(** The floor and the ceiling that [main] uses for [grid]: those of the
    command line, and without them the extremes of the grid moved out by
    0.1. *)
Definition floorOf (flags : tiler.Flags) (grid : Grid) : float32 :=
  default (Float32.sub (MinHeight grid) tiler.c0_1) (tiler.flag_floor flags).

Definition ceilingOf (flags : tiler.Flags) (grid : Grid) : float32 :=
  default (Float32.add (MaxHeight grid) tiler.c0_1) (tiler.flag_ceiling flags).

(** An encoder for the examples: the same bytes for every image. *)
Definition markEncoder : png.Encoder := fun _ => "PNG".

End MoreSpec.

(* ===================================================================== *)
(** * Facts about float32 *)
(* ===================================================================== *)

Section Rounding.
Variables prec emax : Z.

Lemma digits2_pos_bound (p : positive) : Zpos p < 2 ^ Zpos (digits2_pos p).
Proof.
  induction p as [p IH | p IH | ]; cbn [digits2_pos]; [| | reflexivity];
    rewrite Pos2Z.inj_succ, Z.pow_succ_r by lia; lia.
Qed.

Lemma shr_1_m (mrs : shr_record) :
  0 <= shr_m mrs -> shr_m (shr_1 mrs) = shr_m mrs / 2.
Proof.
  destruct mrs as [m r s]. cbn [shr_m]. intros Hm.
  destruct m as [| [p | p |] | p]; cbn [shr_1 shr_m]; try lia;
    try reflexivity.
  - rewrite Pos2Z.inj_xI.
    replace (2 * Zpos p + 1) with (1 + Zpos p * 2) by lia.
    rewrite Z.div_add by lia. reflexivity.
  - rewrite Pos2Z.inj_xO, Z.mul_comm, Z.div_mul by lia. reflexivity.
Qed.

Lemma iter_shr_1_m (p : positive) : forall mrs : shr_record,
  0 <= shr_m mrs ->
  shr_m (SpecFloat.iter_pos shr_1 p mrs) = shr_m mrs / 2 ^ Zpos p.
Proof.
  induction p as [p IH | p IH | ]; intros mrs Hm; cbn [SpecFloat.iter_pos].
  - assert (H1 : 0 <= shr_m (shr_1 mrs))
      by (rewrite shr_1_m by assumption; apply Z.div_pos; lia).
    assert (H2 : 0 <= shr_m (SpecFloat.iter_pos shr_1 p (shr_1 mrs)))
      by (rewrite IH by assumption; apply Z.div_pos; lia).
    rewrite IH, IH, shr_1_m by assumption.
    rewrite !Z.div_div by lia. f_equal.
    replace (Zpos p~1) with (1 + Zpos p + Zpos p) by lia.
    rewrite !Z.pow_add_r, Z.pow_1_r by lia. ring.
  - assert (H2 : 0 <= shr_m (SpecFloat.iter_pos shr_1 p mrs))
      by (rewrite IH by assumption; apply Z.div_pos; lia).
    rewrite IH, IH by assumption.
    rewrite !Z.div_div by lia. f_equal.
    replace (Zpos p~0) with (Zpos p + Zpos p) by lia.
    rewrite Z.pow_add_r by lia. reflexivity.
  - rewrite shr_1_m by assumption. reflexivity.
Qed.

Lemma shr_record_of_loc_m (m : Z) (l : location) :
  shr_m (shr_record_of_loc m l) = m.
Proof. destruct l as [| []]; reflexivity. Qed.

(** What [shr_fexp] leaves of a mantissa has at most [prec] bits. *)
Lemma shr_fexp_bound (m e : Z) (l : location) (p : positive) :
  0 < prec ->
  shr_m (fst (shr_fexp prec emax m e l)) = Zpos p ->
  Zpos p < 2 ^ prec.
Proof.
  intros Hprec. unfold shr_fexp, shr.
  destruct m as [| q | q].
  - destruct (fexp _ _ _ - e) as [| n | n]; cbn [fst];
      rewrite ?iter_shr_1_m, shr_record_of_loc_m
        by (rewrite shr_record_of_loc_m; lia);
      discriminate.
  - pose proof (digits2_pos_bound q) as Hq.
    cbn [Zdigits2]. set (d := Zpos (digits2_pos q)) in *.
    assert (Hf : d + e - prec <= fexp prec emax (d + e))
      by (unfold fexp; lia).
    destruct (fexp prec emax (d + e) - e) as [| n | n] eqn:Hn; cbn [fst].
    + rewrite shr_record_of_loc_m. intros [= <-].
      eapply Z.lt_le_trans; [exact Hq |]. apply Z.pow_le_mono_r; lia.
    + rewrite iter_shr_1_m, shr_record_of_loc_m
        by (rewrite shr_record_of_loc_m; lia).
      intros <-. apply Z.div_lt_upper_bound; [lia |].
      rewrite <- Z.pow_add_r by lia.
      eapply Z.lt_le_trans; [exact Hq |]. apply Z.pow_le_mono_r; lia.
    + rewrite shr_record_of_loc_m. intros [= <-].
      eapply Z.lt_le_trans; [exact Hq |]. apply Z.pow_le_mono_r; lia.
  - destruct (fexp _ _ _ - e) as [| n | n]; cbn [fst];
      rewrite ?shr_record_of_loc_m; try discriminate.
    intros H.
    assert (Hneg : forall k (mrs : shr_record),
               shr_m mrs <= 0 -> shr_m (SpecFloat.iter_pos shr_1 k mrs) <= 0).
    { assert (H1 : forall mrs, shr_m mrs <= 0 -> shr_m (shr_1 mrs) <= 0).
      { intros [[| [a | a |] | [a | a |]] r s]; cbn; lia. }
      induction k; intros mrs Hm; cbn [SpecFloat.iter_pos]; auto. }
    specialize (Hneg n (shr_record_of_loc (Z.neg q) l)).
    rewrite shr_record_of_loc_m in Hneg. lia.
Qed.

(** A finite result of the rounding step has a mantissa of at most [prec]
    bits. *)
Lemma binary_round_aux_bound (sx : bool) (mx ex : Z) (lx : location)
    (s : bool) (m : positive) (e : Z) :
  0 < prec ->
  binary_round_aux prec emax sx mx ex lx = S754_finite s m e ->
  Zpos m < 2 ^ prec.
Proof.
  intros Hprec. unfold binary_round_aux.
  destruct (shr_fexp prec emax mx ex lx) as [mrs' e'].
  destruct (shr_fexp prec emax _ e' loc_Exact) as [mrs'' e''] eqn:H2.
  destruct (shr_m mrs'') as [| q | q] eqn:Hm; try discriminate.
  destruct (e'' <=? emax - prec); try discriminate.
  intros [= _ <- _].
  eapply shr_fexp_bound; [exact Hprec |]. rewrite H2. exact Hm.
Qed.

End Rounding.

Module Float32Facts.
Import Float32.

Lemma div_mantissa (x y : float32) (s : bool) (m : positive) (e : Z) :
  div x y = S754_finite s m e -> Zpos m < 2 ^ 24.
Proof.
  unfold div, SFdiv.
  destruct x as [sx | sx | | sx mx ex], y as [sy | sy | | sy my ey];
    try discriminate.
  destruct (SFdiv_core_binary _ _ _ _ _ _) as [[mz ez] lz].
  apply binary_round_aux_bound. reflexivity.
Qed.

Lemma sub_diag (x : float32) :
  (exists s, sub x x = S754_zero s) \/ sub x x = S754_nan.
Proof.
  destruct x as [[] | [] | | s m e]; cbn; eauto.
  left. exists false. unfold sub, SFsub. rewrite Z.sub_diag. reflexivity.
Qed.

(** Comparisons: [leb] is reflexive away from NaN, and chains with [ltb]. *)
Lemma leb_refl (x : float32) : is_nan x = false -> leb x x = true.
Proof.
  destruct x as [s | [] | | [] m e]; try discriminate; intros _;
    try reflexivity; unfold leb, SFleb, SFcompare;
    rewrite Z.compare_refl, Pos.compare_cont_refl; reflexivity.
Qed.

Lemma ltb_not_nan (x y : float32) :
  ltb x y = true -> is_nan x = false /\ is_nan y = false.
Proof. destruct x, y; try discriminate; auto. Qed.

Lemma ltb_leb (x y : float32) : ltb x y = true -> leb x y = true.
Proof.
  unfold ltb, leb, SFltb, SFleb.
  destruct (SFcompare x y) as [[] |]; congruence.
Qed.

End Float32Facts.

(* ===================================================================== *)
(** * Reasoning in the monad *)
(* ===================================================================== *)

Lemma bind_Ok {A B} (m : M A) (f : A -> M B) (w w1 : World) (a : A) :
  m w = (Ok a, w1) -> (m ≫= f) w = f a w1.
Proof. intros H. unfold mbind, M_bind. rewrite H. reflexivity. Qed.

Lemma bind_Panic {A B} (m : M A) (f : A -> M B) (w w1 : World) (p : panic) :
  m w = (Panic p, w1) -> (m ≫= f) w = (Panic p, w1).
Proof. intros H. unfold mbind, M_bind. rewrite H. reflexivity. Qed.

Lemma bind_cong {A B} (m m' : M A) (f f' : A -> M B) (w : World) :
  m w = m' w -> (forall a w1, f a w1 = f' a w1) -> (m ≫= f) w = (m' ≫= f') w.
Proof.
  intros Hm Hf. unfold mbind, M_bind. rewrite Hm.
  destruct (m' w) as [[a | p] w1]; [apply Hf | reflexivity].
Qed.

Lemma bind_Ok_inv {A B} (m : M A) (f : A -> M B) (w w' : World) (b : B) :
  (m ≫= f) w = (Ok b, w') ->
  exists a w1, m w = (Ok a, w1) /\ f a w1 = (Ok b, w').
Proof.
  unfold mbind, M_bind. destruct (m w) as [[a | p] w1]; [eauto | discriminate].
Qed.

Lemma when_Ok_inv (b : bool) (m : M unit) (w w' : World) (u : unit) :
  when b m w = (Ok u, w') ->
  (b = true /\ m w = (Ok u, w')) \/ (b = false /\ w' = w).
Proof. destruct b; cbn; [eauto | intros [= _ <-]; eauto]. Qed.

(** ** Computations that only write to the log *)

Lemma logs_only_ret {A} (a : A) : logs_only (mret a).
Proof. intros w. cbn. repeat split. exists []. reflexivity. Qed.

Lemma logs_only_throw {A} (p : panic) : logs_only (@throw A p).
Proof. intros w. cbn. repeat split. exists []. reflexivity. Qed.

Lemma logs_only_bind {A B} (m : M A) (f : A -> M B) :
  logs_only m -> (forall a, logs_only (f a)) -> logs_only (m ≫= f).
Proof.
  intros Hm Hf w. specialize (Hm w). unfold mbind, M_bind.
  destruct (m w) as [[a | p] w1]; cbn [snd] in *; [| exact Hm].
  destruct Hm as (Hfs & Hd & Hv & new1 & Hl).
  destruct (Hf a w1) as (Hfs' & Hd' & Hv' & new2 & Hl').
  repeat split; try congruence.
  exists (new2 ++ new1). rewrite Hl', Hl, app_assoc. reflexivity.
Qed.

Lemma logs_only_Printf (format : string) (args : list Arg) :
  logs_only (log_Printf format args).
Proof. intros w. cbn. repeat split. exists [Printf format args]. reflexivity. Qed.

Lemma logs_only_Println (line : string) : logs_only (log_Println line).
Proof. intros w. cbn. repeat split. exists [Println line]. reflexivity. Qed.

Lemma logs_only_when (b : bool) (m : M unit) : logs_only m -> logs_only (when b m).
Proof. destruct b; [trivial | intros _; apply logs_only_ret]. Qed.

Lemma logs_only_index {A} (l : list A) (i : Z) : logs_only (index l i).
Proof.
  unfold index. destruct (_ || _); [apply logs_only_throw |].
  destruct (l !! _); [apply logs_only_ret | apply logs_only_throw].
Qed.

Lemma logs_only_store {A} (l : list A) (i : Z) (a : A) : logs_only (store l i a).
Proof.
  unfold store. destruct (_ || _); [apply logs_only_throw | apply logs_only_ret].
Qed.

Lemma logs_only_makeslice {A} (sz : Z) (z : A) (n : Z) : logs_only (makeslice sz z n).
Proof.
  unfold makeslice. destruct (_ || _); [apply logs_only_throw | apply logs_only_ret].
Qed.

Lemma logs_only_os_Open (path : string) : logs_only (os_Open path).
Proof.
  intros w. unfold os_Open. destruct (files w !! path); cbn;
    repeat split; exists []; reflexivity.
Qed.

Create HintDb logs_only discriminated.
#[export] Hint Resolve logs_only_ret logs_only_throw logs_only_Printf
  logs_only_Println logs_only_when logs_only_index logs_only_store
  logs_only_makeslice logs_only_os_Open : logs_only.

(** Splits a computation along its binds and case distinctions. *)
Ltac logs_only_step :=
  match goal with
  | |- logs_only (_ ≫= _) => apply logs_only_bind; [| intros ?]
  | |- logs_only (when _ _) => apply logs_only_when
  | |- logs_only (match ?x with _ => _ end) => destruct x
  | |- logs_only (let '(_, _) := ?x in _) => destruct x
  | |- logs_only _ => solve [auto with logs_only]
  end.

Ltac logs_only_tac := repeat logs_only_step.

Module esriFacts.
Import fmt bufio esri.

Lemma logs_only_Height (g : Grid) (i col : Z) : logs_only (Height g i col).
Proof. unfold Height. logs_only_tac. Qed.

Lemma logs_only_SetHeight (g : Grid) (row col : Z) (h : float32) :
  logs_only (SetHeight g row col h).
Proof. unfold SetHeight. logs_only_tac. Qed.

#[export] Hint Resolve logs_only_Height logs_only_SetHeight : logs_only.

Section Parser.
Context {scanner : Scanner}.

Lemma logs_only_readIntFromHeader r fieldName verbose :
  logs_only (readIntFromHeader r fieldName verbose).
Proof. unfold readIntFromHeader, stripSpaces. logs_only_tac. Qed.

Lemma logs_only_readFloat32FromHeader r fieldName verbose :
  logs_only (readFloat32FromHeader r fieldName verbose).
Proof. unfold readFloat32FromHeader, stripSpaces. logs_only_tac. Qed.

Lemma logs_only_allocRows todo : forall i ncols height,
  logs_only (allocRows todo i ncols height).
Proof.
  induction todo as [| todo IH]; intros i ncols height; cbn [allocRows];
    logs_only_tac.
Qed.

Lemma logs_only_readCols verbose rest : forall row col g,
  logs_only (readCols verbose rest row col g).
Proof.
  induction rest as [| number rest IH]; intros row col g; cbn [readCols];
    logs_only_tac.
Qed.

Lemma logs_only_readRows filename verbose linesExpected lines :
  forall row lineNum g,
  logs_only (readRows filename verbose linesExpected lines row lineNum g).
Proof.
  induction lines as [| line lines IH]; intros row lineNum g;
    cbn [readRows]; unfold stripSpaces; cbn zeta; logs_only_tac;
    auto using logs_only_readCols.
Qed.

Lemma logs_only_ReadGridFromFile filename verbose :
  logs_only (ReadGridFromFile filename verbose).
Proof.
  unfold ReadGridFromFile. cbn zeta.
  logs_only_tac;
    auto using logs_only_readIntFromHeader, logs_only_readFloat32FromHeader,
      logs_only_allocRows, logs_only_readRows.
Qed.

End Parser.
End esriFacts.

Module ParserFacts.
Import fmt bufio esri GridSpec esriFacts.

(** ** SetHeight *)

Lemma modifies_refl rows g : modifies rows g g.
Proof. repeat split. Qed.

Lemma modifies_trans rows g1 g2 g3 :
  modifies rows g1 g2 -> modifies rows g2 g3 -> modifies rows g1 g3.
Proof.
  intros (Hc & Hr & Hl & H) (Hc' & Hr' & Hl' & H').
  repeat split; try congruence.
  - destruct (H k) as [E _], (H' k) as [E' _]. congruence.
  - intros Hk. destruct (H k) as [_ E], (H' k) as [_ E'].
    rewrite E', E; auto.
Qed.

Lemma modifies_weaken (rows rows' : nat -> Prop) g g' :
  (forall k, rows k -> rows' k) -> modifies rows g g' -> modifies rows' g g'.
Proof.
  intros Hsub (Hc & Hr & Hl & H). repeat split; try assumption.
  - apply H.
  - intros Hk. apply H. auto.
Qed.

Lemma modifies_wellformed rows g g' :
  modifies rows g g' -> wellformed g -> wellformed g'.
Proof.
  intros (Hc & Hr & Hl & H) (Hn & Hlen & Hrows).
  repeat split; try congruence.
  intros k r' Hk. destruct (H k) as [Hk' _]. rewrite Hk in Hk'.
  destruct (height g !! k) as [r |] eqn:E; [| discriminate].
  injection Hk' as ->. rewrite Hc. eauto.
Qed.

(** A write outside the upper bounds is logged and dropped. *)
Lemma SetHeight_rejects g row col h w :
  nrows g <= row \/ ncols g <= col ->
  SetHeight g row col h w =
    (Ok g, logging [Printf "SetHeight(%d,%d) - out of range" [AInt row; AInt col]] w).
Proof.
  intros H. unfold SetHeight.
  replace ((row >=? nrows g) || (col >=? ncols g)) with true; [reflexivity |].
  symmetry. apply orb_true_iff. rewrite !Z.geb_le. exact H.
Qed.

(** A negative row below the column bound is not rejected: the write
    panics. *)
Lemma SetHeight_negative_row g row col h w :
  row < 0 -> 0 <= nrows g -> col < ncols g ->
  SetHeight g row col h w = (Panic (IndexOutOfRange row (len (height g))), w).
Proof.
  intros Hrow Hnr Hcol. unfold SetHeight.
  replace ((row >=? nrows g) || (col >=? ncols g)) with false
    by (symmetry; apply orb_false_iff; lia).
  apply bind_Panic. unfold index.
  replace (row <? 0) with true by lia. reflexivity.
Qed.

Lemma index_Ok_inv {A} (l : list A) i w a w' :
  index l i w = (Ok a, w') -> 0 <= i /\ l !! Z.to_nat i = Some a /\ w' = w.
Proof.
  unfold index. destruct (i <? 0) eqn:Hi; [discriminate |].
  destruct (len l <=? i); [discriminate |]. cbn [orb].
  destruct (l !! Z.to_nat i); [| discriminate].
  intros [= -> ->]. repeat split. lia.
Qed.

Lemma store_Ok_inv {A} (l : list A) i a w l' w' :
  store l i a w = (Ok l', w') ->
  0 <= i /\ (Z.to_nat i < length l)%nat /\ l' = <[Z.to_nat i := a]> l /\ w' = w.
Proof.
  unfold store, len. destruct (i <? 0) eqn:Hi; [discriminate |].
  destruct (Z.of_nat (length l) <=? i) eqn:Hl; [discriminate |]. cbn [orb].
  intros [= <- <-]. repeat split; lia.
Qed.

Lemma index_Ok {A} (l : list A) (i : nat) a w :
  l !! i = Some a -> index l (Z.of_nat i) w = (Ok a, w).
Proof.
  intros H. unfold index, len. pose proof (lookup_lt_Some _ _ _ H).
  replace (Z.of_nat i <? 0) with false by lia.
  replace (Z.of_nat (length l) <=? Z.of_nat i) with false by lia.
  cbn [orb]. rewrite Nat2Z.id, H. reflexivity.
Qed.

(** An accepted write changes the one sample and the extremes. *)
Lemma SetHeight_accepts g row col h w g' w' :
  row < nrows g -> col < ncols g ->
  SetHeight g row col h w = (Ok g', w') ->
  w' = w /\ 0 <= row /\ 0 <= col /\
  exists r, height g !! Z.to_nat row = Some r /\
            (Z.to_nat col < length r)%nat /\
            height g' = <[Z.to_nat row := <[Z.to_nat col := h]> r]> (height g) /\
            ncols g' = ncols g /\ nrows g' = nrows g.
Proof.
  intros Hr Hc. unfold SetHeight.
  replace ((row >=? nrows g) || (col >=? ncols g)) with false
    by (symmetry; apply orb_false_iff; lia).
  intros H. apply bind_Ok_inv in H as (r & w1 & H1 & H).
  apply index_Ok_inv in H1 as (Hrow & Hlook & ->).
  apply bind_Ok_inv in H as (r' & w2 & H2 & H).
  apply store_Ok_inv in H2 as (Hcol & Hlen & -> & ->).
  injection H as <- <-. repeat split; try assumption.
  exists r. repeat split; try assumption;
    repeat match goal with |- context [if ?b then _ else _] => destruct b end;
    reflexivity.
Qed.

Lemma SetHeight_modifies g row col h w g' w' :
  SetHeight g row col h w = (Ok g', w') ->
  modifies (fun k => k = Z.to_nat row) g g'.
Proof.
  intros H.
  destruct (Z.le_gt_cases (nrows g) row) as [Hr | Hr];
    [rewrite SetHeight_rejects in H by auto; injection H as <- _;
     apply modifies_refl |].
  destruct (Z.le_gt_cases (ncols g) col) as [Hc | Hc];
    [rewrite SetHeight_rejects in H by auto; injection H as <- _;
     apply modifies_refl |].
  apply SetHeight_accepts in H as (_ & Hrow & Hcol & r & Hlook & Hlen & Hh & Hnc & Hnr);
    [| lia | lia].
  repeat split; try assumption.
  - rewrite Hh, length_insert. reflexivity.
  - rewrite Hh. destruct (decide (k = Z.to_nat row)) as [-> | Hne].
    + rewrite list_lookup_insert_eq by eauto using lookup_lt_Some.
      rewrite Hlook. cbn. rewrite length_insert. reflexivity.
    + rewrite list_lookup_insert_ne by congruence. reflexivity.
  - intros Hne. rewrite Hh, list_lookup_insert_ne by congruence. reflexivity.
Qed.

Section Parser.
Context {scanner : Scanner}.

(** ** The loops over the data lines *)

Lemma readCols_modifies verbose rest : forall row col g w g' w',
  readCols verbose rest row col g w = (Ok (inl g'), w') ->
  modifies (fun k => k = Z.to_nat row) g g'.
Proof.
  induction rest as [| number rest IH]; intros row col g w g' w';
    cbn [readCols].
  - intros [= <- _]. apply modifies_refl.
  - destruct (Sscanf_f number) as [f | err].
    + intros H. apply bind_Ok_inv in H as (g1 & w1 & H1 & H).
      apply bind_Ok_inv in H as (u & w2 & _ & H).
      eapply modifies_trans; [eapply SetHeight_modifies; eassumption |].
      eapply IH; eassumption.
    + intros H. apply bind_Ok_inv in H as (u & w1 & _ & H). discriminate.
Qed.

(** ** One round of the loop over the lines *)

(** How a round of the loop that does not leave the function goes on. *)
Lemma readRows_cons_inv filename verbose linesExpected line lines
    row lineNum g w lineNum' g' w' :
  readRows filename verbose linesExpected (line :: lines) row lineNum g w
    = (Ok (Break lineNum' g'), w') ->
  (linesExpected < lineNum + 1 /\ g' = g) \/
  (lineNum + 1 <= linesExpected /\
   exists g1 w1,
     modifies (fun k => k = Z.to_nat row) g g1 /\
     readRows filename verbose linesExpected lines (row + 1) (lineNum + 1) g1 w1
       = (Ok (Break lineNum' g'), w')).
Proof.
  cbn [readRows]. cbn zeta.
  destruct (lineNum + 1 >? linesExpected) eqn:Hmany.
  { intros H. apply bind_Ok_inv in H as (u & w1 & _ & H).
    injection H as _ <- _. left. split; [lia | reflexivity]. }
  unfold stripSpaces. cbn iota beta. intros H. right. split; [lia |].
  clear Hmany.
  apply bind_Ok_inv in H as (u & w1 & _ & H).
  destruct (_ >? _).
  { apply bind_Ok_inv in H as (u' & w2 & _ & H).
    eauto using modifies_refl. }
  destruct (_ <? _).
  { apply bind_Ok_inv in H as (u' & w2 & _ & H).
    eauto using modifies_refl. }
  apply bind_Ok_inv in H as ([g1 | err] & w2 & H1 & H); [| discriminate].
  eauto using readCols_modifies.
Qed.

(** The loop over the lines writes to the rows from [row] on only. *)
Lemma readRows_modifies filename verbose linesExpected lines :
  forall row lineNum g w lineNum' g' w',
  0 <= row ->
  readRows filename verbose linesExpected lines row lineNum g w
    = (Ok (Break lineNum' g'), w') ->
  modifies (fun k => (Z.to_nat row <= k)%nat) g g'.
Proof.
  induction lines as [| line lines IH];
    intros row lineNum g w lineNum' g' w' Hrow H.
  - injection H as _ <- _. apply modifies_refl.
  - apply readRows_cons_inv in H
      as [[_ ->] | (_ & g1 & w1 & Hmod & Hrun)]; [apply modifies_refl |].
    eapply modifies_trans.
    + eapply modifies_weaken; [| exact Hmod]. cbn. intros k ->. lia.
    + eapply modifies_weaken; [| eapply IH; [| exact Hrun]]; [| lia].
      cbn. intros k. lia.
Qed.

(** ** The header *)

Lemma readIntFromHeader_Ok r fieldName verbose w r' n w' :
  readIntFromHeader r fieldName verbose w = (Ok (r', inl n), w') ->
  exists line, pending r = line :: pending r'.
Proof.
  unfold readIntFromHeader, ReadString. cbn zeta.
  destruct (pending r) as [| line lines]; [discriminate |].
  cbn iota beta. unfold stripSpaces. cbn iota beta.
  intros H.
  apply bind_Ok_inv in H as (u & w1 & _ & H).
  apply bind_Ok_inv in H as (f0 & w2 & _ & H).
  apply bind_Ok_inv in H as (u' & w3 & _ & H).
  apply bind_Ok_inv in H as (f1 & w4 & _ & H).
  destruct (Sscanf_d f1); [| discriminate].
  apply bind_Ok_inv in H as (u'' & w5 & _ & H).
  injection H as <- _ _. eauto.
Qed.

Lemma readFloat32FromHeader_Ok r fieldName verbose w r' x w' :
  readFloat32FromHeader r fieldName verbose w = (Ok (r', inl x), w') ->
  exists line, pending r = line :: pending r'.
Proof.
  unfold readFloat32FromHeader, ReadString. cbn zeta.
  destruct (pending r) as [| line lines]; [discriminate |].
  cbn iota beta. unfold stripSpaces. cbn iota beta.
  intros H.
  apply bind_Ok_inv in H as (u & w1 & _ & H).
  apply bind_Ok_inv in H as (f0 & w2 & _ & H).
  apply bind_Ok_inv in H as (u' & w3 & _ & H).
  apply bind_Ok_inv in H as (f1 & w4 & _ & H).
  destruct (Sscanf_f f1); [| discriminate].
  apply bind_Ok_inv in H as (u'' & w5 & _ & H).
  injection H as <- _ _. eauto.
Qed.

Lemma makeslice_Ok_inv {A} (sz : Z) (z : A) (n : Z) w l w' :
  makeslice sz z n w = (Ok l, w') ->
  0 <= n /\ l = replicate (Z.to_nat n) z /\ w' = w.
Proof.
  unfold makeslice. destruct (n <? 0) eqn:Hn; [discriminate |].
  destruct (maxAlloc <? sz * n); [discriminate |]. cbn [orb].
  intros [= <- <-]. repeat split. lia.
Qed.

Lemma allocRows_Ok todo : forall i ncols h w h' w',
  0 <= i -> length h = (Z.to_nat i + todo)%nat ->
  allocRows todo i ncols h w = (Ok h', w') ->
  h' = take (Z.to_nat i) h ++
       replicate todo (replicate (Z.to_nat ncols) Float32.zero).
Proof.
  induction todo as [| todo IH]; intros i ncols h w h' w' Hi Hlen;
    cbn [allocRows].
  - intros [= <- _]. cbn [replicate]. rewrite app_nil_r, take_ge by lia.
    reflexivity.
  - intros H. apply bind_Ok_inv in H as (r & w1 & H1 & H).
    apply makeslice_Ok_inv in H1 as (_ & -> & ->).
    apply bind_Ok_inv in H as (h1 & w2 & H2 & H).
    apply store_Ok_inv in H2 as (_ & Hlt & -> & ->).
    apply IH in H; [| lia | rewrite length_insert; lia].
    rewrite H. replace (Z.to_nat (i + 1)) with (S (Z.to_nat i)) by lia.
    erewrite take_S_r by (apply list_lookup_insert_eq; lia).
    rewrite take_insert_ge by lia. rewrite <- app_assoc. reflexivity.
Qed.

Lemma when_log_files b format args w u w' :
  when b (log_Printf format args) w = (Ok u, w') -> files w' = files w.
Proof. destruct b; intros [= _ <-]; reflexivity. Qed.

Lemma ReadGridFromFile_Ok filename verbose w g w' :
  ReadGridFromFile filename verbose w = (Ok (inl g), w') ->
  exists content header lines g0 w0 lineNum' w1,
    files w !! filename = Some content /\
    pending (NewReader content) = header ++ lines /\
    length header = 6%nat /\
    0 <= nrows g0 /\
    height g0 = replicate (Z.to_nat (nrows g0)) (zeroRow g0) /\
    readRows filename verbose (nrows g0 + 6) lines 0 6 g0 w0
      = (Ok (Break lineNum' g), w1) /\
    exists new, logged w' = new ++ logged w1.
Proof.
  unfold ReadGridFromFile. cbn zeta. intros H.
  apply bind_Ok_inv in H as (u & w1 & Hlog & H).
  apply when_log_files in Hlog.
  apply bind_Ok_inv in H as (opened & w2 & Hopen & H).
  unfold os_Open in Hopen. rewrite Hlog in Hopen.
  destruct (files w !! filename) as [content |] eqn:Hfile;
    injection Hopen as <- <-;
    [| apply bind_Ok_inv in H as (? & ? & _ & H); discriminate].
  exists content.
  apply bind_Ok_inv in H as ([r1 [nc | ?]] & w3 & H1 & H); [| discriminate].
  apply readIntFromHeader_Ok in H1 as [l1 E1].
  apply bind_Ok_inv in H as (? & w4 & _ & H).
  apply bind_Ok_inv in H as ([r2 [nr | ?]] & w5 & H2 & H); [| discriminate].
  apply readIntFromHeader_Ok in H2 as [l2 E2].
  apply bind_Ok_inv in H as (? & w6 & _ & H).
  apply bind_Ok_inv in H as (rows0 & w7 & Hmake & H).
  apply makeslice_Ok_inv in Hmake as (Hnr & -> & ->).
  apply bind_Ok_inv in H as (rows & w8 & Halloc & H).
  apply allocRows_Ok in Halloc;
    [| lia | rewrite length_replicate; cbn; lia].
  cbn [take Z.to_nat app] in Halloc.
  apply bind_Ok_inv in H as ([r3 [vx | ?]] & w9 & H3 & H); [| discriminate].
  apply readFloat32FromHeader_Ok in H3 as [l3 E3].
  apply bind_Ok_inv in H as (? & w10 & _ & H).
  apply bind_Ok_inv in H as ([r4 [vy | ?]] & w11 & H4 & H); [| discriminate].
  apply readFloat32FromHeader_Ok in H4 as [l4 E4].
  apply bind_Ok_inv in H as (? & w12 & _ & H).
  apply bind_Ok_inv in H as ([r5 [vc | ?]] & w13 & H5 & H); [| discriminate].
  apply readFloat32FromHeader_Ok in H5 as [l5 E5].
  apply bind_Ok_inv in H as (? & w14 & _ & H).
  apply bind_Ok_inv in H as ([r6 [nd | ?]] & w15 & H6 & H); [| discriminate].
  apply readIntFromHeader_Ok in H6 as [l6 E6].
  apply bind_Ok_inv in H as (? & w16 & _ & H).
  apply bind_Ok_inv in H as (? & w17 & _ & H).
  apply bind_Ok_inv in H as ([lineNum' g1 | ?] & w18 & Hrows & H);
    [| discriminate].
  exists [l1; l2; l3; l4; l5; l6], (pending r6).
  eexists. exists w17, lineNum', w18.
  split; [reflexivity |].
  split; [rewrite E1, E2, E3, E4, E5, E6; reflexivity |].
  split; [reflexivity |].
  assert (Hg : g1 = g /\ exists new, logged w' = new ++ logged w18).
  { match type of H with ?m w18 = _ =>
      assert (Hlo : logs_only m) by logs_only_tac end.
    destruct (Hlo w18) as (_ & _ & _ & Hnew). rewrite H in Hnew.
    split; [| exact Hnew].
    apply bind_Ok_inv in H as (? & ? & _ & H).
    apply bind_Ok_inv in H as (? & ? & _ & H).
    injection H as [= ->]. reflexivity. }
  destruct Hg as [-> Hnew].
  split; [| split; [| split; [exact Hrows | exact Hnew]]].
  - exact Hnr.
  - cbn. rewrite Halloc. reflexivity.
Qed.

(** ** Lines with a wrong number of fields *)

(** A line with a wrong number of fields: the grid is passed on as it
    is, a warning is logged, and the loop goes on with the next line and
    the next row. *)
Lemma readRows_skip filename verbose linesExpected line lines row lineNum g w :
  lineNum + 1 <= linesExpected ->
  len (tokens line) <> ncols g ->
  exists warning,
    columnWarning (lineNum + 1) (len (tokens line)) (ncols g) warning /\
    readRows filename verbose linesExpected (line :: lines) row lineNum g w =
    readRows filename verbose linesExpected lines (row + 1) (lineNum + 1) g
      (logging ((if verbose then [Println (fst (stripSpaces line))] else [])
                  ++ [warning]) w).
Proof.
  intros Hline Hwidth. cbn [readRows]. cbn zeta.
  replace (lineNum + 1 >? linesExpected) with false by lia.
  unfold tokens in *. unfold stripSpaces in *. cbn [fst] in *.
  set (numbers := strings.Split _) in *.
  destruct (len numbers >? ncols g) eqn:Hgt.
  - eexists. split; [left; reflexivity |].
    destruct verbose; reflexivity.
  - replace (len numbers <? ncols g) with true by lia.
    eexists. split; [right; reflexivity |].
    destruct verbose; reflexivity.
Qed.

Lemma readRows_skipped filename verbose linesExpected lines :
  forall row lineNum g w lineNum' g' w' (j : nat) line,
  0 <= row ->
  readRows filename verbose linesExpected lines row lineNum g w
    = (Ok (Break lineNum' g'), w') ->
  lines !! j = Some line ->
  lineNum + Z.of_nat j + 1 <= linesExpected ->
  len (tokens line) <> ncols g ->
  height g' !! (Z.to_nat row + j)%nat = height g !! (Z.to_nat row + j)%nat /\
  exists e,
    columnWarning (lineNum + Z.of_nat j + 1) (len (tokens line)) (ncols g) e /\
    In e (logged w').
Proof.
  induction lines as [| line0 lines IH];
    intros row lineNum g w lineNum' g' w' j line Hrow Hrun Hj Hline Hwidth;
    [discriminate |].
  destruct j as [| j].
  - injection Hj as ->.
    destruct (readRows_skip filename verbose linesExpected line lines
                row lineNum g w) as (e & He & Hstep); [lia | assumption |].
    rewrite Hstep in Hrun. split.
    + apply readRows_modifies in Hrun as (_ & _ & _ & Hrows); [| lia].
      apply Hrows. lia.
    + exists e. split; [rewrite Z.add_0_r; exact He |].
      destruct (logs_only_readRows filename verbose linesExpected lines
                  (row + 1) (lineNum + 1) g (logging
                    ((if verbose then [Println (fst (stripSpaces line))] else [])
                       ++ [e]) w)) as (_ & _ & _ & new & Hnew).
      rewrite Hrun in Hnew. cbn [snd] in Hnew. rewrite Hnew.
      apply in_or_app. right. cbn [logging logged].
      apply in_or_app. left. rewrite rev_app_distr. left. reflexivity.
  - apply readRows_cons_inv in Hrun
      as [[Hmany _] | (_ & g1 & w1 & Hmod & Hrun)]; [lia |].
    cbn [lookup list_lookup] in Hj.
    destruct Hmod as (Hc & _ & _ & Hrows).
    destruct (IH (row + 1) (lineNum + 1) g1 w1 lineNum' g' w' j line)
      as (Hsame & e & He & Hin);
      [lia | exact Hrun | exact Hj | lia | congruence |].
    replace (Z.to_nat (row + 1) + j)%nat with (Z.to_nat row + S j)%nat in Hsame
      by lia.
    split.
    + rewrite Hsame. apply Hrows. lia.
    + exists e. split; [| exact Hin].
      rewrite Hc in He.
      replace (lineNum + Z.of_nat (S j) + 1) with (lineNum + 1 + Z.of_nat j + 1)
        by lia. exact He.
Qed.

(** In a grid that was read, a data line with a wrong number of fields
    has left its row as allocated and a warning in the log. *)
Lemma ReadGridFromFile_skipped filename verbose w content g w' (k : nat) line :
  files w !! filename = Some content ->
  ReadGridFromFile filename verbose w = (Ok (inl g), w') ->
  Z.of_nat k < nrows g ->
  pending (NewReader content) !! (6 + k)%nat = Some line ->
  len (tokens line) <> ncols g ->
  height g !! k = Some (zeroRow g) /\
  exists e,
    columnWarning (Z.of_nat k + 7) (len (tokens line)) (ncols g) e /\
    In e (logged w').
Proof.
  intros Hfile Hread Hk Hline Hwidth.
  apply ReadGridFromFile_Ok in Hread
    as (content' & header & lines & g0 & w0 & lineNum' & w1 &
        Hfile' & Hpending & Hheader & Hnr & Hzero & Hrows & new & Hnew).
  rewrite Hfile in Hfile'. injection Hfile' as <-.
  rewrite Hpending, lookup_app_r in Hline by lia.
  replace (6 + k - length header)%nat with k in Hline by lia.
  pose proof (readRows_modifies _ _ _ _ _ _ _ _ _ _ _ (Z.le_refl 0) Hrows)
    as (Hc & Hr & _ & _).
  destruct (readRows_skipped _ _ _ _ _ _ _ _ _ _ _ k line (Z.le_refl 0)
              Hrows Hline) as (Hsame & e & He & Hin); [lia | congruence |].
  change (Z.to_nat 0 + k)%nat with k in Hsame. split.
  - rewrite Hsame, Hzero. unfold zeroRow. rewrite Hc.
    apply lookup_replicate_2. lia.
  - exists e. split.
    + rewrite Hc. replace (Z.of_nat k + 7) with (6 + Z.of_nat k + 1) by lia.
      exact He.
    + rewrite Hnew. apply in_or_app. right. exact Hin.
Qed.

(** A grid that was read has the matrix of its header. *)
Lemma ReadGridFromFile_wellformed filename verbose w g w' :
  ReadGridFromFile filename verbose w = (Ok (inl g), w') -> wellformed g.
Proof.
  intros H. apply ReadGridFromFile_Ok in H
    as (content & header & lines & g0 & w0 & lineNum' & w1 &
        _ & _ & _ & Hnr & Hzero & Hrows & _).
  eapply modifies_wellformed;
    [eapply readRows_modifies; [| exact Hrows]; lia |].
  repeat split; [exact Hnr | rewrite Hzero; apply length_replicate |].
  intros k r. rewrite Hzero. intros Hk.
  apply lookup_replicate in Hk as [-> _]. apply length_replicate.
Qed.

End Parser.
End ParserFacts.

Module Float32Order.
Import Float32.

Ltac order_cases :=
  unfold leb, ltb, SFleb, SFltb, SFcompare;
  repeat match goal with
         | |- context [(?a ?= ?b)%Z] => destruct (Z.compare_spec a b); subst
         | |- context [PosDef.Pos.compare_cont Eq ?a ?b] =>
             change (PosDef.Pos.compare_cont Eq a b) with (a ?= b)%positive;
             destruct (Pos.compare_spec a b); subst
         end;
  cbn; try congruence; try lia.

(** [x <= y] and [y < z] give [x <= z]. *)
Lemma leb_ltb_trans (x y z : float32) :
  leb x y = true -> ltb y z = true -> leb x z = true.
Proof.
  destruct x as [sx | [] | | [] mx ex], y as [sy | [] | | [] my ey],
    z as [sz | [] | | [] mz ez]; try (cbn; congruence); order_cases.
Qed.

(** [x < y] and [y <= z] give [x <= z]. *)
Lemma ltb_leb_trans (x y z : float32) :
  ltb x y = true -> leb y z = true -> leb x z = true.
Proof.
  destruct x as [sx | [] | | [] mx ex], y as [sy | [] | | [] my ey],
    z as [sz | [] | | [] mz ez]; try (cbn; congruence); order_cases.
Qed.

End Float32Order.

Module ShaderFacts.
Import tiler ShaderSpec Float32Facts.

Lemma Trunc32to8_range (n : Z) : 0 <= Trunc32to8 n <= 255.
Proof. unfold Trunc32to8. pose proof (Z.mod_pos_bound n 256). lia. Qed.

(** On a float32 whose mantissa has at most 24 bits, the conversion of the
    code keeps the integer part modulo 2^8. *)
Lemma uint8_trunc8 (x : float32) :
  (forall s m e, x = S754_finite s m e -> Zpos m < 2 ^ 24) ->
  uint8 x = trunc8 x.
Proof.
  intros Hm. destruct x as [s | s | | s m e]; try reflexivity.
  specialize (Hm s m e eq_refl).
  unfold uint8, trunc8, Cvt32Fto32, Trunc32to8. cbn [Float32.truncate].
  set (v := match e with
            | Zneg k => Z.shiftr (Zpos m) (Zpos k)
            | _ => Z.shiftl (Zpos m) e
            end).
  change (2 ^ 8) with 256.
  assert (Hv : 0 <= v /\ (v < 2 ^ 31 \/ v mod 256 = 0)).
  { subst v. destruct e as [| k | k].
    - rewrite Z.shiftl_0_r. lia.
    - rewrite Z.shiftl_mul_pow2 by lia. split; [lia |].
      destruct (Z.lt_ge_cases (Zpos k) 8) as [Hk | Hk].
      + left. assert (2 ^ Zpos k <= 2 ^ 7) by (apply Z.pow_le_mono_r; lia).
        change (2 ^ 31) with (2 ^ 24 * 2 ^ 7). nia.
      + right. replace (Zpos k) with (Zpos k - 8 + 8) by lia.
        rewrite Z.pow_add_r by lia. change (2 ^ 8) with 256.
        rewrite Z.mul_assoc. apply Z.mod_mul. lia.
    - rewrite Z.shiftr_div_pow2 by lia. split; [apply Z.div_pos; lia |].
      left. assert (Zpos m / 2 ^ Zpos k <= Zpos m)
        by (apply Z.div_le_upper_bound; [lia | nia]).
      lia. }
  destruct Hv as [Hv0 Hv].
  assert (Hneg : (- v) mod 256 = 0 -> (- 2 ^ 31) mod 256 = (- v) mod 256)
    by (intros ->; reflexivity).
  assert (Hpos : v mod 256 = 0 -> (- 2 ^ 31) mod 256 = v mod 256)
    by (intros ->; reflexivity).
  assert (Hopp : v mod 256 = 0 -> (- v) mod 256 = 0).
  { intros H0. apply Z.mod_divide in H0; [| lia]. apply Z.mod_divide; [lia |].
    apply Z.divide_opp_r. exact H0. }
  destruct s; cbn [cond_Zopp];
    destruct (_ && _) eqn:Hrange; try reflexivity;
    apply andb_false_iff in Hrange;
    destruct Hv as [Hv | Hv]; auto; lia.
Qed.

Lemma uint8_range (x : float32) : 0 <= uint8 x <= 255.
Proof. apply Trunc32to8_range. Qed.

(** The code computes the amended formula. *)
Lemma shadeValue_truncated (floor ceiling height : float32) :
  shadeValue floor ceiling height = truncated floor ceiling height.
Proof.
  unfold shadeValue, truncated, uint8_sub. cbn zeta.
  set (q := Float32.div _ _).
  rewrite <- (uint8_trunc8 q) by (intros s m e; apply div_mantissa).
  pose proof (uint8_range q). apply Z.mod_small. lia.
Qed.

(** On a real that is not negative the integer part is the floor. *)
Lemma floor8_trunc8 (x : float32) :
  nonNegative x = true -> floor8 x = Some (trunc8 x).
Proof.
  destruct x as [s | s | | [] m e]; try discriminate; intros _;
    [reflexivity |].
  unfold floor8, trunc8. cbn [floorOfReal Float32.truncate cond_Zopp].
  destruct e as [| k | k].
  - rewrite Z.shiftl_0_r, Z.pow_0_r, Z.mul_1_r. reflexivity.
  - rewrite Z.shiftl_mul_pow2 by lia. reflexivity.
  - rewrite Z.shiftr_div_pow2 by lia. reflexivity.
Qed.

(** Where the quotient is not negative, the code computes the formula of
    the specification. *)
Lemma shadeValue_intensity (floor ceiling height : float32) :
  nonNegative (Float32.div
                 (Float32.mul (Float32.sub height floor) (Float32.of_Z 256))
                 (Float32.sub ceiling floor)) = true ->
  intensity floor ceiling height = Some (shadeValue floor ceiling height).
Proof.
  intros Hq. rewrite shadeValue_truncated. unfold intensity, truncated.
  cbn zeta. rewrite (floor8_trunc8 _ Hq). reflexivity.
Qed.

Lemma shadeValue_range (floor ceiling height : float32) :
  0 <= shadeValue floor ceiling height <= 255.
Proof.
  unfold shadeValue, uint8_sub.
  pose proof (Z.mod_pos_bound (255 - uint8 (Float32.div
    (Float32.mul (Float32.sub height floor) (Float32.of_Z 256))
    (Float32.sub ceiling floor))) 256). lia.
Qed.

(** [shade] returns the grey of [shadeValue] and writes to no variable but
    the four that track the extreme shades. *)
Lemma shade_run (floor ceiling height : float32) (w : World) :
  exists w',
    shade floor ceiling height w
      = (Ok (color.mkGray (shadeValue floor ceiling height)), w') /\
    files w' = files w /\
    Var.floor (vars w') = Var.floor (vars w) /\
    Var.ceiling (vars w') = Var.ceiling (vars w) /\
    Var.verbose (vars w') = Var.verbose (vars w).
Proof.
  destruct w as [fs dn lg [fn out ce fl vb mxh mnh mx mxs mn mns]].
  unfold shade. cbn zeta. generalize (shadeValue floor ceiling height).
  intros s.
  unfold mbind, M_bind, mret, M_ret, gets, modify, when, log_Printf.
  cbn.
  destruct vb, mxs, mns; cbn;
    repeat match goal with
           | |- context [if ?b then _ else _] => destruct b; cbn
           end;
    eexists; repeat split.
Qed.

(** A height at the floor is drawn white. *)
Lemma shade_at_floor (floor ceiling : float32) :
  shadeValue floor ceiling floor = 255.
Proof.
  unfold shadeValue. cbn zeta.
  assert (H : forall q, ((exists s, q = S754_zero s) \/ q = S754_nan) ->
                        uint8_sub 255 (uint8 q) = 255)
    by (intros q [[s ->] | ->]; reflexivity).
  apply H.
  destruct (sub_diag floor) as [[[] ->] | ->];
    destruct (Float32.sub ceiling floor) as [[] | [] | | [] m e];
    cbn; eauto.
Qed.

End ShaderFacts.

Module ExtremesFacts.
Import esri GridSpec ParserFacts Float32Facts Float32Order.

(** What an accepted write makes of the extremes. *)
Lemma SetHeight_extremes g row col h w g' w' :
  row < nrows g -> col < ncols g ->
  SetHeight g row col h w = (Ok g', w') ->
  maxHeightSet g' = true /\ minHeightSet g' = true /\
  maxHeight g' = (if maxHeightSet g
                  then if Float32.gtb h (maxHeight g) then h else maxHeight g
                  else h) /\
  minHeight g' = (if minHeightSet g
                  then if Float32.ltb h (minHeight g) then h else minHeight g
                  else h).
Proof.
  intros Hr Hc. unfold SetHeight.
  replace ((row >=? nrows g) || (col >=? ncols g)) with false
    by (symmetry; apply orb_false_iff; lia).
  intros H. apply bind_Ok_inv in H as (r & w1 & _ & H).
  apply bind_Ok_inv in H as (r' & w2 & _ & H).
  injection H as <- _.
  destruct g as [nc nr xl yl cs nd mxs mx mns mn m vb]. cbn.
  unfold Float32.gtb, Float32.ltb.
  unfold setMax, setMin, setMatrix.
  destruct mxs, mns; cbn;
    try destruct (SFltb mx h); cbn; try destruct (SFltb h mn); cbn; auto.
Qed.

(** The first accepted sample, when it is a number, orders the extremes. *)
Lemma SetHeight_first g row col h w g' w' :
  maxHeightSet g = false -> minHeightSet g = false ->
  row < nrows g -> col < ncols g ->
  Float32.is_nan h = false ->
  SetHeight g row col h w = (Ok g', w') ->
  ordered g'.
Proof.
  intros Hmx Hmn Hr Hc Hnan H.
  apply SetHeight_extremes in H as (H1 & H2 & H3 & H4); [| assumption ..].
  rewrite Hmx in H3. rewrite Hmn in H4.
  unfold ordered, MaxHeight, MinHeight, Float32.geb.
  rewrite H3, H4. repeat split; try assumption.
  apply leb_refl. exact Hnan.
Qed.

(** Once ordered, the extremes stay ordered under every write. *)
Lemma SetHeight_ordered g row col h w g' w' :
  ordered g ->
  SetHeight g row col h w = (Ok g', w') ->
  ordered g'.
Proof.
  intros (Hmx & Hmn & Hle) H.
  destruct (Z.le_gt_cases (nrows g) row) as [Hr | Hr];
    [rewrite SetHeight_rejects in H by auto; injection H as <- _;
     repeat split; assumption |].
  destruct (Z.le_gt_cases (ncols g) col) as [Hc | Hc];
    [rewrite SetHeight_rejects in H by auto; injection H as <- _;
     repeat split; assumption |].
  apply SetHeight_extremes in H as (H1 & H2 & H3 & H4); [| lia | lia].
  rewrite Hmx in H3. rewrite Hmn in H4.
  unfold ordered, MaxHeight, MinHeight, Float32.geb in *.
  rewrite H3, H4. repeat split; try assumption.
  change (SFleb ?a ?b) with (Float32.leb a b) in *.
  destruct (Float32.gtb h (maxHeight g)) eqn:Hgt;
    destruct (Float32.ltb h (minHeight g)) eqn:Hlt.
  - apply leb_refl. apply (ltb_not_nan _ _ Hlt).
  - eapply leb_ltb_trans; [exact Hle | exact Hgt].
  - eapply ltb_leb_trans; [exact Hlt | exact Hle].
  - exact Hle.
Qed.

End ExtremesFacts.

Module RenderFacts.
Import esri tiler GridSpec RenderSpec ParserFacts ShaderFacts.

Lemma keeps_refl w : keeps w w.
Proof. repeat split. Qed.

Lemma keeps_trans w1 w2 w3 : keeps w1 w2 -> keeps w2 w3 -> keeps w1 w3.
Proof.
  intros (? & ? & ? & ? & ?) (? & ? & ? & ? & ?). repeat split; congruence.
Qed.

Lemma RGBAAt_SetPixel p x y c x' y' :
  image.RGBAAt (image.SetPixel p x y c) x' y' =
  if image.In (image.mkPoint x y) (image.Bounds p) && bool_decide ((x', y') = (x, y))
  then color.RGBAModel_Convert c
  else image.RGBAAt p x' y'.
Proof.
  unfold image.SetPixel, image.RGBAAt.
  destruct (image.In (image.mkPoint x y) (image.Bounds p)) eqn:Hin;
    cbn [negb andb image.Bounds image.Pix]; [| reflexivity].
  case_bool_decide as Heq.
  - injection Heq as -> ->. rewrite Hin. cbn [negb].
    rewrite lookup_insert_eq. reflexivity.
  - rewrite lookup_insert_ne by congruence. reflexivity.
Qed.

Lemma Bounds_SetPixel p x y c :
  image.Bounds (image.SetPixel p x y c) = image.Bounds p.
Proof. unfold image.SetPixel. destruct (negb _); reflexivity. Qed.

Section Grid.
Variable g : Grid.
Hypothesis Hwf : wellformed g.

Lemma Height_Ok row col w :
  0 <= row < nrows g -> 0 <= col < ncols g ->
  Height g row col w = (Ok (sample g row col), w).
Proof.
  intros Hr Hc. destruct Hwf as (_ & Hlen & Hrows).
  destruct (lookup_lt_is_Some_2 (height g) (Z.to_nat row)) as [r Hrow];
    [lia |].
  pose proof (Hrows _ _ Hrow) as Hrlen.
  destruct (lookup_lt_is_Some_2 r (Z.to_nat col)) as [h Hcol]; [lia |].
  unfold sample. rewrite Hrow. cbn. rewrite Hcol. cbn.
  unfold Height.
  erewrite bind_Ok
    by (rewrite <- (Z2Nat.id row) by lia; apply index_Ok; exact Hrow).
  rewrite <- (Z2Nat.id col) by lia. apply index_Ok. exact Hcol.
Qed.

(** One cell: its shade is set at [(col, row)]. *)
Lemma drawCell_run row col img w :
  0 <= row < nrows g -> 0 <= col < ncols g ->
  exists w',
    drawCell g row col img w =
      (Ok (image.SetPixel img col row
             (color.mkGray (shadeValue (Var.floor (vars w)) (Var.ceiling (vars w))
                                       (sample g row col)))), w') /\
    keeps w w'.
Proof.
  intros Hr Hc. unfold drawCell.
  unfold mbind at 1 2, M_bind at 1 2, gets at 1 2. cbn [fst snd].
  rewrite (bind_Ok _ _ _ _ _ (Height_Ok row col w Hr Hc)).
  destruct (shade_run (Var.floor (vars w)) (Var.ceiling (vars w))
                      (sample g row col) w)
    as (w1 & Hshade & Hf & Hfl & Hce & Hvb).
  rewrite (bind_Ok _ _ _ _ _ Hshade).
  assert (Hd : denied w1 = denied w).
  { pose proof (f_equal snd Hshade) as E. cbn [snd] in E. subst w1.
    clear. destruct w as [fs dn lg [fn out ce fl vb mxh mnh mx mxs mn mns]].
    unfold shade. cbn zeta. generalize (shadeValue fl ce (sample g row col)).
    intros s.
    unfold mbind, M_bind, mret, M_ret, gets, modify, when, log_Printf. cbn.
    destruct vb, mxs, mns; cbn;
      repeat match goal with
             | |- context [if ?b then _ else _] => destruct b; cbn
             end; reflexivity. }
  unfold mbind, M_bind, gets, when, log_Printf, mret, M_ret.
  destruct (Var.verbose (vars w1)) eqn:Hv1; cbn; eexists;
    (split; [reflexivity |]); repeat split; cbn; congruence.
Qed.

(** The loop over the columns of a row sets the pixels of that row. *)
Lemma colLoop_run row (Hr : 0 <= row < nrows g) todo : forall col img w,
  0 <= col -> col + Z.of_nat todo <= ncols g ->
  exists img' w',
    colLoop todo g row col img w = (Ok img', w') /\
    keeps w w' /\
    image.Bounds img' = image.Bounds img /\
    forall x y,
      image.RGBAAt img' x y =
      if bool_decide (y = row /\ col <= x < col + Z.of_nat todo) &&
         image.In (image.mkPoint x y) (image.Bounds img)
      then grey (shadeValue (Var.floor (vars w)) (Var.ceiling (vars w))
                            (sample g row x))
      else image.RGBAAt img x y.
Proof.
  induction todo as [| todo IH]; intros col img w Hcol Hend; cbn [colLoop].
  - exists img, w. repeat split. intros x y.
    rewrite bool_decide_eq_false_2 by lia. reflexivity.
  - assert (Hc : 0 <= col < ncols g) by lia.
    destruct (drawCell_run row col img w Hr Hc) as (w1 & Hcell & Hk1).
    rewrite (bind_Ok _ _ _ _ _ Hcell).
    destruct (IH (col + 1) (image.SetPixel img col row
                 (color.mkGray (shadeValue (Var.floor (vars w))
                    (Var.ceiling (vars w)) (sample g row col)))) w1)
      as (img' & w' & Hloop & Hk2 & Hb & Hpix); [lia | lia |].
    exists img', w'. split; [exact Hloop |].
    split; [eapply keeps_trans; eassumption |].
    split; [rewrite Hb; apply Bounds_SetPixel |].
    intros x y. rewrite Hpix, Bounds_SetPixel, RGBAAt_SetPixel.
    destruct Hk1 as (_ & _ & -> & -> & _).
    destruct (image.In (image.mkPoint x y) (image.Bounds img)) eqn:Hin.
    + rewrite !andb_true_r.
      destruct (decide (y = row /\ x = col)) as [[-> ->] | Hne].
      * rewrite Hin. cbn [andb].
        rewrite (bool_decide_eq_true_2 (_ = _)) by reflexivity.
        rewrite (bool_decide_eq_true_2 (_ /\ _ <= _ < _ + Z.of_nat (S _))) by lia.
        rewrite bool_decide_eq_false_2 by lia. reflexivity.
      * rewrite (bool_decide_eq_false_2 (_ = _))
          by (intros [= -> ->]; apply Hne; split; reflexivity).
        rewrite andb_false_r.
        destruct (decide (y = row /\ col + 1 <= x < col + 1 + Z.of_nat todo)).
        -- rewrite !bool_decide_eq_true_2 by lia. reflexivity.
        -- rewrite !bool_decide_eq_false_2 by lia. reflexivity.
    + rewrite !andb_false_r.
      destruct (image.In (image.mkPoint col row) _) eqn:Hin';
        [| reflexivity]. cbn [andb].
      case_bool_decide as Heq; [| reflexivity].
      injection Heq as -> ->. congruence.
Qed.

(** The loop over the rows sets the pixels of the rows it visits. *)
Lemma rowLoop_run (Hnc : 0 <= ncols g) todo : forall row img w,
  row < nrows g -> row = Z.of_nat todo - 1 ->
  exists img' w',
    rowLoop todo g row img w = (Ok img', w') /\
    keeps w w' /\
    image.Bounds img' = image.Bounds img /\
    forall x y,
      image.RGBAAt img' x y =
      if bool_decide (0 <= y <= row /\ 0 <= x < ncols g) &&
         image.In (image.mkPoint x y) (image.Bounds img)
      then grey (shadeValue (Var.floor (vars w)) (Var.ceiling (vars w))
                            (sample g y x))
      else image.RGBAAt img x y.
Proof.
  induction todo as [| todo IH]; intros row img w Hrow Hrt; cbn [rowLoop].
  - exists img, w. repeat split. intros x y.
    rewrite bool_decide_eq_false_2 by lia. reflexivity.
  - assert (Hr : 0 <= row < nrows g) by lia.
    destruct (colLoop_run row Hr (Z.to_nat (Ncols g)) 0 img w)
      as (img1 & w1 & Hcols & Hk1 & Hb1 & Hpix1);
      [lia | unfold Ncols; lia |].
    rewrite (bind_Ok _ _ _ _ _ Hcols).
    destruct (IH (row - 1) img1 w1) as (img' & w' & Hloop & Hk2 & Hb & Hpix);
      [lia | lia |].
    exists img', w'. split; [exact Hloop |].
    split; [eapply keeps_trans; eassumption |].
    split; [congruence |].
    intros x y. rewrite Hpix, Hb1, Hpix1.
    destruct Hk1 as (_ & _ & -> & -> & _).
    destruct (image.In (image.mkPoint x y) (image.Bounds img));
      rewrite ?andb_true_r, ?andb_false_r; [| reflexivity].
    unfold Ncols.
    destruct (decide (0 <= y <= row - 1 /\ 0 <= x < ncols g)).
    + rewrite !(bool_decide_eq_true_2 (0 <= y <= _ /\ _)) by lia. reflexivity.
    + rewrite (bool_decide_eq_false_2 (0 <= y <= row - 1 /\ _)) by lia.
      destruct (decide (y = row /\ 0 <= x < ncols g)) as [[-> ?] | ?].
      * rewrite !bool_decide_eq_true_2 by lia. reflexivity.
      * rewrite !bool_decide_eq_false_2 by lia. reflexivity.
Qed.

(** The image that [render] returns. *)
Lemma render_run w :
  0 <= ncols g -> 4 * nrows g * ncols g <= maxAlloc ->
  exists img w',
    render g w = (Ok img, w') /\
    keeps w w' /\
    image.Bounds img = image.Rect 0 0 (Nrows g) (Ncols g) /\
    forall row col,
      0 <= row < nrows g -> 0 <= col < ncols g ->
      image.In (image.mkPoint col row) (image.Bounds img) = true ->
      image.RGBAAt img col row =
        grey (shadeValue (Var.floor (vars w)) (Var.ceiling (vars w))
                         (sample g row col)).
Proof.
  intros Hnc Hsize. pose proof Hwf as (Hnr & _ & _).
  unfold render, image.NewRGBA. cbn zeta.
  assert (Hrect : image.Rect 0 0 (Nrows g) (Ncols g) =
                  image.mkRectangle (image.mkPoint 0 0)
                                    (image.mkPoint (nrows g) (ncols g))).
  { unfold image.Rect, Nrows, Ncols.
    replace (0 >? nrows g) with false by lia.
    replace (0 >? ncols g) with false by lia. reflexivity. }
  rewrite Hrect. unfold image.Dx, image.Dy. cbn [image.Max image.Min image.X image.Y].
  rewrite !Z.sub_0_r.
  replace (image.maxInt <? 4 * nrows g * ncols g) with false
    by (unfold image.maxInt, maxAlloc in *; lia).
  replace (maxAlloc <? 4 * nrows g * ncols g) with false by lia.
  unfold mbind at 1, M_bind at 1, mret at 1, M_ret at 1.
  destruct (rowLoop_run Hnc (Z.to_nat (Nrows g - 1 + 1)) (Nrows g - 1)
              (image.mkImage ∅ (image.mkRectangle (image.mkPoint 0 0)
                                  (image.mkPoint (nrows g) (ncols g)))) w)
    as (img & w' & Hloop & Hk & Hb & Hpix); [unfold Nrows; lia .. |].
  exists img, w'. split; [exact Hloop |]. split; [exact Hk |].
  split; [exact Hb |].
  intros row col Hr Hc Hin. rewrite Hpix. rewrite Hb in Hin.
  cbn [image.Bounds] in *. rewrite Hin.
  rewrite bool_decide_eq_true_2 by (unfold Nrows; lia). reflexivity.
Qed.

End Grid.

(** ** The order of the visits *)

Lemma foldM_app {A B} (f : B -> A -> M B) (l1 l2 : list A) (b : B) (w : World) :
  foldM f (l1 ++ l2) b w = (foldM f l1 b ≫= foldM f l2) w.
Proof.
  revert b w. induction l1 as [| a l1 IH]; intros b w; cbn [foldM app].
  - reflexivity.
  - unfold mbind, M_bind in *. destruct (f b a w) as [[b' | p] w1]; [apply IH | reflexivity].
Qed.

Lemma colLoop_fold g row todo : forall col img w,
  colLoop todo g row col img w =
  foldM (draw g) ((fun c => (row, c)) <$> seqZ col (Z.of_nat todo)) img w.
Proof.
  induction todo as [| todo IH]; intros col img w; cbn [colLoop].
  - reflexivity.
  - rewrite seqZ_cons by lia. cbn [fmap list_fmap foldM].
    replace (Z.pred (Z.of_nat (S todo))) with (Z.of_nat todo) by lia.
    change (draw g img (row, col)) with (drawCell g row col img).
    unfold mbind, M_bind.
    destruct (drawCell g row col img w) as [[img1 | p] w1]; [| reflexivity].
    rewrite IH. reflexivity.
Qed.

Lemma rowLoop_fold g todo : forall img w,
  rowLoop todo g (Z.of_nat todo - 1) img w =
  foldM (draw g) (visitOrder (Z.of_nat todo) (Z.of_nat (Z.to_nat (Ncols g)))) img w.
Proof.
  unfold visitOrder.
  induction todo as [| todo IH]; intros img w; cbn [rowLoop].
  - reflexivity.
  - replace (Z.of_nat (S todo)) with (Z.of_nat todo + 1) by lia.
    rewrite seqZ_app by lia. cbn [seqZ]. rewrite reverse_app.
    change (seqZ (0 + Z.of_nat todo) 1) with [0 + Z.of_nat todo].
    rewrite reverse_singleton. cbn [app mbind list_bind].
    rewrite foldM_app. rewrite Z.add_0_l.
    replace (Z.of_nat todo + 1 - 1) with (Z.of_nat todo) by lia.
    apply bind_cong; [apply colLoop_fold | intros img1 w1; apply IH].
Qed.

(** [render] goes through the cells in [visitOrder]. *)
Lemma render_visits g w :
  0 <= nrows g -> 0 <= ncols g ->
  render g w =
  (image.NewRGBA (image.Rect 0 0 (Nrows g) (Ncols g))
     ≫= foldM (draw g) (visitOrder (nrows g) (ncols g))) w.
Proof.
  intros Hnr Hnc. unfold render. cbn zeta.
  apply bind_cong; [reflexivity | intros img w1].
  replace (Nrows g - 1) with (Z.of_nat (Z.to_nat (Nrows g - 1 + 1)) - 1)
    at 2 by (unfold Nrows; lia).
  rewrite rowLoop_fold. unfold Nrows, Ncols.
  rewrite !Z2Nat.id by lia. replace (nrows g - 1 + 1) with (nrows g) by lia.
  reflexivity.
Qed.

End RenderFacts.

Module MainFacts.
Import esri tiler GridSpec MainSpec esriFacts ParserFacts.

Section Main.
Context {scanner : fmt.Scanner} {encoder : png.Encoder}.

Lemma os_Create_Ok path w :
  path ∉ denied w ->
  os_Create path w =
    (Ok (inl path),
     mkWorld (<[path := EmptyString]> (files w)) (denied w) (logged w) (vars w)).
Proof.
  intros H. unfold os_Create. destruct (decide _); [contradiction | reflexivity].
Qed.

(** When the output file can be created, [main] comes to call
    [ReadGridFromFile] in the world [beforeRead]. *)
Lemma main_after_setup flags w :
  flag_output flags ∉ denied w ->
  main flags w = afterSetup flags (beforeRead flags w).
Proof.
  intros Hout. unfold main, afterSetup, beforeRead, varsOf.
  erewrite bind_Ok by reflexivity.
  destruct (flag_floor flags), (flag_ceiling flags);
    repeat (erewrite bind_Ok by reflexivity);
    (erewrite bind_Ok by (apply os_Create_Ok; exact Hout));
    repeat (erewrite bind_Ok by reflexivity);
    reflexivity.
Qed.

(** A run in which no grid is read leaves the output file as
    [os.Create] made it: empty. *)
Lemma main_readFails flags w :
  flag_output flags ∉ denied w ->
  readFails flags w ->
  files (snd (main flags w)) = <[flag_output flags := EmptyString]> (files w).
Proof.
  intros Hout Hfail. rewrite main_after_setup by assumption.
  change (<[flag_output flags := EmptyString]> (files w))
    with (files (beforeRead flags w)).
  unfold readFails in Hfail. unfold afterSetup.
  destruct (logs_only_ReadGridFromFile (flag_input flags) (flag_verbose flags)
              (beforeRead flags w)) as (Hf & _).
  unfold mbind, M_bind.
  destruct (ReadGridFromFile _ _ _) as [[[g | err] | p] w1]; cbn [fst snd] in *.
  - exfalso. apply (Hfail g). reflexivity.
  - exact Hf.
  - exact Hf.
Qed.

(** The input file is missing: no grid is read. *)
Lemma missing_input_readFails flags w :
  flag_output flags ∉ denied w ->
  flag_input flags <> flag_output flags ->
  files w !! flag_input flags = None ->
  readFails flags w.
Proof.
  intros Hout Hne Hmiss g.
  assert (Hfiles : files (beforeRead flags w) =
                   <[flag_output flags := EmptyString]> (files w))
    by reflexivity.
  unfold ReadGridFromFile. cbn zeta.
  unfold mbind at 1, M_bind at 1.
  destruct (when _ _ _) as [[[] | p] w1] eqn:Hlog; [| discriminate].
  apply when_log_files in Hlog.
  unfold mbind at 1, M_bind at 1, os_Open.
  rewrite Hlog, Hfiles, lookup_insert_ne, Hmiss by congruence.
  discriminate.
Qed.

End Main.
End MainFacts.

(* ===================================================================== *)
(** * The properties of the specification *)
(* ===================================================================== *)

Module Claims.
Import fmt bufio esri tiler.
Import GridSpec ShaderSpec RenderSpec MainSpec Examples.
Import esriFacts ParserFacts ExtremesFacts ShaderFacts RenderFacts MainFacts.
Local Open Scope string_scope.
Local Open Scope Z_scope.

(** ** The shader *)

(** C1 (the code departs from it at the ceiling). A height at the floor is
    shaded 255 whatever the floor and the ceiling are; a height at the
    ceiling is not shaded 0: with floor 0 and ceiling 1000, the height
    1000 gives 256, which the conversion to uint8 wraps to 0, and the
    shade is 255 again. *)
Theorem shade_at_ceiling_wraps :
  (forall floor ceiling, shadeValue floor ceiling floor = 255) /\
  shadeValue (Float32.of_Z 0) (Float32.of_Z 1000) (Float32.of_Z 1000) = 255.
Proof. split; [exact shade_at_floor | vm_compute; reflexivity]. Qed.

(** C6, as stated: below the floor the formula with the floor and the
    code part. With floor 0 and ceiling 1000 the height -1 gives the
    quotient -0.256, whose floor is -1 and whose integer part is 0: the
    formula gives 255 - 255 = 0, the code 255 - 0 = 255. With floor 100
    and ceiling 200 the height 99 gives -2.56: 2 by the formula, 1 by the
    code. *)
Lemma floor_formula_fails_below_the_floor :
  Float32.gtb (Float32.of_Z 1000) (Float32.of_Z 0) = true /\
  intensity (Float32.of_Z 0) (Float32.of_Z 1000) (Float32.of_Z (-1)) = Some 0 /\
  shadeValue (Float32.of_Z 0) (Float32.of_Z 1000) (Float32.of_Z (-1)) = 255 /\
  Float32.gtb (Float32.of_Z 200) (Float32.of_Z 100) = true /\
  intensity (Float32.of_Z 100) (Float32.of_Z 200) (Float32.of_Z 99) = Some 2 /\
  shadeValue (Float32.of_Z 100) (Float32.of_Z 200) (Float32.of_Z 99) = 1.
Proof. repeat split; vm_compute; reflexivity. Qed.

(** C6, amended. For every floor, ceiling and height with ceiling > floor,
    [shade] returns the grey of intensity
    255 - trunc8((height - floor) * 256 / (ceiling - floor)), where the
    arithmetic is that of float32, trunc8 keeps the integer part of the
    quotient, rounded towards zero, modulo 2^8, and nothing is clamped.
    Wherever the quotient is not negative this is the formula of the
    specification, with the floor; so shade(0, 1000, 500) is
    255 - floor(500 * 256 / 1000) = 127, and a height of 1500, above the
    ceiling, wraps to 127 as well. *)
Theorem shade_computes_truncated_intensity :
  (forall floor ceiling height,
     Float32.gtb ceiling floor = true ->
     shadeValue floor ceiling height = truncated floor ceiling height /\
     (forall w, fst (shade floor ceiling height w)
                = Ok (color.mkGray (truncated floor ceiling height))) /\
     (nonNegative (Float32.div
                     (Float32.mul (Float32.sub height floor) (Float32.of_Z 256))
                     (Float32.sub ceiling floor)) = true ->
      intensity floor ceiling height = Some (shadeValue floor ceiling height))) /\
  intensity (Float32.of_Z 0) (Float32.of_Z 1000) (Float32.of_Z 500) = Some 127 /\
  shadeValue (Float32.of_Z 0) (Float32.of_Z 1000) (Float32.of_Z 500) = 127 /\
  shadeValue (Float32.of_Z 0) (Float32.of_Z 1000) (Float32.of_Z 1500) = 127.
Proof.
  split; [| repeat split; vm_compute; reflexivity].
  intros floor ceiling height _. split; [apply shadeValue_truncated |].
  split; [| apply shadeValue_intensity].
  intros w. destruct (shade_run floor ceiling height w) as (w' & -> & _).
  cbn [fst]. rewrite shadeValue_truncated. reflexivity.
Qed.

Lemma shade_computes_truncated_intensity_witness :
  Float32.gtb (Float32.of_Z 1000) (Float32.of_Z 0) = true /\
  shadeValue (Float32.of_Z 0) (Float32.of_Z 1000) (Float32.of_Z (-1))
    = truncated (Float32.of_Z 0) (Float32.of_Z 1000) (Float32.of_Z (-1)) /\
  intensity (Float32.of_Z 0) (Float32.of_Z 1000) (Float32.of_Z 500)
    = Some (shadeValue (Float32.of_Z 0) (Float32.of_Z 1000) (Float32.of_Z 500)).
Proof.
  split; [reflexivity |]. split.
  - apply (proj1 shade_computes_truncated_intensity
             (Float32.of_Z 0) (Float32.of_Z 1000) (Float32.of_Z (-1))).
    reflexivity.
  - apply (proj1 shade_computes_truncated_intensity
             (Float32.of_Z 0) (Float32.of_Z 1000) (Float32.of_Z 500));
      vm_compute; reflexivity.
Defined.

(** ** The grid *)

(** C4 (the code departs from it below zero). [SetHeight] rejects an index
    at or above the bounds, but a negative row or column is not checked:
    on the 4 by 4 example grid, [SetHeight(-1, 0, h)] and
    [SetHeight(0, -1, h)] panic with an index out of range. *)
Theorem SetHeight_negative_index_panics :
  fst (SetHeight (gridOf example4x4) (-1) 0 (Float32.of_Z 1) (worldWith example4x4))
    = Panic (IndexOutOfRange (-1) 4) /\
  fst (SetHeight (gridOf example4x4) 0 (-1) (Float32.of_Z 1) (worldWith example4x4))
    = Panic (IndexOutOfRange (-1) 4).
Proof. split; vm_compute; reflexivity. Qed.

(** C9, as stated: a NaN sample followed by the sample 5 leaves both
    extremes NaN, and NaN >= NaN is false. *)
Lemma nan_sample_unorders_extremes :
  exists g1 w1 g2 w2,
    SetHeight fresh1x1 0 0 Float32.NaN (start ∅ ∅) = (Ok g1, w1) /\
    SetHeight g1 0 0 (Float32.of_Z 5) w1 = (Ok g2, w2) /\
    Float32.geb (MaxHeight g2) (MinHeight g2) = false.
Proof. do 4 eexists. repeat split. Qed.

(** The same through the parser: a file whose first sample reads "NaN". *)
Example nan_in_file_unorders_extremes :
  exists g w,
    read exampleNaN = (Ok (inl g), w) /\
    Float32.geb (MaxHeight g) (MinHeight g) = false.
Proof. do 2 eexists. split; [vm_compute; reflexivity | reflexivity]. Qed.

(** C9, amended. When the first sample that [SetHeight] accepts on a grid
    is not a NaN, MaxHeight() >= MinHeight() holds after it, and every
    later call of [SetHeight] that returns keeps it. *)
Theorem extremes_stay_ordered :
  (forall g row col h w g' w',
     maxHeightSet g = false -> minHeightSet g = false ->
     row < nrows g -> col < ncols g ->
     Float32.is_nan h = false ->
     SetHeight g row col h w = (Ok g', w') ->
     ordered g') /\
  (forall g row col h w g' w',
     ordered g ->
     SetHeight g row col h w = (Ok g', w') ->
     ordered g').
Proof. split; [exact SetHeight_first | exact SetHeight_ordered]. Qed.

Lemma extremes_stay_ordered_witness :
  exists g1 w1 g2 w2,
    SetHeight fresh1x1 0 0 (Float32.of_Z 5) (start ∅ ∅) = (Ok g1, w1) /\
    ordered g1 /\
    SetHeight g1 0 0 Float32.NaN w1 = (Ok g2, w2) /\
    ordered g2.
Proof.
  do 4 eexists.
  assert (H1 : SetHeight fresh1x1 0 0 (Float32.of_Z 5) (start ∅ ∅)
               = (Ok (mkGrid 1 1 Float32.zero Float32.zero Float32.zero 0
                             true (Float32.of_Z 5) true (Float32.of_Z 5)
                             [[Float32.of_Z 5]] false), start ∅ ∅))
    by reflexivity.
  assert (O1 := proj1 extremes_stay_ordered
                  fresh1x1 0 0 (Float32.of_Z 5) (start ∅ ∅) _ _
                  eq_refl eq_refl eq_refl eq_refl eq_refl H1).
  split; [exact H1 |]. split; [exact O1 |].
  assert (H2 : SetHeight (mkGrid 1 1 Float32.zero Float32.zero Float32.zero 0
                             true (Float32.of_Z 5) true (Float32.of_Z 5)
                             [[Float32.of_Z 5]] false) 0 0 Float32.NaN (start ∅ ∅)
               = (Ok (mkGrid 1 1 Float32.zero Float32.zero Float32.zero 0
                             true (Float32.of_Z 5) true (Float32.of_Z 5)
                             [[Float32.NaN]] false), start ∅ ∅))
    by reflexivity.
  split; [exact H2 |].
  exact (proj2 extremes_stay_ordered _ _ _ _ _ _ _ O1 H2).
Defined.

(** ** The parser *)

(** C8. The 4 by 4 example is read, and the grid has the minimum height
    500, the maximum height 1000, Height(0,0) = 500 and
    Height(3,3) = 1000. *)
Theorem example4x4_is_read :
  exists g w,
    read example4x4 = (Ok (inl g), w) /\
    MinHeight g = Float32.of_Z 500 /\
    MaxHeight g = Float32.of_Z 1000 /\
    fst (Height g 0 0 w) = Ok (Float32.of_Z 500) /\
    fst (Height g 3 3 w) = Ok (Float32.of_Z 1000).
Proof. do 2 eexists. split; [vm_compute; reflexivity |]. repeat split. Qed.

(** The same input without the last line feed: the last row is not read,
    since [ReadString] reports the end of the input with it. *)
Example example4x4_unterminated_is_read :
  exists g w,
    read example4x4_unterminated = (Ok (inl g), w) /\
    fst (Height g 3 3 w) = Ok Float32.zero.
Proof. do 2 eexists. split; [vm_compute; reflexivity |]. reflexivity. Qed.

(** A first header line of one field: the parser panics on [field[1]]. *)
Lemma header_without_value_panics {scanner : Scanner}
    filename verbose w content line rest :
  files w !! filename = Some content ->
  pending (NewReader content) = line :: rest ->
  len (tokens line) = 1 ->
  fst (ReadGridFromFile filename verbose w) = Panic (IndexOutOfRange 1 1).
Proof.
  intros Hfile Hpending Hone. unfold ReadGridFromFile. cbn zeta.
  unfold mbind at 1, M_bind at 1.
  destruct (when _ _ _) as [[[] | p] w1] eqn:Hlog;
    [| destruct verbose; discriminate].
  apply when_log_files in Hlog.
  unfold mbind at 1, M_bind at 1, os_Open. rewrite Hlog, Hfile.
  unfold mbind at 1, M_bind at 1.
  assert (Hhead : fst (readIntFromHeader (NewReader content) "ncols" verbose w1)
                  = Panic (IndexOutOfRange 1 1)).
  { unfold readIntFromHeader, ReadString. cbn zeta. rewrite Hpending.
    cbn iota beta. unfold tokens in Hone. unfold stripSpaces in *.
    cbn [fst] in Hone. cbn iota beta.
    set (field := strings.Split _) in *.
    destruct field as [| f0 [| f1 field]];
      [discriminate | | unfold len in Hone; cbn [length] in Hone; lia].
    assert (Hlogs : forall b format args w0,
              exists w0', when b (log_Printf format args) w0 = (Ok tt, w0'))
      by (intros [] ? ? ?; eexists; reflexivity).
    destruct (Hlogs verbose "%s: line %s" [AStr "readIntHeader"; AStr line] w1)
      as [w2 E1].
    rewrite (bind_Ok _ _ _ _ _ E1).
    rewrite (bind_Ok _ _ _ _ _ (index_Ok [f0] 0%nat f0 w2 eq_refl)).
    match goal with |- context [when ?b (log_Printf ?f ?a)] =>
      destruct (Hlogs b f a w2) as [w3 E2] end.
    rewrite (bind_Ok _ _ _ _ _ E2).
    rewrite (bind_Panic _ _ w3 w3 (IndexOutOfRange 1 1)) by reflexivity.
    reflexivity. }
  destruct (readIntFromHeader _ _ _ _) as [[a | p] w2]; cbn [fst] in *;
    [discriminate | injection Hhead as ->; reflexivity].
Qed.

(** C10. There is an input whose first header line has a key and no value
    (the line "ncols") on which the parser returns no error but panics
    with the index 1 out of range for a slice of length 1. *)
Theorem header_key_without_value :
  exists content line rest,
    pending (NewReader content) = line :: rest /\
    tokens line = ["ncols"] /\
    fst (read content) = Panic (IndexOutOfRange 1 1).
Proof.
  exists exampleNoValue, (Examples.line "ncols"), [].
  split; [reflexivity |]. split; [reflexivity |].
  apply (header_without_value_panics (scanner := decimal)
           tile false (worldWith exampleNoValue)
           exampleNoValue (Examples.line "ncols") []); reflexivity.
Qed.

(** C7. A data line whose number of fields (after trimming and collapsing
    spaces) differs from ncols is skipped: the loop passes the grid on as
    it is, logs a warning and goes on with the next line and the next row;
    and in the grid that is read in the end, the row of that line is as it
    was allocated, all zero, and the warning is in the log. *)
Theorem wrong_width_line_is_skipped {scanner : Scanner} :
  (forall filename verbose linesExpected line lines row lineNum g w,
     lineNum + 1 <= linesExpected ->
     len (tokens line) <> ncols g ->
     exists warning,
       columnWarning (lineNum + 1) (len (tokens line)) (ncols g) warning /\
       readRows filename verbose linesExpected (line :: lines) row lineNum g w =
       readRows filename verbose linesExpected lines (row + 1) (lineNum + 1) g
         (logging ((if verbose then [Println (fst (stripSpaces line))] else [])
                     ++ [warning]) w)) /\
  (forall filename verbose w content g w' (k : nat) line,
     files w !! filename = Some content ->
     ReadGridFromFile filename verbose w = (Ok (inl g), w') ->
     Z.of_nat k < nrows g ->
     pending (NewReader content) !! (6 + k)%nat = Some line ->
     len (tokens line) <> ncols g ->
     height g !! k = Some (zeroRow g) /\
     exists warning,
       columnWarning (Z.of_nat k + 7) (len (tokens line)) (ncols g) warning /\
       In warning (logged w')).
Proof. split; [exact readRows_skip | exact ReadGridFromFile_skipped]. Qed.

Lemma wrong_width_line_is_skipped_witness :
  height (gridOf exampleShortRow) !! 1%nat
    = Some (replicate 4 Float32.zero) /\
  height (gridOf exampleShortRow) !! 2%nat
    = Some (replicate 4 (Float32.of_Z 1000)).
Proof.
  split; [| vm_compute; reflexivity].
  refine (proj1 (proj2 (wrong_width_line_is_skipped (scanner := decimal))
            tile false (worldWith exampleShortRow) exampleShortRow
            (gridOf exampleShortRow) (snd (read exampleShortRow)) 1%nat
            (line "500 500 500") _ _ _ _ _)).
  - reflexivity.
  - vm_compute. reflexivity.
  - vm_compute. reflexivity.
  - vm_compute. reflexivity.
  - vm_compute. discriminate.
Defined.

(** ** The renderer *)

(** C2 (the code departs from it when the grid is not square). The bounds
    of the image are [image.Rect(0, 0, nrows, ncols)]: for the grid of two
    rows and four columns the image is 2 wide and 4 high, and only four of
    the eight cells get a pixel. *)
Theorem image_of_2x4_grid_is_2_wide :
  exists g w img w',
    read example2x4 = (Ok (inl g), w) /\
    Ncols g = 4 /\ Nrows g = 2 /\
    render g w = (Ok img, w') /\
    image.Dx (image.Bounds img) = 2 /\
    image.Dy (image.Bounds img) = 4 /\
    size (image.Pix img) = 4%nat.
Proof.
  do 4 eexists. split; [vm_compute; reflexivity |].
  split; [reflexivity |]. split; [reflexivity |].
  split; [vm_compute; reflexivity |]. repeat split.
Qed.

Example visitOrder_2x3 :
  visitOrder 2 3 = [(1, 0); (1, 1); (1, 2); (0, 0); (0, 1); (0, 2)].
Proof. reflexivity. Qed.

(** C5, as stated: on the 4 by 4 example with floor 0 and ceiling 2000,
    the pixel at the top of the image, at (0, 0), is not the shade of the
    last grid row, cell (3, 0), but that of the first. *)
Lemma last_row_is_not_at_the_top :
  exists g w img w',
    read example4x4 = (Ok (inl g), w) /\
    render g (withBounds (Float32.of_Z 0) (Float32.of_Z 2000) w) = (Ok img, w') /\
    image.RGBAAt img 0 (Nrows g - 1 - 3)
      <> grey (shadeValue (Float32.of_Z 0) (Float32.of_Z 2000) (sample g 3 0)) /\
    image.RGBAAt img 0 (Nrows g - 1 - 3)
      = grey (shadeValue (Float32.of_Z 0) (Float32.of_Z 2000) (sample g 0 0)).
Proof.
  do 4 eexists. split; [vm_compute; reflexivity |].
  split; [vm_compute; reflexivity |].
  split; [vm_compute; discriminate | vm_compute; reflexivity].
Qed.

(** C5, amended. For a grid that was read (with ncols >= 0 and an image
    that can be allocated), the renderer goes through the rows from the
    last index down to the first and through the columns from left to
    right, and the shade of the cell (row, col) is the pixel at
    (col, row), where that lies within the image: the first grid row is
    at the top of the image and the last one at the bottom. *)
Theorem render_draws_north_up {scanner : Scanner}
    filename verbose w0 g w1 w :
  ReadGridFromFile filename verbose w0 = (Ok (inl g), w1) ->
  0 <= ncols g -> 4 * nrows g * ncols g <= maxAlloc ->
  render g w =
    (image.NewRGBA (image.Rect 0 0 (Nrows g) (Ncols g))
       ≫= foldM (draw g) (visitOrder (nrows g) (ncols g))) w /\
  exists img w',
    render g w = (Ok img, w') /\
    image.Bounds img = image.Rect 0 0 (Nrows g) (Ncols g) /\
    forall row col,
      0 <= row < nrows g -> 0 <= col < ncols g ->
      image.In (image.mkPoint col row) (image.Bounds img) = true ->
      image.RGBAAt img col row =
        grey (shadeValue (Var.floor (vars w)) (Var.ceiling (vars w))
                         (sample g row col)).
Proof.
  intros Hread Hnc Hsize.
  pose proof (ReadGridFromFile_wellformed _ _ _ _ _ Hread) as Hwf.
  split; [apply render_visits; [apply Hwf | exact Hnc] |].
  destruct (render_run g Hwf w Hnc Hsize) as (img & w' & Hrun & _ & Hb & Hpix).
  eauto.
Qed.

Lemma render_draws_north_up_witness :
  exists img w',
    render (gridOf example4x4)
           (withBounds (Float32.of_Z 0) (Float32.of_Z 2000) (worldWith example4x4))
      = (Ok img, w') /\
    image.RGBAAt img 0 3 = grey 127 /\
    image.RGBAAt img 0 0 = grey 191.
Proof.
  destruct (render_draws_north_up (scanner := decimal) tile false
              (worldWith example4x4) (gridOf example4x4)
              (snd (read example4x4))
              (withBounds (Float32.of_Z 0) (Float32.of_Z 2000)
                          (worldWith example4x4)))
    as (_ & img & w' & Hrun & Hb & Hpix).
  - vm_compute. reflexivity.
  - vm_compute. discriminate.
  - vm_compute. discriminate.
  - exists img, w'. split; [exact Hrun |]. split.
    + rewrite (Hpix 3 0); [vm_compute; reflexivity | | |].
      * vm_compute. split; [discriminate | reflexivity].
      * vm_compute. split; [discriminate | reflexivity].
      * rewrite Hb. reflexivity.
    + rewrite (Hpix 0 0); [vm_compute; reflexivity | | |].
      * vm_compute. split; [discriminate | reflexivity].
      * vm_compute. split; [discriminate | reflexivity].
      * rewrite Hb. reflexivity.
Defined.

(** ** A run *)

(** C3, as stated: the run on the input file "missing.asc", which does not
    exist, with the output "out.png", which does not exist either. No grid
    is read, and after the run the file "out.png" exists (and is empty):
    the run has not left the files as they were. *)
Lemma failed_run_creates_the_output_file :
  readFails (scanner := decimal)
            (mkFlags "missing.asc" "out.png" None None false) (start ∅ ∅) /\
  files (start ∅ ∅) !! "out.png" = None /\
  files (snd (main (scanner := decimal) (encoder := noEncoder)
                   (mkFlags "missing.asc" "out.png" None None false)
                   (start ∅ ∅))) !! "out.png" = Some EmptyString.
Proof.
  split; [intros g; vm_compute; discriminate |].
  split; [reflexivity | vm_compute; reflexivity].
Qed.

(** C3, amended. In a run in which the output file can be created and
    then no grid is read (the input file cannot be opened, or parsing
    fails), nothing is written to the output file: it exists and is empty,
    as [os.Create] has made it before the input was opened, and the other
    files are as they were. *)
Theorem failed_run_leaves_output_empty
    {scanner : Scanner} {encoder : png.Encoder} flags w :
  flag_output flags ∉ denied w ->
  readFails flags w ->
  files (snd (main flags w)) = <[flag_output flags := EmptyString]> (files w).
Proof. exact (main_readFails flags w). Qed.

Lemma failed_run_leaves_output_empty_witness :
  files (snd (main (scanner := decimal) (encoder := noEncoder)
                (mkFlags "missing.asc" "out.png" None None false)
                (start {[ "out.png" := "old" ]} ∅)))
  = <[ "out.png" := EmptyString ]> {[ "out.png" := "old" ]}.
Proof.
  refine (failed_run_leaves_output_empty (scanner := decimal)
            (encoder := noEncoder)
            (mkFlags "missing.asc" "out.png" None None false)
            (start {[ "out.png" := "old" ]} ∅) _ _).
  - apply not_elem_of_empty.
  - intros g. vm_compute. discriminate.
Defined.

End Claims.

(* ===================================================================== *)
(** * Further properties of the code *)
(* ===================================================================== *)

Module GridExtras.
Import fmt bufio esri tiler GridSpec RenderSpec MoreSpec Examples.
Import esriFacts ParserFacts ExtremesFacts Float32Facts Float32Order RenderFacts.

(** ** Reading and writing samples *)

Lemma index_insert {A} (l : list A) (i : nat) (x : A) (j : Z) (w : World) :
  (i < length l)%nat ->
  index (<[i := x]> l) j w =
  if bool_decide (0 <= j /\ Z.to_nat j = i) then (Ok x, w) else index l j w.
Proof.
  intros Hi. unfold index, len. rewrite length_insert.
  case_bool_decide as Hj.
  - destruct Hj as [Hj <-].
    replace (j <? 0) with false by lia.
    replace (Z.of_nat (length l) <=? j) with false by lia.
    cbn [orb]. rewrite list_lookup_insert_eq by lia. reflexivity.
  - destruct (j <? 0) eqn:Hneg; [reflexivity |].
    destruct (Z.of_nat (length l) <=? j); [reflexivity |]. cbn [orb].
    rewrite list_lookup_insert_ne by lia. reflexivity.
Qed.

Lemma index_ext {A} (l l' : list A) (j : Z) (w : World) :
  length l' = length l -> l' !! Z.to_nat j = l !! Z.to_nat j ->
  index l' j w = index l j w.
Proof. intros Hlen Hj. unfold index, len. rewrite Hlen, Hj. reflexivity. Qed.

Lemma index_Ok_Z {A} (l : list A) (j : Z) (a : A) (w : World) :
  0 <= j -> l !! Z.to_nat j = Some a -> index l j w = (Ok a, w).
Proof.
  intros Hj H. rewrite <- (Z2Nat.id j) by assumption. apply index_Ok. exact H.
Qed.

(** X1. After a write that [SetHeight] accepts, [Height] reads the sample
    back at that cell and reads every other cell as before. *)
Theorem SetHeight_then_Height g row col h w g' w' :
  row < nrows g -> col < ncols g ->
  SetHeight g row col h w = (Ok g', w') ->
  Height g' row col w' = (Ok h, w') /\
  forall row' col' w'',
    (row', col') <> (row, col) ->
    Height g' row' col' w'' = Height g row' col' w''.
Proof.
  intros Hr Hc H.
  apply SetHeight_accepts in H
    as (-> & Hrow & Hcol & r & Hlook & Hlen & Hh & _ & _); [| assumption ..].
  pose proof (lookup_lt_Some _ _ _ Hlook) as Hlt.
  unfold Height. rewrite Hh. split.
  - rewrite (bind_Ok _ _ w w (<[Z.to_nat col := h]> r)).
    + rewrite index_insert by assumption.
      rewrite bool_decide_eq_true_2 by lia. reflexivity.
    + rewrite index_insert by assumption.
      rewrite bool_decide_eq_true_2 by lia. reflexivity.
  - intros row' col' w'' Hne. unfold mbind, M_bind.
    rewrite index_insert by assumption.
    case_bool_decide as Hrow'.
    + destruct Hrow' as [Hrow' Heq].
      assert (row' = row) as -> by lia.
      rewrite (index_Ok_Z _ _ _ w'' Hrow Hlook).
      rewrite index_insert by assumption.
      rewrite bool_decide_eq_false_2; [reflexivity |].
      intros [? ?]. apply Hne. f_equal. lia.
    + reflexivity.
Qed.

Lemma SetHeight_then_Height_witness :
  exists g',
    SetHeight Examples.fresh1x1 0 0 (Float32.of_Z 7) (start ∅ ∅) = (Ok g', start ∅ ∅) /\
    Height g' 0 0 (start ∅ ∅) = (Ok (Float32.of_Z 7), start ∅ ∅).
Proof.
  eexists. split; [reflexivity |].
  refine (proj1 (SetHeight_then_Height Examples.fresh1x1 0 0 (Float32.of_Z 7)
                   (start ∅ ∅) _ (start ∅ ∅) _ _ _)); reflexivity.
Defined.

Lemma index_panics {A} (l : list A) (j : Z) (w : World) :
  j < 0 \/ len l <= j -> index l j w = (Panic (IndexOutOfRange j (len l)), w).
Proof.
  intros H. unfold index.
  replace ((j <? 0) || (len l <=? j)) with true; [reflexivity |].
  symmetry. apply orb_true_iff. lia.
Qed.

(** X2. On a grid that was read, [Height] returns the stored sample for
    every index within the grid, and panics with an index out of range for
    every other index: it makes no check of its own. *)
Theorem Height_of_read_grid {scanner : Scanner} filename verbose w0 g w1 :
  ReadGridFromFile filename verbose w0 = (Ok (inl g), w1) ->
  forall row col w,
    (0 <= row < nrows g /\ 0 <= col < ncols g ->
     Height g row col w = (Ok (sample g row col), w)) /\
    (~ (0 <= row < nrows g /\ 0 <= col < ncols g) ->
     exists i n, Height g row col w = (Panic (IndexOutOfRange i n), w)).
Proof.
  intros Hread row col w.
  pose proof (ReadGridFromFile_wellformed _ _ _ _ _ Hread) as Hwf.
  split; [intros [Hr Hc]; apply Height_Ok; assumption |].
  intros Hout. destruct Hwf as (Hnr & Hlen & Hrows). unfold Height.
  destruct (decide (0 <= row < nrows g)) as [Hr | Hr].
  - destruct (lookup_lt_is_Some_2 (height g) (Z.to_nat row)) as [r Hrow];
      [lia |].
    rewrite (bind_Ok _ _ _ _ _ (index_Ok_Z _ _ _ w (proj1 Hr) Hrow)).
    pose proof (Hrows _ _ Hrow) as Hrlen.
    exists col, (len r). apply index_panics. unfold len. lia.
  - exists row, (len (height g)). apply bind_Panic, index_panics.
    unfold len. lia.
Qed.

Lemma Height_of_read_grid_witness :
  Height (gridOf example4x4) 3 3 (start ∅ ∅) = (Ok (Float32.of_Z 1000), start ∅ ∅) /\
  exists i n,
    Height (gridOf example4x4) 4 0 (start ∅ ∅) = (Panic (IndexOutOfRange i n), start ∅ ∅).
Proof.
  pose proof (Height_of_read_grid (scanner := decimal) tile false
                (worldWith example4x4) (gridOf example4x4)
                (snd (read example4x4)) ltac:(vm_compute; reflexivity)) as H.
  split.
  - apply (proj1 (H 3 3 (start ∅ ∅))). vm_compute. repeat split; discriminate.
  - apply (proj2 (H 4 0 (start ∅ ∅))). vm_compute. intros [[_ H4] _].
    discriminate.
Defined.

(** X3. [SetNRows] and [SetNCols] change the count in the header and leave
    the matrix as it is: on a grid with [nrows] rows of [ncols] samples, a
    row index that only the new row count admits, or a column index that
    only the new column count admits, makes [SetHeight] panic. *)
Theorem setters_do_not_resize g :
  wellformed g -> 0 <= ncols g ->
  (forall n row col h w,
     nrows g <= row < n -> 0 <= col < ncols g ->
     SetHeight (SetNRows g n) row col h w
       = (Panic (IndexOutOfRange row (nrows g)), w)) /\
  (forall n row col h w,
     0 <= row < nrows g -> ncols g <= col < n ->
     SetHeight (SetNCols g n) row col h w
       = (Panic (IndexOutOfRange col (ncols g)), w)).
Proof.
  intros (Hnr & Hlen & Hrows) Hnc. split.
  - intros n row col h w Hr Hc. unfold SetHeight. cbn [nrows ncols SetNRows].
    replace ((row >=? n) || (col >=? ncols g)) with false
      by (symmetry; apply orb_false_iff; lia).
    change (height (SetNRows g n)) with (height g). apply bind_Panic.
    replace (nrows g) with (len (height g)) by (unfold len; lia).
    apply index_panics. unfold len. lia.
  - intros n row col h w Hr Hc. unfold SetHeight. cbn [nrows ncols SetNCols].
    replace ((row >=? nrows g) || (col >=? n)) with false
      by (symmetry; apply orb_false_iff; lia).
    change (height (SetNCols g n)) with (height g).
    destruct (lookup_lt_is_Some_2 (height g) (Z.to_nat row)) as [r Hrow];
      [lia |].
    rewrite (bind_Ok _ _ _ _ _ (index_Ok_Z _ _ _ w (proj1 Hr) Hrow)).
    pose proof (Hrows _ _ Hrow) as Hrlen.
    apply bind_Panic. unfold store.
    replace ((col <? 0) || (len r <=? col)) with true
      by (symmetry; apply orb_true_iff; unfold len; lia).
    unfold throw. do 3 f_equal. unfold len. lia.
Qed.

Lemma setters_do_not_resize_witness :
  SetHeight (SetNRows fresh1x1 2) 1 0 (Float32.of_Z 1) (start ∅ ∅)
    = (Panic (IndexOutOfRange 1 1), start ∅ ∅).
Proof.
  refine (proj1 (setters_do_not_resize fresh1x1 _ _) 2 1 0 _ _ _ _).
  - split; [discriminate | split; [reflexivity |]].
    intros [| [| k]] r [= <-]. reflexivity.
  - discriminate.
  - split; [discriminate | reflexivity].
  - split; [discriminate | reflexivity].
Defined.

(** ** The extremes and the samples *)

Lemma leb_not_nan (x y : float32) :
  Float32.leb x y = true -> Float32.is_nan x = false /\ Float32.is_nan y = false.
Proof. destruct x, y; try discriminate; auto. Qed.

(** Away from NaN, [x < y] fails only when [y <= x]. *)
Lemma not_ltb_leb (x y : float32) :
  Float32.is_nan x = false -> Float32.is_nan y = false ->
  Float32.ltb x y = false -> Float32.leb y x = true.
Proof.
  destruct x as [sx | [] | | [] mx ex], y as [sy | [] | | [] my ey];
    try discriminate; intros _ _; try (cbn; congruence); order_cases.
Qed.

(** X4. The extremes bound the samples: a number that [SetHeight] accepts
    on a grid without samples, or on one whose extremes are in order, lies
    between the minimum and the maximum afterwards; and a sample that lay
    between them stays between them under every later write. *)
Theorem extremes_bound_samples :
  (forall g row col h w g' w',
     fresh g \/ ordered g ->
     row < nrows g -> col < ncols g ->
     Float32.is_nan h = false ->
     SetHeight g row col h w = (Ok g', w') ->
     within g' h) /\
  (forall g row col h w g' w' h0,
     ordered g -> within g h0 ->
     SetHeight g row col h w = (Ok g', w') ->
     within g' h0).
Proof.
  split.
  - intros g row col h w g' w' Hg Hr Hc Hnan H.
    apply SetHeight_extremes in H as (_ & _ & Hmax & Hmin); [| assumption ..].
    unfold within, MinHeight, MaxHeight. rewrite Hmax, Hmin.
    destruct Hg as [[-> ->] | (-> & -> & Hle)];
      [split; apply leb_refl; exact Hnan |].
    apply leb_not_nan in Hle as [Hn1 Hn2].
    change (Float32.gtb h (maxHeight g)) with (Float32.ltb (maxHeight g) h).
    split.
    + destruct (Float32.ltb h (minHeight g)) eqn:Hlt;
        [apply leb_refl; exact Hnan | apply not_ltb_leb; assumption].
    + destruct (Float32.ltb (maxHeight g) h) eqn:Hlt;
        [apply leb_refl; exact Hnan | apply not_ltb_leb; assumption].
  - intros g row col h w g' w' h0 (Hmx & Hmn & Hle) [H1 H2] H.
    destruct (Z.le_gt_cases (nrows g) row) as [Hr | Hr];
      [rewrite SetHeight_rejects in H by auto; injection H as <- _;
       split; assumption |].
    destruct (Z.le_gt_cases (ncols g) col) as [Hc | Hc];
      [rewrite SetHeight_rejects in H by auto; injection H as <- _;
       split; assumption |].
    apply SetHeight_extremes in H as (_ & _ & Hmax & Hmin); [| lia | lia].
    unfold within, MinHeight, MaxHeight in *. rewrite Hmax, Hmin, Hmx, Hmn.
    change (Float32.gtb h (maxHeight g)) with (Float32.ltb (maxHeight g) h).
    split.
    + destruct (Float32.ltb h (minHeight g)) eqn:Hlt; [| exact H1].
      eapply ltb_leb_trans; eassumption.
    + destruct (Float32.ltb (maxHeight g) h) eqn:Hlt; [| exact H2].
      eapply leb_ltb_trans; eassumption.
Qed.

Lemma extremes_bound_samples_witness :
  within (mkGrid 1 1 Float32.zero Float32.zero Float32.zero 0
                 true (Float32.of_Z 7) true (Float32.of_Z 7)
                 [[Float32.of_Z 7]] false) (Float32.of_Z 7).
Proof.
  refine (proj1 extremes_bound_samples fresh1x1 0 0 (Float32.of_Z 7)
            (start ∅ ∅) _ (start ∅ ∅) _ _ _ _ _).
  - left. split; reflexivity.
  - reflexivity.
  - reflexivity.
  - reflexivity.
  - reflexivity.
Defined.

End GridExtras.

Module ParserExtras.
Import fmt bufio esri tiler GridSpec RenderSpec MoreSpec Examples.
Import esriFacts ParserFacts ExtremesFacts Float32Facts Float32Order RenderFacts.
Import GridExtras.
Local Open Scope string_scope.
Local Open Scope Z_scope.

Lemma logging_nil w : logging [] w = w.
Proof. destruct w. reflexivity. Qed.

Lemma logging_app l1 l2 w : logging (l1 ++ l2) w = logging l2 (logging l1 w).
Proof.
  unfold logging. cbn. rewrite rev_app_distr, <- app_assoc. reflexivity.
Qed.

Lemma log_Printf_logging format args w :
  log_Printf format args w = (Ok tt, logging [Printf format args] w).
Proof. reflexivity. Qed.

Lemma when_log (b : bool) format args w :
  when b (log_Printf format args) w
    = (Ok tt, logging (if b then [Printf format args] else []) w).
Proof. destruct b; [reflexivity |]. rewrite logging_nil. reflexivity. Qed.

Section Parser.
Context {scanner : Scanner}.

(** ** The header lines *)


Lemma readIntFromHeader_run r fieldName verbose w line rest key tok more :
  pending r = line :: rest ->
  tokens line = key :: tok :: more ->
  exists entries,
    readIntFromHeader r fieldName verbose w
      = (Ok (mkReader rest (partial r), Sscanf_d tok), logging entries w) /\
    (key <> fieldName ->
     In (Printf "%s: expected %s, got %s"
                [AStr "readIntHeader"; AStr fieldName; AStr (fst (stripSpaces line))])
        entries).
Proof.
  intros Hp Ht. unfold readIntFromHeader, ReadString. cbn zeta.
  rewrite Hp. cbn iota beta.
  unfold tokens in Ht. destruct (stripSpaces line) as [line' err] eqn:Hs.
  cbn [fst] in *. rewrite Ht.
  rewrite (bind_Ok _ _ _ _ _ (when_log _ _ _ _)).
  erewrite bind_Ok by (apply (index_Ok _ 0); reflexivity).
  rewrite (bind_Ok _ _ _ _ _ (when_log _ _ _ _)).
  erewrite bind_Ok by (apply (index_Ok _ 1); reflexivity).
  destruct (Sscanf_d tok) as [v | e].
  - rewrite (bind_Ok _ _ _ _ _ (when_log _ _ _ _)).
    rewrite <- !logging_app. eexists. split; [reflexivity |].
    intros Hne. apply String.eqb_neq in Hne. rewrite Hne, !in_app_iff.
    cbn. auto.
  - rewrite <- !logging_app. eexists. split; [reflexivity |].
    intros Hne. apply String.eqb_neq in Hne. rewrite Hne, !in_app_iff.
    cbn. auto.
Qed.

Lemma readFloat32FromHeader_run r fieldName verbose w line rest key tok more :
  pending r = line :: rest ->
  tokens line = key :: tok :: more ->
  exists entries,
    readFloat32FromHeader r fieldName verbose w
      = (Ok (mkReader rest (partial r), Sscanf_f tok), logging entries w) /\
    (key <> fieldName ->
     In (Printf "%s: expected %s, got %s"
                [AStr "readFloat32FromHeader"; AStr fieldName;
                 AStr (fst (stripSpaces line))])
        entries).
Proof.
  intros Hp Ht. unfold readFloat32FromHeader, ReadString. cbn zeta.
  rewrite Hp. cbn iota beta.
  unfold tokens in Ht. destruct (stripSpaces line) as [line' err] eqn:Hs.
  cbn [fst] in *. rewrite Ht.
  rewrite (bind_Ok _ _ _ _ _ (when_log _ _ _ _)).
  erewrite bind_Ok by (apply (index_Ok _ 0); reflexivity).
  rewrite (bind_Ok _ _ _ _ _ (when_log _ _ _ _)).
  erewrite bind_Ok by (apply (index_Ok _ 1); reflexivity).
  destruct (Sscanf_f tok) as [v | e].
  - rewrite (bind_Ok _ _ _ _ _ (when_log _ _ _ _)).
    rewrite <- !logging_app. eexists. split; [reflexivity |].
    intros Hne. apply String.eqb_neq in Hne. rewrite Hne, !in_app_iff.
    cbn. auto.
  - rewrite <- !logging_app. eexists. split; [reflexivity |].
    intros Hne. apply String.eqb_neq in Hne. rewrite Hne, !in_app_iff.
    cbn. auto.
Qed.

Lemma readIntFromHeader_eof r fieldName verbose w :
  pending r = [] ->
  readIntFromHeader r fieldName verbose w
    = (Ok (mkReader [] EmptyString, inr io_EOF), w).
Proof.
  intros Hp. unfold readIntFromHeader, ReadString. rewrite Hp. reflexivity.
Qed.

Lemma readFloat32FromHeader_eof r fieldName verbose w :
  pending r = [] ->
  readFloat32FromHeader r fieldName verbose w
    = (Ok (mkReader [] EmptyString, inr io_EOF), w).
Proof.
  intros Hp. unfold readFloat32FromHeader, ReadString. rewrite Hp. reflexivity.
Qed.

Lemma second_field (l : list string) tok :
  l !! 1%nat = Some tok -> exists key more, l = key :: tok :: more.
Proof. destruct l as [| key [| tok' more]]; intros [= <-]; eauto. Qed.

Lemma intField_Some line v :
  intField line = Some v ->
  exists key tok more, tokens line = key :: tok :: more /\ Sscanf_d tok = inl v.
Proof.
  unfold intField. destruct (tokens line !! 1%nat) as [tok |] eqn:Htok;
    [| discriminate].
  destruct (Sscanf_d tok) as [v' |] eqn:Hscan; intros [= <-].
  apply second_field in Htok as (key & more & ->). eauto.
Qed.

Lemma floatField_Some line v :
  floatField line = Some v ->
  exists key tok more, tokens line = key :: tok :: more /\ Sscanf_f tok = inl v.
Proof.
  unfold floatField. destruct (tokens line !! 1%nat) as [tok |] eqn:Htok;
    [| discriminate].
  destruct (Sscanf_f tok) as [v' |] eqn:Hscan; intros [= <-].
  apply second_field in Htok as (key & more & ->). eauto.
Qed.

Lemma readIntFromHeader_field r fieldName verbose w line rest v :
  pending r = line :: rest -> intField line = Some v ->
  exists entries,
    readIntFromHeader r fieldName verbose w
      = (Ok (mkReader rest (partial r), inl v), logging entries w).
Proof.
  intros Hp Hf. apply intField_Some in Hf as (key & tok & more & Ht & <-).
  destruct (readIntFromHeader_run r fieldName verbose w _ _ _ _ _ Hp Ht)
    as (entries & H & _).
  eauto.
Qed.

Lemma readFloat32FromHeader_field r fieldName verbose w line rest v :
  pending r = line :: rest -> floatField line = Some v ->
  exists entries,
    readFloat32FromHeader r fieldName verbose w
      = (Ok (mkReader rest (partial r), inl v), logging entries w).
Proof.
  intros Hp Hf. apply floatField_Some in Hf as (key & tok & more & Ht & <-).
  destruct (readFloat32FromHeader_run r fieldName verbose w _ _ _ _ _ Hp Ht)
    as (entries & H & _).
  eauto.
Qed.

(** ** The matrix *)

Lemma makeslice_run {A} (sz : Z) (z : A) (n : Z) w :
  0 <= n -> sz * n <= maxAlloc ->
  makeslice sz z n w = (Ok (replicate (Z.to_nat n) z), w).
Proof.
  intros Hn Hsz. unfold makeslice.
  replace (n <? 0) with false by lia.
  replace (maxAlloc <? sz * n) with false by lia. reflexivity.
Qed.

Lemma store_run {A} (l : list A) (i : Z) (a : A) w :
  0 <= i < len l -> store l i a w = (Ok (<[Z.to_nat i := a]> l), w).
Proof.
  intros Hi. unfold store.
  replace (i <? 0) with false by lia.
  replace (len l <=? i) with false by lia. reflexivity.
Qed.

Lemma allocRows_run todo : forall i ncols h w,
  0 <= i -> length h = (Z.to_nat i + todo)%nat ->
  ((0 < todo)%nat -> 0 <= ncols /\ 4 * ncols <= maxAlloc) ->
  allocRows todo i ncols h w
    = (Ok (take (Z.to_nat i) h ++
           replicate todo (replicate (Z.to_nat ncols) Float32.zero))%list, w).
Proof.
  induction todo as [| todo IH]; intros i ncols h w Hi Hlen Hnc;
    cbn [allocRows].
  - cbn [replicate]. rewrite app_nil_r, take_ge by lia. reflexivity.
  - destruct Hnc as [Hnc Hsz]; [lia |].
    rewrite (bind_Ok _ _ _ _ _ (makeslice_run 4 Float32.zero ncols w Hnc Hsz)).
    rewrite (bind_Ok _ _ _ _ _ (store_run h i _ w ltac:(unfold len; lia))).
    rewrite IH; [| lia | rewrite length_insert; lia | intros _; lia].
    replace (Z.to_nat (i + 1)) with (S (Z.to_nat i)) by lia.
    erewrite take_S_r by (apply list_lookup_insert_eq; lia).
    rewrite take_insert_ge by lia. rewrite <- app_assoc. reflexivity.
Qed.

(** ** A data line *)

Lemma sameHeader_refl g : sameHeader g g.
Proof. repeat split. Qed.

Lemma sameHeader_trans g1 g2 g3 :
  sameHeader g1 g2 -> sameHeader g2 g3 -> sameHeader g1 g3.
Proof.
  intros (? & ? & ? & ? & ? & ?) (? & ? & ? & ? & ? & ?).
  repeat split; congruence.
Qed.

Lemma SetHeight_run g row col h w r :
  0 <= row < nrows g -> 0 <= col < ncols g ->
  height g !! Z.to_nat row = Some r -> (Z.to_nat col < length r)%nat ->
  exists g',
    SetHeight g row col h w = (Ok g', w) /\
    height g' = <[Z.to_nat row := <[Z.to_nat col := h]> r]> (height g) /\
    sameHeader g g'.
Proof.
  intros Hr Hc Hrow Hcol. unfold SetHeight.
  replace ((row >=? nrows g) || (col >=? ncols g)) with false
    by (symmetry; apply orb_false_iff; lia).
  rewrite (bind_Ok _ _ _ _ _ (index_Ok_Z _ _ _ w (proj1 Hr) Hrow)).
  rewrite (bind_Ok _ _ _ _ _ (store_run r col h w ltac:(unfold len; lia))).
  cbn zeta. unfold setMax, setMin, setMatrix. cbn.
  destruct (maxHeightSet g), (minHeightSet g);
    repeat match goal with
           | |- context [if ?b then _ else _] => destruct b; cbn
           end;
    eexists; (split; [reflexivity |]); split; try reflexivity;
    repeat split.
Qed.

Lemma SetHeight_sameHeader g row col h w g' w' :
  SetHeight g row col h w = (Ok g', w') -> sameHeader g g'.
Proof.
  unfold SetHeight. destruct (_ || _).
  - intros [= <- _]. apply sameHeader_refl.
  - intros H. apply bind_Ok_inv in H as (r & w1 & _ & H).
    apply bind_Ok_inv in H as (r' & w2 & _ & H).
    cbn zeta in H. unfold setMax, setMin, setMatrix in H. cbn in H.
    destruct (maxHeightSet g), (minHeightSet g);
      repeat match type of H with
             | context [if ?b then _ else _] => destruct b; cbn in H
             end;
      injection H as <- _; repeat split.
Qed.

Lemma when_verbose_Height verbose g row col h w :
  Height g row col w = (Ok h, w) ->
  exists w',
    when verbose
         (h ← Height g row col;
          log_Printf "height[%d][%d] %f" [AInt row; AInt col; AFloat h]) w
      = (Ok tt, w').
Proof.
  intros H. destruct verbose; cbn [when]; [| eexists; reflexivity].
  rewrite (bind_Ok _ _ _ _ _ H). eexists. reflexivity.
Qed.

(** The fields of a line that all scan are written to the row, one by
    one from [col] on. *)
Lemma readCols_run verbose rest : forall vals row col g w r,
  scanned rest vals ->
  0 <= row < nrows g -> 0 <= col -> col + len rest <= ncols g ->
  height g !! Z.to_nat row = Some r -> length r = Z.to_nat (ncols g) ->
  exists g' w',
    readCols verbose rest row col g w = (Ok (inl g'), w') /\
    height g' =
      <[Z.to_nat row := (take (Z.to_nat col) r ++ vals ++
                         drop (Z.to_nat col + length vals) r)%list]> (height g) /\
    sameHeader g g'.
Proof.
  induction rest as [| number rest IH];
    intros vals row col g w r Hscan Hrow Hcol Hend Hr Hlen;
    inversion Hscan as [| ? f ? vals' Hf Hrest]; subst; cbn [readCols].
  - exists g, w. split; [reflexivity |]. split; [| apply sameHeader_refl].
    cbn [app length]. rewrite Nat.add_0_r, take_drop.
    symmetry. apply list_insert_id. exact Hr.
  - rewrite Hf. unfold len in Hend. cbn [length] in Hend.
    pose proof (lookup_lt_Some _ _ _ Hr) as Hlt.
    destruct (SetHeight_run g row col f w r) as (g1 & Hset & Hh1 & Hhd1);
      [lia | lia | exact Hr | lia |].
    rewrite (bind_Ok _ _ _ _ _ Hset).
    assert (Hr1 : height g1 !! Z.to_nat row = Some (<[Z.to_nat col := f]> r))
      by (rewrite Hh1; apply list_lookup_insert_eq; exact Hlt).
    assert (Hget : Height g1 row col w = (Ok f, w)).
    { unfold Height.
      rewrite (bind_Ok _ _ _ _ _ (index_Ok_Z _ _ _ w (proj1 Hrow) Hr1)).
      apply index_Ok_Z; [exact Hcol |].
      apply list_lookup_insert_eq. lia. }
    destruct (when_verbose_Height verbose g1 row col f w Hget) as (w1 & Hlog).
    rewrite (bind_Ok _ _ _ _ _ Hlog).
    destruct Hhd1 as (Hnc & Hnr & Hhd1).
    destruct (IH vals' row (col + 1) g1 w1 (<[Z.to_nat col := f]> r))
      as (g' & w' & Hrun & Hh & Hhd);
      [exact Hrest | lia | lia | unfold len; lia | exact Hr1
      | rewrite length_insert; lia |].
    exists g', w'. split; [exact Hrun |].
    split; [| eapply sameHeader_trans; [| exact Hhd]; repeat split; tauto].
    rewrite Hh, Hh1, list_insert_insert_eq. f_equal.
    replace (Z.to_nat (col + 1)) with (S (Z.to_nat col)) by lia.
    erewrite take_S_r by (apply list_lookup_insert_eq; lia).
    rewrite take_insert_ge by lia.
    rewrite drop_insert_lt by lia.
    rewrite <- app_assoc. cbn [app length].
    replace (Z.to_nat col + S (length vals'))%nat
      with (S (Z.to_nat col) + length vals')%nat by lia.
    reflexivity.
Qed.

(** The first field that does not scan ends the reading of the line with
    the error of [Sscanf]. *)
Lemma readCols_fails verbose good : forall vals bad more err row col g w r,
  scanned good vals -> Sscanf_f bad = inr err ->
  0 <= row < nrows g -> 0 <= col ->
  col + len (good ++ bad :: more) <= ncols g ->
  height g !! Z.to_nat row = Some r -> length r = Z.to_nat (ncols g) ->
  exists w',
    readCols verbose (good ++ bad :: more) row col g w = (Ok (inr err), w') /\
    In (Printf "%d %d %s" [AInt row; AInt (col + len good); AStr (Error err)])
       (logged w').
Proof.
  induction good as [| number good IH];
    intros vals bad more err row col g w r Hscan Hbad Hrow Hcol Hend Hr Hlen;
    inversion Hscan as [| ? f ? vals' Hf Hrest]; subst;
    cbn [readCols app].
  - rewrite Hbad. eexists. split; [reflexivity |].
    unfold len. cbn [length]. rewrite Z.add_0_r. left. reflexivity.
  - rewrite Hf. unfold len in Hend. cbn [length app] in Hend.
    rewrite length_app in Hend. cbn [length] in Hend.
    pose proof (lookup_lt_Some _ _ _ Hr) as Hlt.
    destruct (SetHeight_run g row col f w r) as (g1 & Hset & Hh1 & Hhd1);
      [lia | lia | exact Hr | lia |].
    rewrite (bind_Ok _ _ _ _ _ Hset).
    assert (Hr1 : height g1 !! Z.to_nat row = Some (<[Z.to_nat col := f]> r))
      by (rewrite Hh1; apply list_lookup_insert_eq; exact Hlt).
    assert (Hget : Height g1 row col w = (Ok f, w)).
    { unfold Height.
      rewrite (bind_Ok _ _ _ _ _ (index_Ok_Z _ _ _ w (proj1 Hrow) Hr1)).
      apply index_Ok_Z; [exact Hcol |].
      apply list_lookup_insert_eq. lia. }
    destruct (when_verbose_Height verbose g1 row col f w Hget) as (w1 & Hlog).
    rewrite (bind_Ok _ _ _ _ _ Hlog).
    destruct Hhd1 as (Hnc & Hnr & Hhd1).
    destruct (IH vals' bad more err row (col + 1) g1 w1 (<[Z.to_nat col := f]> r))
      as (w' & Hrun & Hin);
      [exact Hrest | exact Hbad | lia | lia
      | unfold len; rewrite length_app; cbn [length]; lia | exact Hr1
      | rewrite length_insert; lia |].
    exists w'. split; [exact Hrun |].
    unfold len in *. cbn [length].
    replace (col + Z.of_nat (S (length good)))
      with (col + 1 + Z.of_nat (length good)) by lia.
    exact Hin.
Qed.

(** ** The loop over the data lines *)

Lemma when_println verbose line w :
  exists w', when verbose (log_Println line) w = (Ok tt, w').
Proof. destruct verbose; eexists; reflexivity. Qed.

Lemma zeroRow_sameHeader g g' : sameHeader g g' -> zeroRow g' = zeroRow g.
Proof. intros (Hnc & _). unfold zeroRow. rewrite Hnc. reflexivity. Qed.

(** Data lines that come within the expected number of lines, each with
    fields that scan or with a wrong number of fields, are taken in row
    by row; the loop goes on with what follows them. *)
Lemma readRows_run filename verbose linesExpected lines :
  forall rows row lineNum g w done,
  Forall2 (rowOf (ncols g)) lines rows ->
  0 <= row -> row + len lines <= nrows g ->
  lineNum + len lines <= linesExpected ->
  height g = (done ++ replicate (Z.to_nat (nrows g - row)) (zeroRow g))%list ->
  length done = Z.to_nat row ->
  exists g' w',
    (forall rest,
       readRows filename verbose linesExpected (lines ++ rest) row lineNum g w
       = readRows filename verbose linesExpected rest
                  (row + len lines) (lineNum + len lines) g' w') /\
    height g' =
      (done ++ rows ++
       replicate (Z.to_nat (nrows g - row - len lines)) (zeroRow g))%list /\
    sameHeader g g'.
Proof.
  induction lines as [| line lines IH];
    intros rows row lineNum g w done Hrows Hrow Hend Hnum Hh Hdone;
    inversion Hrows as [| ? rowk ? rows' Hline Hrest]; subst.
  - exists g, w. unfold len. cbn [length app]. rewrite !Z.add_0_r, Z.sub_0_r.
    split; [reflexivity |]. split; [exact Hh | apply sameHeader_refl].
  - unfold len in Hend, Hnum. cbn [length] in Hend, Hnum.
    assert (Hsplit : replicate (Z.to_nat (nrows g - row)) (zeroRow g)
                     = zeroRow g ::
                       replicate (Z.to_nat (nrows g - (row + 1))) (zeroRow g)).
    { replace (Z.to_nat (nrows g - row))
        with (S (Z.to_nat (nrows g - (row + 1)))) by lia. reflexivity. }
    assert (Hgoal : forall g1 w1,
      sameHeader g g1 ->
      height g1 = ((done ++ [rowk]) ++
                   replicate (Z.to_nat (nrows g1 - (row + 1))) (zeroRow g1))%list ->
      (forall rest,
         readRows filename verbose linesExpected ((line :: lines) ++ rest)
                  row lineNum g w
         = readRows filename verbose linesExpected (lines ++ rest)
                    (row + 1) (lineNum + 1) g1 w1) ->
      exists g' w',
        (forall rest,
           readRows filename verbose linesExpected ((line :: lines) ++ rest)
                    row lineNum g w
           = readRows filename verbose linesExpected rest
                      (row + len (line :: lines)) (lineNum + len (line :: lines))
                      g' w') /\
        height g' =
          (done ++ (rowk :: rows') ++
           replicate (Z.to_nat (nrows g - row - len (line :: lines)))
                     (zeroRow g))%list /\
        sameHeader g g').
    { intros g1 w1 Hhd Hh1 Hstep.
      pose proof Hhd as (Hnc & Hnr & _).
      destruct (IH rows' (row + 1) (lineNum + 1) g1 w1 (done ++ [rowk])%list)
        as (g' & w' & Hrun & Hh' & Hhd');
        [rewrite Hnc; exact Hrest | lia | rewrite Hnr; unfold len; lia
        | unfold len; lia | exact Hh1
        | rewrite length_app; cbn [length]; lia |].
      exists g', w'. split; [| split].
      - intros rest. rewrite Hstep, Hrun. unfold len. cbn [length].
        f_equal; lia.
      - rewrite Hh', <- app_assoc. cbn [app].
        rewrite (zeroRow_sameHeader _ _ Hhd), Hnr. unfold len. cbn [length].
        do 4 f_equal. lia.
      - eapply sameHeader_trans; eassumption. }
    destruct Hline as [[Hwidth Hscan] | [Hwidth ->]].
    + (* the line has [ncols] fields *)
      assert (Hr : height g !! Z.to_nat row = Some (zeroRow g)).
      { rewrite Hh, Hsplit, lookup_app_r by lia.
        replace (Z.to_nat row - length done)%nat with 0%nat by lia.
        reflexivity. }
      destruct (when_println verbose (fst (stripSpaces line)) w)
        as (w0 & Hwhen).
      destruct (readCols_run verbose (tokens line) rowk row 0 g w0
                             (zeroRow g) Hscan)
        as (g1 & w1 & Hcols & Hh1 & Hhd);
        [lia | lia | lia | exact Hr | apply length_replicate |].
      apply (Hgoal g1 w1 Hhd).
      * pose proof Hhd as (Hnc & Hnr & _).
        rewrite Hh1, Hh, Hsplit, (zeroRow_sameHeader _ _ Hhd), Hnr.
        rewrite insert_app_r_alt by lia.
        replace (Z.to_nat row - length done)%nat with 0%nat by lia.
        cbn [take app Z.to_nat]. rewrite <- app_assoc. cbn [app].
        do 2 f_equal.
        rewrite drop_ge, app_nil_r; [reflexivity |].
        apply Forall2_length in Hscan. unfold zeroRow.
        rewrite length_replicate. unfold len in Hwidth. lia.
      * intros rest. cbn [readRows app]. cbn zeta.
        replace (lineNum + 1 >? linesExpected) with false by lia.
        unfold tokens in *. unfold stripSpaces in *. cbn [fst] in *.
        set (numbers := strings.Split _) in *.
        replace (len numbers >? ncols g) with false by lia.
        replace (len numbers <? ncols g) with false by lia.
        rewrite (bind_Ok _ _ _ _ _ Hwhen), (bind_Ok _ _ _ _ _ Hcols).
        reflexivity.
    + (* the line has a wrong number of fields *)
      assert (Hw : exists w1, forall rest,
        readRows filename verbose linesExpected ((line :: lines) ++ rest)
                 row lineNum g w
        = readRows filename verbose linesExpected (lines ++ rest)
                   (row + 1) (lineNum + 1) g w1).
      { cbn [readRows app]. cbn zeta.
        replace (lineNum + 1 >? linesExpected) with false by lia.
        unfold tokens in *. unfold stripSpaces in *. cbn [fst] in *.
        set (numbers := strings.Split _) in *.
        destruct (when_println verbose
                    (regexp.collapseSpaces (strings.TrimSpace line)) w)
          as (w0 & Hwhen).
        destruct (len numbers >? ncols g) eqn:Hgt.
        - eexists. intros rest.
          rewrite (bind_Ok _ _ _ _ _ Hwhen).
          erewrite bind_Ok by reflexivity. reflexivity.
        - replace (len numbers <? ncols g) with true by lia.
          eexists. intros rest.
          rewrite (bind_Ok _ _ _ _ _ Hwhen).
          erewrite bind_Ok by reflexivity. reflexivity. }
      destruct Hw as (w1 & Hstep).
      apply (Hgoal g w1 (sameHeader_refl g)); [| exact Hstep].
      rewrite Hh at 1. rewrite Hsplit, <- app_assoc. reflexivity.
Qed.

Lemma readRows_end filename verbose linesExpected row lineNum g w :
  readRows filename verbose linesExpected [] row lineNum g w
    = (Ok (Break lineNum g), w).
Proof. reflexivity. Qed.

Lemma readRows_too_many filename verbose linesExpected line rest row lineNum g w :
  linesExpected < lineNum + 1 ->
  readRows filename verbose linesExpected (line :: rest) row lineNum g w
    = (Ok (Break (lineNum + 1) g),
       logging [Printf ("%s: warning: file %s has too many lines - expected %d"
                          ++ newline)
                       [AStr "ReadGridFromFile"; AStr filename; AInt linesExpected]]
               w).
Proof.
  intros H. cbn [readRows]. cbn zeta.
  replace (lineNum + 1 >? linesExpected) with true by lia. reflexivity.
Qed.

(** A line of the right number of fields, one of which does not scan,
    ends the loop with the error of [Sscanf]. *)
Lemma readRows_fails filename verbose linesExpected line rest row lineNum g w
    good vals bad more err r :
  tokens line = (good ++ bad :: more)%list -> len (tokens line) = ncols g ->
  scanned good vals -> Sscanf_f bad = inr err ->
  0 <= row < nrows g -> lineNum + 1 <= linesExpected ->
  height g !! Z.to_nat row = Some r -> length r = Z.to_nat (ncols g) ->
  exists w',
    readRows filename verbose linesExpected (line :: rest) row lineNum g w
      = (Ok (Return err), w') /\
    In (Printf "%d %d %s" [AInt row; AInt (len good); AStr (Error err)])
       (logged w').
Proof.
  intros Htok Hwidth Hscan Hbad Hrow Hnum Hr Hlen.
  destruct (when_println verbose (fst (stripSpaces line)) w) as (w0 & Hwhen).
  destruct (readCols_fails verbose good vals bad more err row 0 g w0 r)
    as (w' & Hcols & Hin);
    [assumption | assumption | lia | lia | rewrite <- Htok; lia
    | assumption | assumption |].
  exists w'. split; [| exact Hin].
  cbn [readRows]. cbn zeta.
  replace (lineNum + 1 >? linesExpected) with false by lia.
  unfold tokens in *. unfold stripSpaces in *. cbn [fst] in *.
  set (numbers := strings.Split _) in *.
  replace (len numbers >? ncols g) with false by lia.
  replace (len numbers <? ncols g) with false by lia.
  rewrite (bind_Ok _ _ _ _ _ Hwhen). rewrite Htok.
  rewrite (bind_Ok _ _ _ _ _ Hcols). reflexivity.
Qed.

(** ** The header as a whole *)

Lemma os_Open_run path content w :
  files w !! path = Some content -> os_Open path w = (Ok (inl content), w).
Proof. intros H. unfold os_Open. rewrite H. reflexivity. Qed.

(** With six header lines whose values scan and a matrix that can be
    allocated, [ReadGridFromFile] comes to the loop over the data lines
    with the grid of the header; it has written to the log only. *)
Lemma ReadGridFromFile_header filename verbose w content
    l1 l2 l3 l4 l5 l6 lines nc nr x y c nd :
  files w !! filename = Some content ->
  pending (NewReader content) = l1 :: l2 :: l3 :: l4 :: l5 :: l6 :: lines ->
  intField l1 = Some nc -> intField l2 = Some nr ->
  floatField l3 = Some x -> floatField l4 = Some y -> floatField l5 = Some c ->
  intField l6 = Some nd ->
  0 <= nr -> 24 * nr <= maxAlloc ->
  (0 < nr -> 0 <= nc /\ 4 * nc <= maxAlloc) ->
  exists entries,
    ReadGridFromFile filename verbose w
      = readData filename verbose lines (allocated nc nr x y c nd)
                 (logging entries w).
Proof.
  intros Hfile Hp H1 H2 H3 H4 H5 H6 Hnr Hsz Hnc.
  unfold ReadGridFromFile. cbn zeta.
  rewrite (bind_Ok _ _ _ _ _ (when_log _ _ _ _)).
  erewrite bind_Ok by (apply os_Open_run; exact Hfile).
  cbn iota beta.
  match goal with |- context [(readIntFromHeader _ ?f _ ≫= _) ?w0] =>
    destruct (readIntFromHeader_field (NewReader content) f verbose w0 _ _ _ Hp H1)
      as (e1 & Hrun1) end.
  rewrite (bind_Ok _ _ _ _ _ Hrun1). cbn iota beta.
  rewrite (bind_Ok _ _ _ _ _ (when_log _ _ _ _)).
  match goal with |- context [(readIntFromHeader ?r ?f _ ≫= _) ?w0] =>
    destruct (readIntFromHeader_field r f verbose w0 _ _ _ eq_refl H2)
      as (e2 & Hrun2) end.
  rewrite (bind_Ok _ _ _ _ _ Hrun2). cbn iota beta.
  rewrite (bind_Ok _ _ _ _ _ (when_log _ _ _ _)).
  erewrite bind_Ok by (apply makeslice_run; [exact Hnr | exact Hsz]).
  erewrite bind_Ok
    by (apply allocRows_run;
        [lia | rewrite length_replicate; cbn; lia | intros ?; apply Hnc; cbn in *; lia]).
  match goal with |- context [(readFloat32FromHeader ?r ?f _ ≫= _) ?w0] =>
    destruct (readFloat32FromHeader_field r f verbose w0 _ _ _ eq_refl H3)
      as (e3 & Hrun3) end.
  rewrite (bind_Ok _ _ _ _ _ Hrun3). cbn iota beta.
  rewrite (bind_Ok _ _ _ _ _ (when_log _ _ _ _)).
  match goal with |- context [(readFloat32FromHeader ?r ?f _ ≫= _) ?w0] =>
    destruct (readFloat32FromHeader_field r f verbose w0 _ _ _ eq_refl H4)
      as (e4 & Hrun4) end.
  rewrite (bind_Ok _ _ _ _ _ Hrun4). cbn iota beta.
  rewrite (bind_Ok _ _ _ _ _ (when_log _ _ _ _)).
  match goal with |- context [(readFloat32FromHeader ?r ?f _ ≫= _) ?w0] =>
    destruct (readFloat32FromHeader_field r f verbose w0 _ _ _ eq_refl H5)
      as (e5 & Hrun5) end.
  rewrite (bind_Ok _ _ _ _ _ Hrun5). cbn iota beta.
  rewrite (bind_Ok _ _ _ _ _ (when_log _ _ _ _)).
  match goal with |- context [(readIntFromHeader ?r ?f _ ≫= _) ?w0] =>
    destruct (readIntFromHeader_field r f verbose w0 _ _ _ eq_refl H6)
      as (e6 & Hrun6) end.
  rewrite (bind_Ok _ _ _ _ _ Hrun6). cbn iota beta.
  rewrite (bind_Ok _ _ _ _ _ (log_Printf_logging _ _ _)).
  rewrite (bind_Ok _ _ _ _ _ (log_Printf_logging _ _ _)).
  rewrite <- !logging_app.
  eexists. unfold readData. cbn zeta. reflexivity.
Qed.

(** A file without a complete line. *)
Lemma ReadGridFromFile_no_line filename verbose w content :
  files w !! filename = Some content ->
  pending (NewReader content) = [] ->
  ReadGridFromFile filename verbose w
    = (Ok (inr io_EOF),
       logging (if verbose
                then [Printf "%s: %s" [AStr "ReadGridFromFile"; AStr filename]]
                else []) w).
Proof.
  intros Hfile Hp. unfold ReadGridFromFile. cbn zeta.
  rewrite (bind_Ok _ _ _ _ _ (when_log _ _ _ _)).
  erewrite bind_Ok by (apply os_Open_run; exact Hfile).
  cbn iota beta.
  erewrite bind_Ok by (apply readIntFromHeader_eof; exact Hp).
  reflexivity.
Qed.

(** ** From a grid that was read back to the file *)

Lemma readIntFromHeader_inv r fieldName verbose w r' n w' :
  readIntFromHeader r fieldName verbose w = (Ok (r', inl n), w') ->
  exists line, pending r = line :: pending r' /\ intField line = Some n.
Proof.
  unfold readIntFromHeader, ReadString. cbn zeta.
  destruct (pending r) as [| line lines]; [discriminate |].
  cbn iota beta. unfold stripSpaces. cbn iota beta.
  intros H.
  apply bind_Ok_inv in H as (u & w1 & _ & H).
  apply bind_Ok_inv in H as (f0 & w2 & _ & H).
  apply bind_Ok_inv in H as (u' & w3 & _ & H).
  apply bind_Ok_inv in H as (f1 & w4 & Hf1 & H).
  apply index_Ok_inv in Hf1 as (_ & Hf1 & _).
  change (Z.to_nat 1) with 1%nat in Hf1.
  exists line. unfold intField, tokens, stripSpaces. cbn [fst]. rewrite Hf1.
  destruct (Sscanf_d f1); [| discriminate].
  apply bind_Ok_inv in H as (u'' & w5 & _ & H).
  injection H as <- <- _. split; reflexivity.
Qed.

Lemma readFloat32FromHeader_inv r fieldName verbose w r' x w' :
  readFloat32FromHeader r fieldName verbose w = (Ok (r', inl x), w') ->
  exists line, pending r = line :: pending r' /\ floatField line = Some x.
Proof.
  unfold readFloat32FromHeader, ReadString. cbn zeta.
  destruct (pending r) as [| line lines]; [discriminate |].
  cbn iota beta. unfold stripSpaces. cbn iota beta.
  intros H.
  apply bind_Ok_inv in H as (u & w1 & _ & H).
  apply bind_Ok_inv in H as (f0 & w2 & _ & H).
  apply bind_Ok_inv in H as (u' & w3 & _ & H).
  apply bind_Ok_inv in H as (f1 & w4 & Hf1 & H).
  apply index_Ok_inv in Hf1 as (_ & Hf1 & _).
  change (Z.to_nat 1) with 1%nat in Hf1.
  exists line. unfold floatField, tokens, stripSpaces. cbn [fst]. rewrite Hf1.
  destruct (Sscanf_f f1); [| discriminate].
  apply bind_Ok_inv in H as (u'' & w5 & _ & H).
  injection H as <- <- _. split; reflexivity.
Qed.

(** A grid that was read: the six header lines gave its header, and the
    loop over the data lines made it of the grid as allocated. *)
Lemma ReadGridFromFile_inv filename verbose w g w' :
  ReadGridFromFile filename verbose w = (Ok (inl g), w') ->
  exists content l1 l2 l3 l4 l5 l6 lines nc nr x y c nd w0 n w1,
    files w !! filename = Some content /\
    pending (NewReader content) = l1 :: l2 :: l3 :: l4 :: l5 :: l6 :: lines /\
    intField l1 = Some nc /\ intField l2 = Some nr /\
    floatField l3 = Some x /\ floatField l4 = Some y /\
    floatField l5 = Some c /\ intField l6 = Some nd /\
    0 <= nr /\
    readRows filename verbose (nr + 6) lines 0 6 (allocated nc nr x y c nd) w0
      = (Ok (Break n g), w1).
Proof.
  unfold ReadGridFromFile. cbn zeta. intros H.
  apply bind_Ok_inv in H as (u & w1 & Hlog & H).
  apply when_log_files in Hlog.
  apply bind_Ok_inv in H as (opened & w2 & Hopen & H).
  unfold os_Open in Hopen. rewrite Hlog in Hopen.
  destruct (files w !! filename) as [content |] eqn:Hfile;
    injection Hopen as <- <-;
    [| apply bind_Ok_inv in H as (? & ? & _ & H); discriminate].
  exists content.
  apply bind_Ok_inv in H as ([r1 [nc | ?]] & w3 & H1 & H); [| discriminate].
  apply readIntFromHeader_inv in H1 as (l1 & E1 & F1).
  apply bind_Ok_inv in H as (? & w4 & _ & H).
  apply bind_Ok_inv in H as ([r2 [nr | ?]] & w5 & H2 & H); [| discriminate].
  apply readIntFromHeader_inv in H2 as (l2 & E2 & F2).
  apply bind_Ok_inv in H as (? & w6 & _ & H).
  apply bind_Ok_inv in H as (rows0 & w7 & Hmake & H).
  apply makeslice_Ok_inv in Hmake as (Hnr & -> & ->).
  apply bind_Ok_inv in H as (rows & w8 & Halloc & H).
  apply allocRows_Ok in Halloc;
    [| lia | rewrite length_replicate; cbn; lia].
  cbn [take Z.to_nat app] in Halloc.
  apply bind_Ok_inv in H as ([r3 [vx | ?]] & w9 & H3 & H); [| discriminate].
  apply readFloat32FromHeader_inv in H3 as (l3 & E3 & F3).
  apply bind_Ok_inv in H as (? & w10 & _ & H).
  apply bind_Ok_inv in H as ([r4 [vy | ?]] & w11 & H4 & H); [| discriminate].
  apply readFloat32FromHeader_inv in H4 as (l4 & E4 & F4).
  apply bind_Ok_inv in H as (? & w12 & _ & H).
  apply bind_Ok_inv in H as ([r5 [vc | ?]] & w13 & H5 & H); [| discriminate].
  apply readFloat32FromHeader_inv in H5 as (l5 & E5 & F5).
  apply bind_Ok_inv in H as (? & w14 & _ & H).
  apply bind_Ok_inv in H as ([r6 [nd | ?]] & w15 & H6 & H); [| discriminate].
  apply readIntFromHeader_inv in H6 as (l6 & E6 & F6).
  apply bind_Ok_inv in H as (? & w16 & _ & H).
  apply bind_Ok_inv in H as (? & w17 & _ & H).
  apply bind_Ok_inv in H as ([lineNum' g1 | ?] & w18 & Hrows & H);
    [| discriminate].
  exists l1, l2, l3, l4, l5, l6, (pending r6), nc, nr, vx, vy, vc, nd,
         w17, lineNum', w18.
  assert (g1 = g) as <-.
  { apply bind_Ok_inv in H as (? & ? & _ & H).
    apply bind_Ok_inv in H as (? & ? & _ & H).
    injection H as [= ->]. reflexivity. }
  repeat (split; [first [reflexivity | assumption] |]).
  split; [rewrite E1, E2, E3, E4, E5, E6; reflexivity |].
  repeat (split; [assumption |]).
  subst rows. exact Hrows.
Qed.

Lemma scan_or_fail (toks : list string) :
  (exists vals, scanned toks vals) \/
  (exists good vals bad more err,
     toks = (good ++ bad :: more)%list /\ scanned good vals /\
     Sscanf_f bad = inr err).
Proof.
  induction toks as [| tok toks IH].
  - left. exists []. constructor.
  - destruct (Sscanf_f tok) as [h | err] eqn:Htok.
    + destruct IH as [[vals Hs] | (good & vals & bad & more & err & -> & Hs & Hb)].
      * left. exists (h :: vals). constructor; assumption.
      * right. exists (tok :: good), (h :: vals), bad, more, err.
        split; [reflexivity |]. split; [constructor; assumption | exact Hb].
    + right. exists [], [], tok, toks, err.
      split; [reflexivity |]. split; [constructor | exact Htok].
Qed.

(** The loop over the data lines, when it ends with a grid, has taken in
    the lines up to the number of rows, each as [rowOf] says. *)
Lemma readRows_inv filename verbose lines :
  forall row g w n g' w' done,
  readRows filename verbose (nrows g + 6) lines row (row + 6) g w
    = (Ok (Break n g'), w') ->
  0 <= row <= nrows g ->
  height g = (done ++ replicate (Z.to_nat (nrows g - row)) (zeroRow g))%list ->
  length done = Z.to_nat row ->
  exists rows,
    Forall2 (rowOf (ncols g)) (take (Z.to_nat (nrows g - row)) lines) rows /\
    height g' =
      (done ++ rows ++
       replicate (Z.to_nat (nrows g - row) - length rows) (zeroRow g))%list /\
    sameHeader g g'.
Proof.
  induction lines as [| line lines IH];
    intros row g w n g' w' done Hrun Hrow Hh Hdone.
  - injection Hrun as _ <- _. exists []. rewrite take_nil.
    split; [constructor |]. cbn [app length]. rewrite Nat.sub_0_r.
    split; [exact Hh | apply sameHeader_refl].
  - destruct (Z.eq_dec row (nrows g)) as [Hfull | Hmore].
    { rewrite readRows_too_many in Hrun by lia. injection Hrun as _ <- _.
      exists []. replace (Z.to_nat (nrows g - row)) with 0%nat in * by lia.
      split; [constructor |]. split; [exact Hh | apply sameHeader_refl]. }
    assert (Hone : forall rowk, rowOf (ncols g) line rowk ->
      exists rows,
        Forall2 (rowOf (ncols g))
                (take (Z.to_nat (nrows g - row)) (line :: lines)) rows /\
        height g' =
          (done ++ rows ++
           replicate (Z.to_nat (nrows g - row) - length rows) (zeroRow g))%list /\
        sameHeader g g').
    { intros rowk Hk.
      destruct (readRows_run filename verbose (nrows g + 6) [line] [rowk]
                  row (row + 6) g w done)
        as (g1 & w1 & Hstep & Hh1 & Hhd);
        [constructor; [exact Hk | constructor] | lia | unfold len; cbn; lia
        | unfold len; cbn; lia | exact Hh | exact Hdone |].
      specialize (Hstep lines). cbn [app] in Hstep.
      unfold len in Hstep, Hh1. cbn [length app] in Hstep, Hh1.
      rewrite Hstep in Hrun.
      pose proof Hhd as (Hnc & Hnr & _).
      rewrite <- Hnr in Hrun.
      change (Z.of_nat 1) with 1 in *.
      replace (row + 6 + 1) with (row + 1 + 6) in Hrun by lia.
      destruct (IH (row + 1) g1 w1 n g' w' (done ++ [rowk])%list Hrun)
        as (rows & Hrows & Hh' & Hhd');
        [lia
        | rewrite Hh1, <- app_assoc, (zeroRow_sameHeader _ _ Hhd), Hnr;
          cbn [app]; do 3 f_equal; lia
        | rewrite length_app; cbn [length]; lia |].
      exists (rowk :: rows).
      replace (Z.to_nat (nrows g - row))
        with (S (Z.to_nat (nrows g1 - (row + 1)))) by lia.
      cbn [take]. split; [constructor; [exact Hk | rewrite <- Hnc; exact Hrows] |].
      split; [| eapply sameHeader_trans; eassumption].
      rewrite Hh', <- app_assoc, (zeroRow_sameHeader _ _ Hhd). cbn [app length].
      reflexivity. }
    destruct (Z.eq_dec (len (tokens line)) (ncols g)) as [Hwidth | Hwidth];
      [| apply (Hone (replicate (Z.to_nat (ncols g)) Float32.zero));
         right; split; [exact Hwidth | reflexivity]].
    destruct (scan_or_fail (tokens line))
      as [[vals Hs] | (good & vals & bad & more & err & Htok & Hs & Hb)];
      [apply (Hone vals); left; split; assumption |].
    exfalso.
    destruct (readRows_fails filename verbose (nrows g + 6) line lines row
                (row + 6) g w good vals bad more err (zeroRow g))
      as (w'' & Hfail & _);
      [assumption | assumption | assumption | assumption | lia | lia
      | | apply length_replicate |].
    + rewrite Hh, lookup_app_r by lia.
      replace (Z.to_nat row - length done)%nat with 0%nat by lia.
      replace (Z.to_nat (nrows g - row))
        with (S (Z.to_nat (nrows g - row - 1))) by lia.
      reflexivity.
    + rewrite Hfail in Hrun. discriminate.
Qed.

(** ** The parser on whole files *)

(** X5. A file is read as the format says. Six header lines whose second
    fields scan, a matrix that can be allocated, and data lines of which
    each has either a wrong number of fields or fields that all scan:
    [ReadGridFromFile] returns a grid with the header values, whose rows
    are the samples of the lines, or zeros for a line with a wrong number of
    fields and for a row without a line. Lines beyond the [nrows] data
    lines are not read. Too few and too many lines leave a warning. *)
Theorem wellformed_file_is_read filename verbose w content
    l1 l2 l3 l4 l5 l6 data extra rows nc nr x y c nd :
  files w !! filename = Some content ->
  pending (NewReader content)
    = (l1 :: l2 :: l3 :: l4 :: l5 :: l6 :: data ++ extra)%list ->
  intField l1 = Some nc -> intField l2 = Some nr ->
  floatField l3 = Some x -> floatField l4 = Some y -> floatField l5 = Some c ->
  intField l6 = Some nd ->
  0 <= nr -> 24 * nr <= maxAlloc ->
  (0 < nr -> 0 <= nc /\ 4 * nc <= maxAlloc) ->
  Forall2 (rowOf nc) data rows ->
  len data <= nr -> (extra <> [] -> len data = nr) ->
  exists g w',
    ReadGridFromFile filename verbose w = (Ok (inl g), w') /\
    ncols g = nc /\ nrows g = nr /\ xllcorner g = x /\ yllcorner g = y /\
    cellsize g = c /\ noDataValue g = nd /\
    height g = (rows ++ replicate (Z.to_nat (nr - len data))
                                  (replicate (Z.to_nat nc) Float32.zero))%list /\
    (len data < nr ->
     In (Printf ("warning: file %s has too few lines - got %d expected %d"
                   ++ newline)
                [AStr filename; AInt (6 + len data); AInt (nr + 6)])
        (logged w')) /\
    (extra <> [] ->
     In (Printf ("%s: warning: file %s has too many lines - expected %d"
                   ++ newline)
                [AStr "ReadGridFromFile"; AStr filename; AInt (nr + 6)])
        (logged w')).
Proof.
  intros Hfile Hp H1 H2 H3 H4 H5 H6 Hnr Hsz Hnc Hrows Hlen Hextra.
  destruct (ReadGridFromFile_header filename verbose w content
              l1 l2 l3 l4 l5 l6 (data ++ extra)%list nc nr x y c nd)
    as (entries & Hhead); try assumption.
  rewrite Hhead. unfold readData. cbn zeta.
  change (nrows (allocated nc nr x y c nd)) with nr.
  destruct (readRows_run filename verbose (nr + 6) data rows 0 6
              (allocated nc nr x y c nd) (logging entries w) [])
    as (g & w1 & Hrun & Hh & Hhd);
    [exact Hrows | lia | cbn [allocated nrows]; lia | lia
    | cbn [allocated height nrows app]; rewrite Z.sub_0_r; reflexivity
    | reflexivity |].
  cbn [app allocated nrows] in Hh. rewrite Z.sub_0_r in Hh.
  destruct Hhd as (E1 & E2 & E3 & E4 & E5 & E6).
  destruct extra as [| e extra].
  - erewrite bind_Ok by (rewrite Hrun; apply readRows_end).
    cbn iota beta.
    rewrite (bind_Ok _ _ _ _ _ (when_log _ _ _ _)).
    rewrite (bind_Ok _ _ _ _ _ (when_log _ _ _ _)).
    eexists. eexists. split; [reflexivity |].
    repeat (split; [assumption |]).
    split; [| contradiction].
    intros Hfew. cbn [logging logged].
    replace (6 + len data <? nr + 6) with true by lia.
    apply in_or_app. right. apply in_or_app. left. left. reflexivity.
  - specialize (Hextra ltac:(discriminate)).
    erewrite bind_Ok by (rewrite Hrun; apply readRows_too_many; lia).
    cbn iota beta.
    rewrite (bind_Ok _ _ _ _ _ (when_log _ _ _ _)).
    rewrite (bind_Ok _ _ _ _ _ (when_log _ _ _ _)).
    eexists. eexists. split; [reflexivity |].
    repeat (split; [assumption |]).
    split; [intros Hfew; lia |].
    intros _. cbn [logging logged].
    apply in_or_app. right. apply in_or_app. right. left. reflexivity.
Qed.

(** X6. A field that does not scan is fatal. When the data lines before
    it are taken in and a line among the first [nrows] has the right number
    of fields, the first of its fields that does not scan ends the parse:
    the error of [Sscanf] is returned, no grid, and the row, the column
    and the error are logged. *)
Theorem unscannable_sample_is_fatal filename verbose w content
    l1 l2 l3 l4 l5 l6 data bad rest rows good vals tok more err nc nr x y c nd :
  files w !! filename = Some content ->
  pending (NewReader content)
    = (l1 :: l2 :: l3 :: l4 :: l5 :: l6 :: data ++ bad :: rest)%list ->
  intField l1 = Some nc -> intField l2 = Some nr ->
  floatField l3 = Some x -> floatField l4 = Some y -> floatField l5 = Some c ->
  intField l6 = Some nd ->
  24 * nr <= maxAlloc -> 4 * nc <= maxAlloc ->
  Forall2 (rowOf nc) data rows -> len data < nr ->
  tokens bad = (good ++ tok :: more)%list -> len (tokens bad) = nc ->
  scanned good vals -> Sscanf_f tok = inr err ->
  exists w',
    ReadGridFromFile filename verbose w = (Ok (inr err), w') /\
    In (Printf "%d %d %s" [AInt (len data); AInt (len good); AStr (Error err)])
       (logged w').
Proof.
  intros Hfile Hp H1 H2 H3 H4 H5 H6 Hsz Hsz' Hrows Hlen Htok Hwidth Hscan Hbad.
  assert (Hnc : 0 <= nc) by (rewrite <- Hwidth; unfold len; lia).
  assert (Hnr : 0 <= nr) by (unfold len in Hlen; lia).
  destruct (ReadGridFromFile_header filename verbose w content
              l1 l2 l3 l4 l5 l6 (data ++ bad :: rest)%list nc nr x y c nd)
    as (entries & Hhead); try assumption; [intros _; split; assumption |].
  rewrite Hhead. unfold readData. cbn zeta.
  change (nrows (allocated nc nr x y c nd)) with nr.
  destruct (readRows_run filename verbose (nr + 6) data rows 0 6
              (allocated nc nr x y c nd) (logging entries w) [])
    as (g & w1 & Hrun & Hh & Hhd);
    [exact Hrows | lia | cbn [allocated nrows]; lia | lia
    | cbn [allocated height nrows app]; rewrite Z.sub_0_r; reflexivity
    | reflexivity |].
  cbn [app allocated nrows] in Hh. rewrite Z.sub_0_r in Hh.
  destruct Hhd as (E1 & E2 & _).
  cbn [allocated ncols nrows] in E1, E2.
  destruct (readRows_fails filename verbose (nr + 6) bad rest (0 + len data)
              (6 + len data) g w1 good vals tok more err
              (zeroRow (allocated nc nr x y c nd)))
    as (w' & Hfail & Hin);
    [exact Htok | congruence | exact Hscan | exact Hbad
    | rewrite E2; unfold len in *; lia | lia | | |].
  - rewrite Hh, lookup_app_r
      by (apply Forall2_length in Hrows; unfold len; lia).
    apply Forall2_length in Hrows.
    replace (Z.to_nat (0 + len data) - length rows)%nat with 0%nat
      by (unfold len; lia).
    replace (Z.to_nat (nr - len data))
      with (S (Z.to_nat (nr - len data - 1))) by lia.
    reflexivity.
  - rewrite E1. apply length_replicate.
  - exists w'. split; [| exact Hin].
    erewrite bind_Ok by (rewrite Hrun; exact Hfail). reflexivity.
Qed.

(** X7. What a grid that was read says of its file: the file has six
    header lines, whose second fields scan to the header of the grid, and
    each of the first [nrows] data lines either has [ncols] fields, which
    all scan to the samples of its row, or has another number of fields
    and a row of zeros; the rows without a line are zeros. *)
Theorem read_grid_is_of_its_file filename verbose w g w' :
  ReadGridFromFile filename verbose w = (Ok (inl g), w') ->
  exists content l1 l2 l3 l4 l5 l6 data rows,
    files w !! filename = Some content /\
    pending (NewReader content) = l1 :: l2 :: l3 :: l4 :: l5 :: l6 :: data /\
    intField l1 = Some (ncols g) /\ intField l2 = Some (nrows g) /\
    floatField l3 = Some (xllcorner g) /\ floatField l4 = Some (yllcorner g) /\
    floatField l5 = Some (cellsize g) /\ intField l6 = Some (noDataValue g) /\
    Forall2 (rowOf (ncols g)) (take (Z.to_nat (nrows g)) data) rows /\
    height g = (rows ++ replicate (Z.to_nat (nrows g) - length rows)
                                  (zeroRow g))%list.
Proof.
  intros H. apply ReadGridFromFile_inv in H
    as (content & l1 & l2 & l3 & l4 & l5 & l6 & lines & nc & nr & x & y & c & nd &
        w0 & n & w1 & Hfile & Hp & H1 & H2 & H3 & H4 & H5 & H6 & Hnr & Hrows).
  change (readRows filename verbose (nrows (allocated nc nr x y c nd) + 6) lines
                   0 (0 + 6) (allocated nc nr x y c nd) w0
          = (Ok (Break n g), w1)) in Hrows.
  apply (readRows_inv _ _ _ _ _ _ _ _ _ []) in Hrows
    as (rows & Hrows & Hh & Hnc & Hnr' & Hx & Hy & Hc & Hnd);
    [| cbn [allocated nrows]; lia
     | cbn [allocated height nrows app]; rewrite Z.sub_0_r; reflexivity
     | reflexivity].
  cbn [allocated ncols nrows xllcorner yllcorner cellsize noDataValue app]
    in Hrows, Hh, Hnc, Hnr', Hx, Hy, Hc, Hnd.
  rewrite Z.sub_0_r in Hrows, Hh.
  exists content, l1, l2, l3, l4, l5, l6, lines, rows.
  rewrite Hnc, Hnr', Hx, Hy, Hc, Hnd.
  repeat (split; [assumption |]).
  rewrite Hh. unfold zeroRow. rewrite Hnc. reflexivity.
Qed.

(** X8. The matrix is allocated after the second header line, before the
    third is read: a negative number of rows, or with a row to allocate a
    negative number of columns, or a size beyond what can be allocated,
    makes [ReadGridFromFile] panic; no error is returned. *)
Theorem unallocatable_matrix_panics filename verbose w content l1 l2 rest nc nr :
  files w !! filename = Some content ->
  pending (NewReader content) = l1 :: l2 :: rest ->
  intField l1 = Some nc -> intField l2 = Some nr ->
  nr < 0 \/ maxAlloc < 24 * nr \/ (0 < nr /\ (nc < 0 \/ maxAlloc < 4 * nc)) ->
  exists w', ReadGridFromFile filename verbose w = (Panic MakeSliceLen, w').
Proof.
  intros Hfile Hp H1 H2 Hbad.
  unfold ReadGridFromFile. cbn zeta.
  rewrite (bind_Ok _ _ _ _ _ (when_log _ _ _ _)).
  erewrite bind_Ok by (apply os_Open_run; exact Hfile).
  cbn iota beta.
  match goal with |- context [(readIntFromHeader _ ?f _ ≫= _) ?w0] =>
    destruct (readIntFromHeader_field (NewReader content) f verbose w0 _ _ _ Hp H1)
      as (e1 & Hrun1) end.
  rewrite (bind_Ok _ _ _ _ _ Hrun1). cbn iota beta.
  rewrite (bind_Ok _ _ _ _ _ (when_log _ _ _ _)).
  match goal with |- context [(readIntFromHeader ?r ?f _ ≫= _) ?w0] =>
    destruct (readIntFromHeader_field r f verbose w0 _ _ _ eq_refl H2)
      as (e2 & Hrun2) end.
  rewrite (bind_Ok _ _ _ _ _ Hrun2). cbn iota beta.
  rewrite (bind_Ok _ _ _ _ _ (when_log _ _ _ _)).
  cbn [nrows ncols SetNRows SetNCols].
  eexists.
  destruct (Z.ltb_spec nr 0) as [Hneg | Hnn];
    [apply bind_Panic; unfold makeslice;
     replace (nr <? 0) with true by lia; reflexivity |].
  destruct (Z.ltb_spec maxAlloc (24 * nr)) as [Hbig | Hfit];
    [apply bind_Panic; unfold makeslice;
     replace (maxAlloc <? 24 * nr) with true by lia;
     rewrite orb_true_r; reflexivity |].
  destruct Hbad as [? | [? | [Hpos Hcols]]]; [lia | lia |].
  erewrite bind_Ok by (apply makeslice_run; lia).
  apply bind_Panic.
  replace (Z.to_nat nr) with (S (Z.to_nat (nr - 1))) by lia.
  cbn [allocRows]. apply bind_Panic. unfold makeslice.
  replace ((nc <? 0) || (maxAlloc <? 4 * nc)) with true
    by (symmetry; apply orb_true_iff; lia).
  reflexivity.
Qed.

(** X9. A header that stops short: when fewer than six complete lines are
    in the file, and those that are there are the first lines of a header
    that can be read, [ReadGridFromFile] returns [io.EOF] and no grid. *)
Theorem truncated_header_is_EOF filename verbose w content
    l1 l2 l3 l4 l5 l6 nc nr x y c nd (k : nat) :
  files w !! filename = Some content ->
  intField l1 = Some nc -> intField l2 = Some nr ->
  floatField l3 = Some x -> floatField l4 = Some y -> floatField l5 = Some c ->
  intField l6 = Some nd ->
  0 <= nr -> 24 * nr <= maxAlloc ->
  (0 < nr -> 0 <= nc /\ 4 * nc <= maxAlloc) ->
  (k < 6)%nat ->
  pending (NewReader content) = take k [l1; l2; l3; l4; l5; l6] ->
  exists w', ReadGridFromFile filename verbose w = (Ok (inr io_EOF), w').
Proof.
  intros Hfile H1 H2 H3 H4 H5 H6 Hnr Hsz Hnc Hk Hp.
  unfold ReadGridFromFile. cbn zeta.
  rewrite (bind_Ok _ _ _ _ _ (when_log _ _ _ _)).
  erewrite bind_Ok by (apply os_Open_run; exact Hfile).
  cbn iota beta.
  destruct k as [| k]; cbn [take] in Hp;
    [erewrite bind_Ok by (apply readIntFromHeader_eof; exact Hp);
     eexists; reflexivity |].
  match goal with |- context [(readIntFromHeader _ ?f _ ≫= _) ?w0] =>
    destruct (readIntFromHeader_field (NewReader content) f verbose w0 _ _ _ Hp H1)
      as (e1 & Hrun1) end.
  rewrite (bind_Ok _ _ _ _ _ Hrun1). cbn iota beta.
  rewrite (bind_Ok _ _ _ _ _ (when_log _ _ _ _)).
  destruct k as [| k]; cbn [take];
    [erewrite bind_Ok by (apply readIntFromHeader_eof; reflexivity);
     eexists; reflexivity |].
  match goal with |- context [(readIntFromHeader ?r ?f _ ≫= _) ?w0] =>
    destruct (readIntFromHeader_field r f verbose w0 _ _ _ eq_refl H2)
      as (e2 & Hrun2) end.
  rewrite (bind_Ok _ _ _ _ _ Hrun2). cbn iota beta.
  rewrite (bind_Ok _ _ _ _ _ (when_log _ _ _ _)).
  erewrite bind_Ok by (apply makeslice_run; [exact Hnr | exact Hsz]).
  erewrite bind_Ok
    by (apply allocRows_run;
        [lia | rewrite length_replicate; cbn; lia | intros ?; apply Hnc; cbn in *; lia]).
  destruct k as [| k]; cbn [take];
    [erewrite bind_Ok by (apply readFloat32FromHeader_eof; reflexivity);
     eexists; reflexivity |].
  match goal with |- context [(readFloat32FromHeader ?r ?f _ ≫= _) ?w0] =>
    destruct (readFloat32FromHeader_field r f verbose w0 _ _ _ eq_refl H3)
      as (e3 & Hrun3) end.
  rewrite (bind_Ok _ _ _ _ _ Hrun3). cbn iota beta.
  rewrite (bind_Ok _ _ _ _ _ (when_log _ _ _ _)).
  destruct k as [| k]; cbn [take];
    [erewrite bind_Ok by (apply readFloat32FromHeader_eof; reflexivity);
     eexists; reflexivity |].
  match goal with |- context [(readFloat32FromHeader ?r ?f _ ≫= _) ?w0] =>
    destruct (readFloat32FromHeader_field r f verbose w0 _ _ _ eq_refl H4)
      as (e4 & Hrun4) end.
  rewrite (bind_Ok _ _ _ _ _ Hrun4). cbn iota beta.
  rewrite (bind_Ok _ _ _ _ _ (when_log _ _ _ _)).
  destruct k as [| k]; cbn [take];
    [erewrite bind_Ok by (apply readFloat32FromHeader_eof; reflexivity);
     eexists; reflexivity |].
  match goal with |- context [(readFloat32FromHeader ?r ?f _ ≫= _) ?w0] =>
    destruct (readFloat32FromHeader_field r f verbose w0 _ _ _ eq_refl H5)
      as (e5 & Hrun5) end.
  rewrite (bind_Ok _ _ _ _ _ Hrun5). cbn iota beta.
  rewrite (bind_Ok _ _ _ _ _ (when_log _ _ _ _)).
  destruct k as [| k]; [| lia]. cbn [take].
  erewrite bind_Ok by (apply readIntFromHeader_eof; reflexivity).
  eexists. reflexivity.
Qed.

(** X10. The key of a header line is not binding: the two header readers
    return what the second field of the next line scans to and pass that
    line, whatever its first field is; a first field other than the name
    asked for only leaves a line in the log. *)
Theorem header_value_whatever_the_key r fieldName verbose w line rest key tok more :
  pending r = line :: rest ->
  tokens line = key :: tok :: more ->
  fst (readIntFromHeader r fieldName verbose w)
    = Ok (mkReader rest (partial r), Sscanf_d tok) /\
  fst (readFloat32FromHeader r fieldName verbose w)
    = Ok (mkReader rest (partial r), Sscanf_f tok) /\
  (key <> fieldName ->
   In (Printf "%s: expected %s, got %s"
              [AStr "readIntHeader"; AStr fieldName; AStr (fst (stripSpaces line))])
      (logged (snd (readIntFromHeader r fieldName verbose w))) /\
   In (Printf "%s: expected %s, got %s"
              [AStr "readFloat32FromHeader"; AStr fieldName;
               AStr (fst (stripSpaces line))])
      (logged (snd (readFloat32FromHeader r fieldName verbose w)))).
Proof.
  intros Hp Ht.
  destruct (readIntFromHeader_run r fieldName verbose w _ _ _ _ _ Hp Ht)
    as (e1 & -> & Hin1).
  destruct (readFloat32FromHeader_run r fieldName verbose w _ _ _ _ _ Hp Ht)
    as (e2 & -> & Hin2).
  cbn [fst snd logging logged]. split; [reflexivity |]. split; [reflexivity |].
  intros Hne. rewrite !in_app_iff, <- !in_rev. auto.
Qed.

(** X11. [ReadGridFromFile] writes to the log only: whatever it is given
    and however it ends, the files and the variables of the program are
    as before, and the log has grown at its end. *)
Theorem ReadGridFromFile_writes_to_the_log_only filename verbose w :
  files (snd (ReadGridFromFile filename verbose w)) = files w /\
  denied (snd (ReadGridFromFile filename verbose w)) = denied w /\
  vars (snd (ReadGridFromFile filename verbose w)) = vars w /\
  exists new,
    logged (snd (ReadGridFromFile filename verbose w)) = (new ++ logged w)%list.
Proof. apply logs_only_ReadGridFromFile. Qed.

(** X12. A file that cannot be opened: the error of [os.Open] is returned,
    after a line in the log whose format is the file name followed by the
    text of the error. *)
Theorem missing_file_is_reported filename verbose w :
  files w !! filename = None ->
  ReadGridFromFile filename verbose w
    = (Ok (inr (PathError "open" filename)),
       logging ((if verbose
                 then [Printf "%s: %s" [AStr "ReadGridFromFile"; AStr filename]]
                 else []) ++
                [Printf (filename ++ Error (PathError "open" filename)) []]) w).
Proof.
  intros Hfile. unfold ReadGridFromFile. cbn zeta.
  rewrite (bind_Ok _ _ _ _ _ (when_log _ _ _ _)).
  unfold mbind at 1, M_bind at 1, os_Open. cbn [files logging].
  rewrite Hfile. rewrite logging_app. reflexivity.
Qed.

End Parser.

Lemma unscannable_sample_is_fatal_witness :
  exists err w',
    ReadGridFromFile (scanner := decimal) tile false
                     (worldWith (header "2" "1" ++ line "5 x"))
      = (Ok (inr err), w') /\
    In (Printf "%d %d %s" [AInt 0; AInt 1; AStr (Error err)]) (logged w').
Proof.
  exists invalid_syntax.
  refine (unscannable_sample_is_fatal (scanner := decimal) tile false
            (worldWith (header "2" "1" ++ line "5 x")) (header "2" "1" ++ line "5 x")
            (line "ncols 2") (line "nrows 1") (line "xllcorner 513000")
            (line "yllcorner 152000") (line "cellsize 1")
            (line "NODATA_value -9999")
            [] (line "5 x") [] [] ["5"] [Float32.of_Z 5] "x" [] invalid_syntax
            2 1 (Float32.of_Z 513000) (Float32.of_Z 152000) (Float32.of_Z 1)
            (-9999) _ _ _ _ _ _ _ _ _ _ _ _ _ _ _ _).
  - vm_compute; reflexivity.
  - vm_compute; reflexivity.
  - vm_compute; reflexivity.
  - vm_compute; reflexivity.
  - vm_compute; reflexivity.
  - vm_compute; reflexivity.
  - vm_compute; reflexivity.
  - vm_compute; reflexivity.
  - vm_compute; discriminate.
  - vm_compute; discriminate.
  - constructor.
  - reflexivity.
  - vm_compute; reflexivity.
  - vm_compute; reflexivity.
  - constructor; [vm_compute; reflexivity | constructor].
  - vm_compute; reflexivity.
Defined.

Lemma wellformed_file_is_read_witness :
  exists g w',
    ReadGridFromFile (scanner := decimal) tile false (worldWith exampleShortRow)
      = (Ok (inl g), w') /\
    height g = [replicate 4 (Float32.of_Z 500); replicate 4 Float32.zero;
                replicate 4 (Float32.of_Z 1000); replicate 4 (Float32.of_Z 1000)].
Proof.
  destruct (wellformed_file_is_read (scanner := decimal) tile false
              (worldWith exampleShortRow) exampleShortRow
              (line "ncols 4") (line "nrows 4") (line "xllcorner 513000")
              (line "yllcorner 152000") (line "cellsize 1")
              (line "NODATA_value -9999")
              [line "500 500 500 500"; line "500 500 500";
               line "1000 1000 1000 1000"; line "1000 1000 1000 1000"] []
              [replicate 4 (Float32.of_Z 500); replicate 4 Float32.zero;
               replicate 4 (Float32.of_Z 1000); replicate 4 (Float32.of_Z 1000)]
              4 4 (Float32.of_Z 513000) (Float32.of_Z 152000) (Float32.of_Z 1)
              (-9999))
    as (g & w' & Hrun & _ & _ & _ & _ & _ & _ & Hh & _).
  - vm_compute; reflexivity.
  - vm_compute; reflexivity.
  - vm_compute; reflexivity.
  - vm_compute; reflexivity.
  - vm_compute; reflexivity.
  - vm_compute; reflexivity.
  - vm_compute; reflexivity.
  - vm_compute; reflexivity.
  - discriminate.
  - vm_compute; discriminate.
  - split; [discriminate | vm_compute; discriminate].
  - repeat (constructor;
            [first [ left; split; [vm_compute; reflexivity |];
                     repeat (constructor; [vm_compute; reflexivity |]);
                     constructor
                   | right; split; [vm_compute; discriminate | reflexivity] ] |]).
    constructor.
  - vm_compute; discriminate.
  - contradiction.
  - exists g, w'. split; [exact Hrun | exact Hh].
Defined.

Lemma read_grid_is_of_its_file_witness :
  exists content l1 l2 l3 l4 l5 l6 data rows,
    files (worldWith example4x4) !! tile = Some content /\
    pending (NewReader content) = l1 :: l2 :: l3 :: l4 :: l5 :: l6 :: data /\
    intField (scanner := decimal) l1 = Some (ncols (gridOf example4x4)) /\
    intField (scanner := decimal) l2 = Some (nrows (gridOf example4x4)) /\
    floatField (scanner := decimal) l3 = Some (xllcorner (gridOf example4x4)) /\
    floatField (scanner := decimal) l4 = Some (yllcorner (gridOf example4x4)) /\
    floatField (scanner := decimal) l5 = Some (cellsize (gridOf example4x4)) /\
    intField (scanner := decimal) l6 = Some (noDataValue (gridOf example4x4)) /\
    Forall2 (rowOf (scanner := decimal) (ncols (gridOf example4x4)))
            (take (Z.to_nat (nrows (gridOf example4x4))) data) rows /\
    height (gridOf example4x4)
      = (rows ++ replicate (Z.to_nat (nrows (gridOf example4x4)) - length rows)
                           (zeroRow (gridOf example4x4)))%list.
Proof.
  refine (read_grid_is_of_its_file (scanner := decimal) tile false
            (worldWith example4x4) (gridOf example4x4)
            (snd (read example4x4)) _).
  vm_compute; reflexivity.
Defined.

Lemma unallocatable_matrix_panics_witness :
  exists w',
    ReadGridFromFile (scanner := decimal) tile false (worldWith (header "2" "-1"))
      = (Panic MakeSliceLen, w').
Proof.
  refine (unallocatable_matrix_panics (scanner := decimal) tile false
            (worldWith (header "2" "-1")) (header "2" "-1")
            (line "ncols 2") (line "nrows -1")
            [line "xllcorner 513000"; line "yllcorner 152000"; line "cellsize 1";
             line "NODATA_value -9999"] 2 (-1) _ _ _ _ _).
  - vm_compute; reflexivity.
  - vm_compute; reflexivity.
  - vm_compute; reflexivity.
  - vm_compute; reflexivity.
  - left. reflexivity.
Defined.

Lemma truncated_header_is_EOF_witness :
  exists w',
    ReadGridFromFile (scanner := decimal) tile false
      (worldWith (line "ncols 4" ++ line "nrows 4" ++ line "xllcorner 513000"))
      = (Ok (inr io_EOF), w').
Proof.
  refine (truncated_header_is_EOF (scanner := decimal) tile false
            (worldWith (line "ncols 4" ++ line "nrows 4" ++ line "xllcorner 513000"))
            (line "ncols 4" ++ line "nrows 4" ++ line "xllcorner 513000")
            (line "ncols 4") (line "nrows 4") (line "xllcorner 513000")
            (line "yllcorner 152000") (line "cellsize 1")
            (line "NODATA_value -9999")
            4 4 (Float32.of_Z 513000) (Float32.of_Z 152000) (Float32.of_Z 1)
            (-9999) 3 _ _ _ _ _ _ _ _ _ _ _ _).
  - vm_compute; reflexivity.
  - vm_compute; reflexivity.
  - vm_compute; reflexivity.
  - vm_compute; reflexivity.
  - vm_compute; reflexivity.
  - vm_compute; reflexivity.
  - vm_compute; reflexivity.
  - discriminate.
  - vm_compute; discriminate.
  - split; [discriminate | vm_compute; discriminate].
  - lia.
  - vm_compute; reflexivity.
Defined.

Lemma header_value_whatever_the_key_witness :
  fst (readIntFromHeader (scanner := decimal) (NewReader (line "columns 4"))
                         "ncols" false (start ∅ ∅))
    = Ok (mkReader [] EmptyString, inl 4).
Proof.
  refine (proj1 (header_value_whatever_the_key (scanner := decimal)
                   (NewReader (line "columns 4")) "ncols" false (start ∅ ∅)
                   (line "columns 4") [] "columns" "4" [] _ _)).
  - vm_compute; reflexivity.
  - vm_compute; reflexivity.
Defined.

Lemma missing_file_is_reported_witness :
  ReadGridFromFile (scanner := decimal) tile false (start ∅ ∅)
    = (Ok (inr (PathError "open" tile)),
       logging [Printf (tile ++ Error (PathError "open" tile)) []] (start ∅ ∅)).
Proof.
  refine (missing_file_is_reported (scanner := decimal) tile false (start ∅ ∅) _).
  reflexivity.
Defined.

End ParserExtras.

Module StringExtras.
Import esri GridSpec MoreSpec Examples.
Local Open Scope string_scope.

(** ** Trimming *)







(** ** Collapsing and splitting *)





End StringExtras.

Module RenderExtras.
Import fmt bufio esri tiler GridSpec RenderSpec MainSpec MoreSpec Examples.
Import esriFacts ParserFacts ShaderFacts RenderFacts MainFacts.
Import GridExtras ParserExtras.
Local Open Scope string_scope.
Local Open Scope Z_scope.

(** ** The variables that follow the shades *)

Lemma shade_trackers floor ceiling height w :
  exists w',
    shade floor ceiling height w
      = (Ok (color.mkGray (shadeValue floor ceiling height)), w') /\
    keeps w w' /\
    Var.maxShadeSet (vars w') = true /\ Var.minShadeSet (vars w') = true /\
    Var.maxShade (vars w')
      = (if Var.maxShadeSet (vars w)
         then Z.max (Var.maxShade (vars w)) (shadeValue floor ceiling height)
         else shadeValue floor ceiling height) /\
    Var.minShade (vars w')
      = (if Var.minShadeSet (vars w)
         then Z.min (Var.minShade (vars w)) (shadeValue floor ceiling height)
         else shadeValue floor ceiling height).
Proof.
  destruct w as [fs dn lg [fn out ce fl vb mxh mnh mx mxs mn mns]].
  unfold shade. cbn zeta. generalize (shadeValue floor ceiling height).
  intros s.
  unfold mbind, M_bind, mret, M_ret, gets, modify, when, log_Printf. cbn.
  destruct vb, mxs, mns; cbn;
    repeat match goal with
           | |- context [if ?b then _ else _] => destruct b eqn:?; cbn
           end;
    eexists; (split; [reflexivity |]); cbn; repeat split; lia.
Qed.

Lemma tracks_step ss v v' s :
  tracks ss v ->
  Var.maxShadeSet v' = true -> Var.minShadeSet v' = true ->
  Var.maxShade v' = (if Var.maxShadeSet v then Z.max (Var.maxShade v) s else s) ->
  Var.minShade v' = (if Var.minShadeSet v then Z.min (Var.minShade v) s else s) ->
  tracks (s :: ss) v'.
Proof.
  intros Ht Hmxs Hmns Hmx Hmn. unfold tracks.
  split; [exact Hmxs |]. split; [exact Hmns |].
  destruct ss as [| s0 ss].
  - destruct Ht as [E1 E2]. rewrite E1 in Hmx. rewrite E2 in Hmn.
    rewrite Hmx, Hmn. split; [left; reflexivity |].
    split; [left; reflexivity |]. repeat constructor; lia.
  - destruct Ht as (E1 & E2 & Hinmax & Hinmin & Hall).
    rewrite E1 in Hmx. rewrite E2 in Hmn. rewrite Hmx, Hmn.
    split; [| split].
    + destruct (Z.max_spec (Var.maxShade v) s) as [[_ ->] | [_ ->]];
        [left; reflexivity | right; exact Hinmax].
    + destruct (Z.min_spec (Var.minShade v) s) as [[_ ->] | [_ ->]];
        [right; exact Hinmin | left; reflexivity].
    + constructor; [lia |].
      eapply Forall_impl; [exact Hall |]. cbn. intros x Hx. lia.
Qed.

Section Grid.
Variable g : Grid.
Hypothesis Hwf : wellformed g.

Lemma drawCell_tracks row col img w ss :
  0 <= row < nrows g -> 0 <= col < ncols g ->
  tracks ss (vars w) ->
  exists img' w',
    drawCell g row col img w = (Ok img', w') /\
    keeps w w' /\
    tracks (shadeOf g (vars w) (row, col) :: ss) (vars w').
Proof.
  intros Hr Hc Ht. unfold drawCell.
  unfold mbind at 1 2, M_bind at 1 2, gets at 1 2. cbn [fst snd].
  rewrite (bind_Ok _ _ _ _ _ (Height_Ok g Hwf row col w Hr Hc)).
  destruct (shade_trackers (Var.floor (vars w)) (Var.ceiling (vars w))
                           (sample g row col) w)
    as (w1 & Hshade & Hk & Hmxs & Hmns & Hmx & Hmn).
  rewrite (bind_Ok _ _ _ _ _ Hshade).
  pose proof (tracks_step _ _ _ _ Ht Hmxs Hmns Hmx Hmn) as Ht1.
  destruct Hk as (K1 & K2 & K3 & K4 & K5).
  unfold mbind, M_bind, gets, when, log_Printf, mret, M_ret.
  destruct (Var.verbose (vars w1)) eqn:Hv1; cbn; eexists _, _;
    (split; [reflexivity |]); (split; [repeat split; cbn; congruence |]);
    exact Ht1.
Qed.

Lemma shadeOf_keeps w w' cell :
  keeps w w' -> shadeOf g (vars w') cell = shadeOf g (vars w) cell.
Proof.
  intros (_ & _ & Hf & Hc & _). unfold shadeOf. rewrite Hf, Hc. reflexivity.
Qed.

Lemma foldM_draw_tracks cells : forall img w ss,
  Forall (fun cell => 0 <= fst cell < nrows g /\ 0 <= snd cell < ncols g) cells ->
  tracks ss (vars w) ->
  exists img' w',
    foldM (draw g) cells img w = (Ok img', w') /\
    keeps w w' /\
    tracks (rev (shadeOf g (vars w) <$> cells) ++ ss) (vars w').
Proof.
  induction cells as [| [row col] cells IH]; intros img w ss Hin Ht;
    cbn [foldM].
  - exists img, w. split; [reflexivity |]. split; [apply keeps_refl | exact Ht].
  - inversion Hin as [| ? ? [Hr Hc] Hrest]; subst. cbn [fst snd] in Hr, Hc.
    destruct (drawCell_tracks row col img w ss Hr Hc Ht)
      as (img1 & w1 & Hdraw & Hk1 & Ht1).
    change (draw g img (row, col)) with (drawCell g row col img).
    rewrite (bind_Ok _ _ _ _ _ Hdraw).
    destruct (IH img1 w1 _ Hrest Ht1) as (img' & w' & Hrun & Hk & Ht').
    exists img', w'. split; [exact Hrun |].
    split; [eapply keeps_trans; eassumption |].
    cbn [fmap list_fmap rev]. rewrite <- app_assoc. cbn [app].
    replace (shadeOf g (vars w) <$> cells) with (shadeOf g (vars w1) <$> cells);
      [exact Ht' |].
    apply list_fmap_ext. intros i cell _. apply shadeOf_keeps. exact Hk1.
Qed.

End Grid.

Lemma visitOrder_cells nrows ncols (cell : Z * Z) :
  cell ∈ visitOrder nrows ncols <->
  0 <= fst cell < nrows /\ 0 <= snd cell < ncols.
Proof.
  unfold visitOrder. rewrite list_elem_of_bind. split.
  - intros (row & Hcell & Hrow).
    apply elem_of_reverse, elem_of_seqZ in Hrow.
    apply list_elem_of_fmap in Hcell as (col & -> & Hcol).
    apply elem_of_seqZ in Hcol. cbn. lia.
  - intros [Hr Hc]. exists (fst cell). split.
    + apply list_elem_of_fmap. exists (snd cell).
      split; [destruct cell; reflexivity | apply elem_of_seqZ; lia].
    + apply elem_of_reverse, elem_of_seqZ. lia.
Qed.

Lemma NewRGBA_run nrows ncols w :
  0 <= nrows -> 0 <= ncols -> 4 * nrows * ncols <= maxAlloc ->
  image.NewRGBA (image.Rect 0 0 nrows ncols) w
    = (Ok (image.mkImage ∅ (image.mkRectangle (image.mkPoint 0 0)
                                               (image.mkPoint nrows ncols))), w).
Proof.
  intros Hnr Hnc Hsize. unfold image.NewRGBA, image.Rect.
  replace (0 >? nrows) with false by lia.
  replace (0 >? ncols) with false by lia.
  unfold image.Dx, image.Dy. cbn [image.Max image.Min image.X image.Y].
  rewrite !Z.sub_0_r.
  replace (image.maxInt <? 4 * nrows * ncols) with false
    by (unfold image.maxInt, maxAlloc in *; lia).
  replace (maxAlloc <? 4 * nrows * ncols) with false by lia.
  reflexivity.
Qed.

(** X14. The variables [minShade] and [maxShade] after the loops of
    [main]. When they are unset before, as they are when the program
    starts, they bound the shade of every cell of the grid afterwards,
    of the cells that fall outside the image as well, and where the
    grid has a cell each of them is the shade of some cell. *)
Theorem trackers_hold_the_extreme_shades {scanner : Scanner}
    filename verbose w0 g w1 w :
  ReadGridFromFile filename verbose w0 = (Ok (inl g), w1) ->
  0 <= ncols g -> 4 * nrows g * ncols g <= maxAlloc ->
  Var.maxShadeSet (vars w) = false -> Var.minShadeSet (vars w) = false ->
  exists img w',
    render g w = (Ok img, w') /\
    (forall row col,
       0 <= row < nrows g -> 0 <= col < ncols g ->
       Var.minShade (vars w') <= shadeOf g (vars w) (row, col)
         <= Var.maxShade (vars w')) /\
    (0 < nrows g -> 0 < ncols g ->
     (exists row col,
        0 <= row < nrows g /\ 0 <= col < ncols g /\
        shadeOf g (vars w) (row, col) = Var.minShade (vars w')) /\
     (exists row col,
        0 <= row < nrows g /\ 0 <= col < ncols g /\
        shadeOf g (vars w) (row, col) = Var.maxShade (vars w'))).
Proof.
  intros Hread Hnc Hsize Hmx Hmn.
  pose proof (ReadGridFromFile_wellformed _ _ _ _ _ Hread) as Hwf.
  pose proof Hwf as (Hnr & _ & _).
  rewrite render_visits by assumption.
  rewrite (bind_Ok _ _ _ _ _ (NewRGBA_run _ _ w Hnr Hnc Hsize)).
  destruct (foldM_draw_tracks g Hwf (visitOrder (nrows g) (ncols g))
              (image.mkImage ∅ (image.mkRectangle (image.mkPoint 0 0)
                                  (image.mkPoint (nrows g) (ncols g)))) w [])
    as (img & w' & Hrun & _ & Ht);
    [apply Forall_forall; intros cell Hcell; apply visitOrder_cells; exact Hcell
    | split; assumption |].
  exists img, w'. split; [exact Hrun |].
  rewrite app_nil_r in Ht.
  assert (Hmem : forall s,
    In s (rev (shadeOf g (vars w) <$> visitOrder (nrows g) (ncols g))) <->
    exists row col, 0 <= row < nrows g /\ 0 <= col < ncols g /\
                    shadeOf g (vars w) (row, col) = s).
  { intros s. rewrite <- in_rev, <- list_elem_of_In, list_elem_of_fmap. split.
    - intros ([row col] & -> & Hcell). apply visitOrder_cells in Hcell.
      exists row, col. cbn in Hcell. repeat split; lia.
    - intros (row & col & Hr & Hc & <-). exists (row, col).
      split; [reflexivity | apply visitOrder_cells; cbn; lia]. }
  destruct (rev (shadeOf g (vars w) <$> visitOrder (nrows g) (ncols g)))
    as [| s ss] eqn:Hss.
  - split.
    + intros row col Hr Hc.
      destruct (proj2 (Hmem (shadeOf g (vars w) (row, col)))) as [];
        eauto 6.
    + intros Hpr Hpc.
      destruct (proj2 (Hmem (shadeOf g (vars w) (0, 0)))) as [].
      exists 0, 0. repeat split; lia.
  - destruct Ht as (_ & _ & Hinmax & Hinmin & Hall). split.
    + intros row col Hr Hc.
      rewrite Forall_forall in Hall. apply Hall.
      apply list_elem_of_In, Hmem. eauto 6.
    + intros _ _. split; apply Hmem; assumption.
Qed.

Lemma trackers_hold_the_extreme_shades_witness :
  exists img w',
    render (gridOf example4x4)
           (withBounds (Float32.of_Z 0) (Float32.of_Z 2000) (worldWith example4x4))
      = (Ok img, w') /\
    Var.minShade (vars w') <= 127 <= Var.maxShade (vars w').
Proof.
  destruct (trackers_hold_the_extreme_shades (scanner := decimal) tile false
              (worldWith example4x4) (gridOf example4x4)
              (snd (read example4x4))
              (withBounds (Float32.of_Z 0) (Float32.of_Z 2000)
                          (worldWith example4x4)))
    as (img & w' & Hrun & Hall & _).
  - vm_compute; reflexivity.
  - vm_compute; discriminate.
  - vm_compute; discriminate.
  - reflexivity.
  - reflexivity.
  - exists img, w'. split; [exact Hrun |].
    assert (E : shadeOf (gridOf example4x4)
                  (vars (withBounds (Float32.of_Z 0) (Float32.of_Z 2000)
                                    (worldWith example4x4))) (3, 0) = 127)
      by (vm_compute; reflexivity).
    rewrite <- E.
    apply Hall; vm_compute; (split; [discriminate | reflexivity]).
Defined.

(** X19. The image of any grid that was read. It is [nrows] wide and
    [ncols] high, where the cells are addressed as [ncols] wide and
    [nrows] high: the pixel [(x, y)] is the grey of the cell in row [y]
    and column [x] where both [x] and [y] are below the lesser of [nrows]
    and [ncols], and every other pixel is as allocated, all zero. *)
Theorem render_draws_what_fits {scanner : Scanner} filename verbose w0 g w1 w :
  ReadGridFromFile filename verbose w0 = (Ok (inl g), w1) ->
  0 <= ncols g -> 4 * nrows g * ncols g <= maxAlloc ->
  exists img w',
    render g w = (Ok img, w') /\
    image.Bounds img = image.mkRectangle (image.mkPoint 0 0)
                                         (image.mkPoint (nrows g) (ncols g)) /\
    forall x y,
      image.RGBAAt img x y =
      if bool_decide (0 <= x < Z.min (nrows g) (ncols g) /\
                      0 <= y < Z.min (nrows g) (ncols g))
      then grey (shadeOf g (vars w) (y, x))
      else color.mkRGBA 0 0 0 0.
Proof.
  intros Hread Hnc Hsize.
  pose proof (ReadGridFromFile_wellformed _ _ _ _ _ Hread) as Hwf.
  pose proof Hwf as (Hnr & _ & _).
  unfold render. cbn zeta. unfold Nrows, Ncols.
  rewrite (bind_Ok _ _ _ _ _ (NewRGBA_run _ _ w Hnr Hnc Hsize)).
  destruct (rowLoop_run g Hwf Hnc (Z.to_nat (nrows g - 1 + 1)) (nrows g - 1)
              (image.mkImage ∅ (image.mkRectangle (image.mkPoint 0 0)
                                  (image.mkPoint (nrows g) (ncols g)))) w)
    as (img & w' & Hloop & _ & Hb & Hpix); [lia | lia |].
  exists img, w'. split; [exact Hloop |]. split; [exact Hb |].
  intros x y. rewrite Hpix. unfold shadeOf. cbn [fst snd].
  assert (Hzero : image.RGBAAt
                    (image.mkImage ∅ (image.mkRectangle (image.mkPoint 0 0)
                                        (image.mkPoint (nrows g) (ncols g)))) x y
                  = color.mkRGBA 0 0 0 0).
  { unfold image.RGBAAt. destruct (negb _); [reflexivity |].
    cbn [image.Pix]. rewrite lookup_empty. reflexivity. }
  rewrite Hzero.
  unfold image.In. cbn [image.Bounds image.Min image.Max image.X image.Y].
  destruct (decide (0 <= x < Z.min (nrows g) (ncols g) /\
                    0 <= y < Z.min (nrows g) (ncols g))) as [Hin | Hout].
  - rewrite !bool_decide_eq_true_2 by lia.
    replace ((0 <=? x) && (x <? nrows g) && (0 <=? y) && (y <? ncols g))
      with true by (symmetry; rewrite !andb_true_iff; lia).
    reflexivity.
  - rewrite (bool_decide_eq_false_2 _ Hout).
    destruct (bool_decide (0 <= y <= nrows g - 1 /\ 0 <= x < ncols g)) eqn:Hcell;
      [| reflexivity].
    apply bool_decide_eq_true_1 in Hcell.
    replace ((0 <=? x) && (x <? nrows g) && (0 <=? y) && (y <? ncols g))
      with false; [reflexivity |].
    symmetry. rewrite !andb_false_iff. lia.
Qed.

Lemma render_draws_what_fits_witness :
  exists img w',
    render (gridOf example2x4)
           (withBounds (Float32.of_Z 0) (Float32.of_Z 2000) (worldWith example2x4))
      = (Ok img, w') /\
    image.RGBAAt img 3 0 = color.mkRGBA 0 0 0 0.
Proof.
  destruct (render_draws_what_fits (scanner := decimal) tile false
              (worldWith example2x4) (gridOf example2x4)
              (snd (read example2x4))
              (withBounds (Float32.of_Z 0) (Float32.of_Z 2000)
                          (worldWith example2x4)))
    as (img & w' & Hrun & _ & Hpix).
  - vm_compute; reflexivity.
  - vm_compute; discriminate.
  - vm_compute; discriminate.
  - exists img, w'. split; [exact Hrun |].
    rewrite Hpix.
    rewrite bool_decide_eq_false_2; [reflexivity |].
    vm_compute. intros [[_ H] _]. discriminate.
Defined.

End RenderExtras.

Module MainExtras.
Import fmt bufio esri tiler GridSpec RenderSpec MainSpec MoreSpec Examples.
Import esriFacts ParserFacts ShaderFacts RenderFacts MainFacts.
Import GridExtras ParserExtras RenderExtras.
Local Open Scope string_scope.
Local Open Scope Z_scope.

Section Main.
Context {scanner : Scanner} {encoder : png.Encoder}.

(** X15. The output file cannot be created: [main] logs the error of
    [os.Create] and ends; no file is changed and nothing else is logged,
    the input is not opened. *)
Theorem uncreatable_output_ends_the_run flags w :
  flag_output flags ∈ denied w ->
  exists w',
    main flags w = (Ok tt, w') /\
    files w' = files w /\
    logged w' = Printf (Error (PathError "open" (flag_output flags))) [] :: logged w.
Proof.
  intros Hout. unfold main.
  erewrite bind_Ok by reflexivity.
  assert (Hcreate : forall w0, denied w0 = denied w ->
            os_Create (flag_output flags) w0
              = (Ok (inr (PathError "open" (flag_output flags))), w0)).
  { intros w0 Hd. unfold os_Create. rewrite Hd.
    destruct (decide _); [reflexivity | contradiction]. }
  destruct (flag_floor flags), (flag_ceiling flags);
    repeat (erewrite bind_Ok by reflexivity);
    (erewrite bind_Ok by (apply Hcreate; reflexivity));
    eexists; (split; [reflexivity |]); split; reflexivity.
Qed.

(** ** From the grid to the encoder *)

(** A run in which a grid is read comes to call [png.Encode] with the
    image that [render] makes under the floor and the ceiling of the
    command line or of the grid; the output file is empty then. *)
Lemma main_to_encode flags fs locked g w1 :
  flag_output flags ∉ locked ->
  ReadGridFromFile (flag_input flags) (flag_verbose flags)
                   (beforeRead flags (start fs locked)) = (Ok (inl g), w1) ->
  0 <= ncols g -> 4 * nrows g * ncols g <= maxAlloc ->
  exists img w3,
    main flags (start fs locked)
      = (err ← png.Encode (flag_output flags) img;
         minShade ← gets Var.minShade;
         maxShade ← gets Var.maxShade;
         log_Printf "%d %d %f %f %d %d"
                    [AInt (Nrows g); AInt (Ncols g);
                     AFloat (MinHeight g); AFloat (MaxHeight g);
                     AInt minShade; AInt maxShade]) w3 /\
    files w3 = <[flag_output flags := EmptyString]> fs /\
    image.Bounds img = image.Rect 0 0 (Nrows g) (Ncols g) /\
    forall row col,
      0 <= row < nrows g -> 0 <= col < ncols g ->
      image.In (image.mkPoint col row) (image.Bounds img) = true ->
      image.RGBAAt img col row =
        grey (shadeValue (floorOf flags g) (ceilingOf flags g) (sample g row col)).
Proof.
  intros Hout Hread Hnc Hsize.
  pose proof (ReadGridFromFile_wellformed _ _ _ _ _ Hread) as Hwf.
  rewrite main_after_setup by exact Hout. unfold afterSetup.
  rewrite (bind_Ok _ _ _ _ _ Hread).
  destruct (logs_only_ReadGridFromFile (flag_input flags) (flag_verbose flags)
              (beforeRead flags (start fs locked))) as (Hf & Hd & Hv & _).
  rewrite Hread in Hf, Hd, Hv. cbn [snd] in Hf, Hd, Hv.
  destruct w1 as [fs1 dn1 lg1 v1]. cbn in Hf, Hd, Hv. subst fs1 dn1 v1.
  unfold floorOf, ceilingOf.
  destruct flags as [input output [floor64 |] [ceiling64 |] verbose];
    cbn [flag_floor flag_ceiling flag_output flag_input flag_verbose default] in *;
    repeat (erewrite bind_Ok by reflexivity);
    match goal with |- context [(render g ≫= _) ?w2] =>
      destruct (render_run g Hwf w2 Hnc Hsize)
        as (img & w3 & Hrender & Hk & Hb & Hpix)
    end;
    rewrite (bind_Ok _ _ _ _ _ Hrender);
    erewrite bind_Ok by reflexivity;
    exists img; eexists; (split; [reflexivity |]);
    (split; [cbn [files]; destruct Hk as (-> & _); reflexivity |]);
    (split; [exact Hb |]); exact Hpix.
Qed.

(** X16. A run in which a grid with cells is read. The output file holds
    the encoding of an image in which the cell [(row, col)], where it
    lies within the image, is the grey of its shade between the floor and
    the ceiling; these are the values of the command line, and without
    them the least height less 0.1 and the greatest height plus 0.1. *)
Theorem main_writes_the_image flags fs locked g w1 :
  flag_output flags ∉ locked ->
  ReadGridFromFile (flag_input flags) (flag_verbose flags)
                   (beforeRead flags (start fs locked)) = (Ok (inl g), w1) ->
  0 < nrows g < 2 ^ 32 -> 0 < ncols g < 2 ^ 32 ->
  4 * nrows g * ncols g <= maxAlloc ->
  exists img w',
    main flags (start fs locked) = (Ok tt, w') /\
    files w' = <[flag_output flags := png.encoding img]> fs /\
    image.Bounds img = image.Rect 0 0 (Nrows g) (Ncols g) /\
    forall row col,
      0 <= row < nrows g -> 0 <= col < ncols g ->
      image.In (image.mkPoint col row) (image.Bounds img) = true ->
      image.RGBAAt img col row =
        grey (shadeValue (floorOf flags g) (ceilingOf flags g) (sample g row col)).
Proof.
  intros Hout Hread Hnr Hnc Hsize.
  destruct (main_to_encode flags fs locked g w1 Hout Hread ltac:(lia) Hsize)
    as (img & w3 & -> & Hfiles & Hb & Hpix).
  exists img. eexists. split; [| split; [| split; [exact Hb | exact Hpix]]].
  - unfold png.Encode. cbn zeta. rewrite Hb.
    unfold image.Rect, Nrows, Ncols.
    replace (0 >? nrows g) with false by lia.
    replace (0 >? ncols g) with false by lia.
    unfold image.Dx, image.Dy. cbn [image.Max image.Min image.X image.Y].
    rewrite !Z.sub_0_r.
    replace ((nrows g <=? 0) || (ncols g <=? 0) || (2 ^ 32 <=? nrows g)
             || (2 ^ 32 <=? ncols g)) with false
      by (symmetry; repeat (apply orb_false_iff; split); lia).
    repeat (erewrite bind_Ok by reflexivity). reflexivity.
  - cbn [files]. rewrite Hfiles, lookup_insert_eq. cbn [default append].
    apply insert_insert_eq.
Qed.

(** X17. A grid without cells. The image has no pixels, [png.Encode]
    refuses it, and [main] drops that error: the run ends with the line
    of figures in the log, as a run that wrote an image does, and leaves
    the output file empty. *)
Theorem empty_image_is_not_reported flags fs locked g w1 :
  flag_output flags ∉ locked ->
  ReadGridFromFile (flag_input flags) (flag_verbose flags)
                   (beforeRead flags (start fs locked)) = (Ok (inl g), w1) ->
  0 <= ncols g -> nrows g = 0 \/ ncols g = 0 ->
  exists w' minShade maxShade,
    main flags (start fs locked) = (Ok tt, w') /\
    files w' = <[flag_output flags := EmptyString]> fs /\
    hd_error (logged w')
      = Some (Printf "%d %d %f %f %d %d"
                     [AInt (nrows g); AInt (ncols g);
                      AFloat (MinHeight g); AFloat (MaxHeight g);
                      AInt minShade; AInt maxShade]).
Proof.
  intros Hout Hread Hnc Hempty.
  pose proof (ReadGridFromFile_wellformed _ _ _ _ _ Hread) as (Hnr & _ & _).
  destruct (main_to_encode flags fs locked g w1 Hout Hread Hnc ltac:(unfold maxAlloc; nia))
    as (img & w3 & -> & Hfiles & Hb & _).
  unfold png.Encode. cbn zeta. rewrite Hb.
  unfold image.Rect, Nrows, Ncols.
  replace (0 >? nrows g) with false by lia.
  replace (0 >? ncols g) with false by lia.
  unfold image.Dx, image.Dy. cbn [image.Max image.Min image.X image.Y].
  rewrite !Z.sub_0_r.
  replace ((nrows g <=? 0) || (ncols g <=? 0)) with true
    by (symmetry; apply orb_true_iff; lia).
  cbn [orb].
  repeat (erewrite bind_Ok by reflexivity).
  eexists _, _, _. split; [reflexivity |]. split; [exact Hfiles | reflexivity].
Qed.

(** X18. The input named as the output as well. [os.Create] empties the
    file before it is read: the parser finds no line, [main] logs [EOF]
    and ends, and the data are lost. *)
Theorem input_as_output_is_emptied flags w :
  flag_input flags = flag_output flags ->
  flag_output flags ∉ denied w ->
  exists w',
    main flags w = (Ok tt, w') /\
    files w' = <[flag_input flags := EmptyString]> (files w) /\
    hd_error (logged w') = Some (Printf (Error io_EOF) []).
Proof.
  intros Hsame Hout. rewrite main_after_setup by exact Hout.
  unfold afterSetup.
  erewrite bind_Ok
    by (apply (ReadGridFromFile_no_line _ _ _ EmptyString);
        [cbn [files beforeRead]; rewrite Hsame; apply lookup_insert_eq
        | reflexivity]).
  eexists. split; [reflexivity |]. rewrite Hsame. split; reflexivity.
Qed.

End Main.

Lemma uncreatable_output_ends_the_run_witness :
  exists w',
    main (scanner := decimal) (encoder := markEncoder)
         (mkFlags tile "out.png" None None false)
         (start {[ tile := example4x4 ]} {[ "out.png" ]}) = (Ok tt, w') /\
    files w' = {[ tile := example4x4 ]}.
Proof.
  destruct (uncreatable_output_ends_the_run (scanner := decimal)
              (encoder := markEncoder)
              (mkFlags tile "out.png" None None false)
              (start {[ tile := example4x4 ]} {[ "out.png" ]}))
    as (w' & Hrun & Hfiles & _).
  - change ("out.png" ∈ ({[ "out.png" ]} : gset string)).
    apply elem_of_singleton_2. reflexivity.
  - exists w'. split; [exact Hrun | exact Hfiles].
Defined.

Lemma main_writes_the_image_witness :
  exists w',
    main (scanner := decimal) (encoder := markEncoder)
         (mkFlags tile "out.png" None None false)
         (start {[ tile := example4x4 ]} ∅) = (Ok tt, w') /\
    files w' = <[ "out.png" := "PNG" ]> {[ tile := example4x4 ]}.
Proof.
  destruct (main_writes_the_image (scanner := decimal) (encoder := markEncoder)
              (mkFlags tile "out.png" None None false)
              {[ tile := example4x4 ]} ∅ (gridOf example4x4)
              (snd (ReadGridFromFile (scanner := decimal) tile false
                      (beforeRead (mkFlags tile "out.png" None None false)
                                  (start {[ tile := example4x4 ]} ∅)))))
    as (img & w' & Hrun & Hfiles & _).
  - apply not_elem_of_empty.
  - vm_compute; reflexivity.
  - vm_compute; split; reflexivity.
  - vm_compute; split; reflexivity.
  - vm_compute; discriminate.
  - exists w'. split; [exact Hrun | exact Hfiles].
Defined.

Lemma empty_image_is_not_reported_witness :
  exists w',
    main (scanner := decimal) (encoder := markEncoder)
         (mkFlags tile "out.png" None None false)
         (start {[ tile := header "4" "0" ]} ∅) = (Ok tt, w') /\
    files w' = <[ "out.png" := EmptyString ]> {[ tile := header "4" "0" ]}.
Proof.
  destruct (empty_image_is_not_reported (scanner := decimal)
              (encoder := markEncoder)
              (mkFlags tile "out.png" None None false)
              {[ tile := header "4" "0" ]} ∅
              (allocated 4 0 (Float32.of_Z 513000) (Float32.of_Z 152000)
                         (Float32.of_Z 1) (-9999))
              (snd (ReadGridFromFile (scanner := decimal) tile false
                      (beforeRead (mkFlags tile "out.png" None None false)
                                  (start {[ tile := header "4" "0" ]} ∅)))))
    as (w' & mn & mx & Hrun & Hfiles & _).
  - apply not_elem_of_empty.
  - vm_compute; reflexivity.
  - discriminate.
  - left. reflexivity.
  - exists w'. split; [exact Hrun | exact Hfiles].
Defined.

Lemma input_as_output_is_emptied_witness :
  exists w',
    main (scanner := decimal) (encoder := markEncoder)
         (mkFlags tile tile None None false)
         (start {[ tile := example4x4 ]} ∅) = (Ok tt, w') /\
    files w' = <[ tile := EmptyString ]> {[ tile := example4x4 ]}.
Proof.
  destruct (input_as_output_is_emptied (scanner := decimal)
              (encoder := markEncoder)
              (mkFlags tile tile None None false)
              (start {[ tile := example4x4 ]} ∅))
    as (w' & Hrun & Hfiles & _).
  - reflexivity.
  - apply not_elem_of_empty.
  - exists w'. split; [exact Hrun | exact Hfiles].
Defined.

End MainExtras.

